(** * Form automation: a shallow embedding of form_filler.py,
      form_analyzer.py and bdo_form_filler.py

    The browser is an external collaborator.  Every call the Python code
    makes on the Selenium driver is recorded, in order, in a trace of
    events, and the answer to a call is given by an oracle that sees the
    trace so far.  The oracle may answer any call with an exception, so the
    control flow of every [try]/[except] of the source is exercised.

    Strings are sequences of 8-bit characters; [lower] is Python's
    [str.lower] on ASCII letters.  Not modelled: [time.sleep] and
    [random.uniform], which only pace the calls; the text of the log
    records, each format string being a constructor of [log_msg]; and
    failures of [print] and of [logging]. *)

From Stdlib Require Import List String Ascii Bool Arith ZArith Lia.
From Stdlib Require Import Permutation DecimalString DecimalZ DecimalPos.
Import ListNotations.
Open Scope string_scope.
Open Scope list_scope.

(** ** Python string primitives *)

Module PyStr.

Definition is_upper (c : ascii) : bool :=
  let n := nat_of_ascii c in Nat.leb 65 n && Nat.leb n 90.

Definition is_lower (c : ascii) : bool :=
  let n := nat_of_ascii c in Nat.leb 97 n && Nat.leb n 122.

Definition is_digit (c : ascii) : bool :=
  let n := nat_of_ascii c in Nat.leb 48 n && Nat.leb n 57.

(** The complement of the character class [[^a-zA-Z0-9]]. *)
Definition is_alnum (c : ascii) : bool :=
  is_lower c || is_upper c || is_digit c.

Definition lower_char (c : ascii) : ascii :=
  if is_upper c then ascii_of_nat (nat_of_ascii c + 32) else c.

(** [text.lower()] *)
Fixpoint lower (s : string) : string :=
  match s with
  | EmptyString => EmptyString
  | String c s' => String (lower_char c) (lower s')
  end.

(** [re.sub(r'[^a-zA-Z0-9]', '', s)] *)
Fixpoint keep_alnum (s : string) : string :=
  match s with
  | EmptyString => EmptyString
  | String c s' => if is_alnum c then String c (keep_alnum s') else keep_alnum s'
  end.

(** [sub in s] *)
Fixpoint contains (sub s : string) : bool :=
  prefix sub s ||
  match s with
  | EmptyString => false
  | String _ s' => contains sub s'
  end.

(** [bool(s)]: a string is truthy when it is not empty. *)
Definition truthy (s : string) : bool :=
  match s with EmptyString => false | _ => true end.

(** [s.replace(old, new)] for a non-empty [old]: occurrences are replaced
    from left to right and do not overlap.  [skip] counts the characters
    of the occurrence being replaced that are still to be dropped. *)
Fixpoint replace_from (old new : string) (skip : nat) (s : string) : string :=
  match s with
  | EmptyString => EmptyString
  | String c s' =>
      match skip with
      | S k => replace_from old new k s'
      | O =>
          if prefix old s
          then new ++ replace_from old new (String.length old - 1) s'
          else String c (replace_from old new 0 s')
      end
  end.

Definition replace (old new s : string) : string := replace_from old new 0 s.

(** [s in (x1, ..., xn)] on a tuple of strings *)
Definition in_tuple (s : string) (t : list string) : bool :=
  existsb (String.eqb s) t.

(** [str(n)] for a Python [int] *)
Definition str_of_int (z : Z) : string := NilZero.string_of_int (Z.to_int z).

End PyStr.

(** ** form_analyzer.py: fields and template headers *)

Module Analyzer.

(** class [FormField] *)
Record FormField := {
  name : string;
  field_type : string;
  label : string;
  required : bool
}.

(** The header written in row 1 of the template for one field
    ([create_excel_template], the body of the first [for] loop). *)
Definition header (field : FormField) : string :=
  if required field then label field ++ " *" else label field.

(** The first row of the worksheet, columns 1, 2, ... *)
Definition create_excel_template_headers (form_fields : list FormField) : list string :=
  map header form_fields.

End Analyzer.

(** ** The Selenium driver as a traced oracle *)

Module Selenium.

(** Exceptions raised by the driver or by the Python code itself. *)
Inductive exn :=
| NoSuchElementException
| ElementNotInteractableException
| StaleElementReferenceException
| InvalidSelectorException
| TimeoutException
| WebDriverException
| ValueError (msg : string)
| IndexError
| UnboundLocalError (name : string)
| PyException (msg : string).

(** [selenium.webdriver.common.by.By] *)
Inductive By := CSS_SELECTOR | XPATH | TAG_NAME.

(** A [WebElement] is a handle handed out by the driver. *)
Definition WebElement := nat.

Inductive script_arg :=
| ArgElement (e : WebElement)
| ArgString (s : string).

Inductive level := INFO | WARNING | ERROR.

(** The records written through [logging]; each constructor stands for one
    format string of form_filler.py. *)
Inductive log_msg :=
| ProcessingRow (idx : nat)                 (* "Processing form submission {idx + 1}" *)
| FilledField (field_name value : string)   (* "Filled field '{field_name}' with value: {str_value}" *)
| ErrorFillingField (field_name : string) (e : exn)  (* "Error filling field '{field_name}': {e}" *)
| CouldNotFindField (field_name : string)   (* "Could not find field: {clean_field_name}" *)
| SubmittedForm (idx : nat)                 (* "Submitted form {idx + 1}" *)
| FailedToSubmitForm (idx : nat)            (* "Failed to submit form {idx + 1}" *)
| AttemptFailed (attempt : nat) (e : exn)   (* "Attempt {attempt + 1} failed: {e}" *)
| SubmitStrategyFailed (e : exn)            (* "Submit strategy failed: {e}" *)
| ErrorInFuzzyMatching (e : exn)            (* "Error in fuzzy matching: {e}" *)
| ErrorInFormFilling (e : exn).             (* "Error in form filling process: {e}" *)

(** One entry of the trace: a call on the driver or on an element, or a
    log record. *)
Inductive event :=
| FindElement (by_ : By) (selector : string)        (* driver.find_element(by, selector) *)
| FindElements (by_ : By) (selector : string)       (* driver.find_elements(by, selector) *)
| ElementFindElements (e : WebElement) (by_ : By) (selector : string)
                                                    (* e.find_elements(by, selector) *)
| IsDisplayed (e : WebElement)
| IsEnabled (e : WebElement)
| IsSelected (e : WebElement)
| GetAttribute (e : WebElement) (attr : string)
| TagName (e : WebElement)
| Text (e : WebElement)
| Click (e : WebElement)
| Clear (e : WebElement)
| SendKeys (e : WebElement) (keys : string)
| ExecuteScript (script : string) (args : list script_arg)
| ActionsClickSendKeys (e : WebElement) (keys : string)
    (* actions.move_to_element(e).click().send_keys(keys).perform() *)
| ActionsClick (e : WebElement)
    (* actions.move_to_element(e).click().perform() *)
| WaitClickable (by_ : By) (selector : string)
    (* wait.until(EC.element_to_be_clickable((by, selector))) *)
| Get (url : string)
| Quit
| Log (lvl : level) (msg : log_msg).

Definition trace := list event.

Inductive result (A : Type) :=
| Ok (a : A)
| Raise (e : exn).
Arguments Ok {A} a.
Arguments Raise {A} e.

(** The browser: for a call and the trace before it, the value returned
    or the exception raised, one oracle per return type. *)
Record Env := {
  ask_unit : trace -> event -> result unit;
  ask_bool : trace -> event -> result bool;
  ask_attr : trace -> event -> result (option string);
  ask_str : trace -> event -> result string;
  ask_element : trace -> event -> result WebElement;
  ask_elements : trace -> event -> result (list WebElement)
}.

(** A computation reads the trace so far and gives the events it appends
    to it, in order, together with its result. *)
Definition M (A : Type) : Type := trace -> list event * result A.

Definition ret {A} (a : A) : M A := fun _ => ([], Ok a).

Definition raise {A} (e : exn) : M A := fun _ => ([], Raise e).

Definition bind {A B} (m : M A) (k : A -> M B) : M B :=
  fun t =>
    match m t with
    | (evs1, Ok a) =>
        match k a (t ++ evs1) with
        | (evs2, r) => (evs1 ++ evs2, r)
        end
    | (evs1, Raise e) => (evs1, Raise e)
    end.

(** [try: m  except <classes>: handler], where [catches e] tells whether
    [e] is an instance of one of the classes. *)
Definition try_except {A} (m : M A) (catches : exn -> bool) (handler : exn -> M A) : M A :=
  fun t =>
    match m t with
    | (evs1, Ok a) => (evs1, Ok a)
    | (evs1, Raise e) =>
        if catches e
        then match handler e (t ++ evs1) with
             | (evs2, r) => (evs1 ++ evs2, r)
             end
        else (evs1, Raise e)
    end.

(** [try: m  finally: cleanup] *)
Definition try_finally {A} (m : M A) (cleanup : M unit) : M A :=
  fun t =>
    match m t with
    | (evs1, r) =>
        match cleanup (t ++ evs1) with
        | (evs2, Ok _) => (evs1 ++ evs2, r)
        | (evs2, Raise e) => (evs1 ++ evs2, Raise e)
        end
    end.

(** [except Exception] and a bare [except:] catch every exception of the
    model. *)
Definition any_exception (e : exn) : bool := true.

(** A call is appended to the trace; the oracle answers from the trace
    before the call. *)
Definition call {A} (ask : trace -> event -> result A) (ev : event) : M A :=
  fun t => ([ev], ask t ev).

Definition log (lvl : level) (msg : log_msg) : M unit :=
  fun _ => ([Log lvl msg], Ok tt).

(** The trace of a whole run, started in a fresh process. *)
Definition run {A} (m : M A) : list event * result A := m [].

End Selenium.

Declare Scope py_scope.
Delimit Scope py_scope with py.
Notation "x <- m ;; k" := (Selenium.bind m (fun x => k))
  (at level 61, m at next level, right associativity) : py_scope.
Notation "m ;; k" := (Selenium.bind m (fun _ => k))
  (at level 61, right associativity) : py_scope.

(** ** form_filler.py: pure helpers *)

Module Filler.

Import PyStr.

(** [FormFiller.normalize_string] *)
Definition normalize_string (text : string) : string :=
  keep_alnum (lower text).

(** [FormFiller.strings_similar] *)
Definition strings_similar (str1 str2 : string) : bool :=
  let norm1 := normalize_string str1 in
  let norm2 := normalize_string str2 in
  contains norm1 norm2 || contains norm2 norm1.

(** [fill_form]: "Remove asterisk from required field labels", for a
    column name that is a [str]. *)
Definition clean_field_name (field_name : string) : string :=
  replace " *" "" field_name.

(** *** Cell values of the spreadsheet, as [pandas] hands them out *)

Inductive scalar :=
| NaN                       (* a blank cell: [float('nan')] *)
| PyNone                    (* [None] *)
| Str (s : string)
| Int (z : Z)
| Bool (b : bool)
| Float (repr : string).    (* a float that is not NaN; [repr] is its [str()] *)

(** [pd.isna(value)] *)
Definition isna (value : scalar) : bool :=
  match value with
  | NaN | PyNone => true
  | _ => false
  end.

(** [str(value)] *)
Definition py_str (value : scalar) : string :=
  match value with
  | NaN => "nan"
  | PyNone => "None"
  | Str s => s
  | Int z => str_of_int z
  | Bool true => "True"
  | Bool false => "False"
  | Float repr => repr
  end.

(** [str(value) if pd.notna(value) and value is not None else ""] *)
Definition str_value_of (value : scalar) : string :=
  if negb (isna value) && negb (match value with PyNone => true | _ => false end)
  then py_str value else "".

(** [str_value.lower() in ('true', 'yes', '1', 'on')] *)
Definition desired_state (str_value : string) : bool :=
  in_tuple (lower str_value) ["true"; "yes"; "1"; "on"].

(** A row of the data frame ([df.iloc[idx]]): a value for every column
    name of the frame; [row[field_name]] is [row field_name]. *)
Definition Series := string -> scalar.

(** A row given by its non-blank cells. *)
Fixpoint series_of (cells : list (string * scalar)) : Series :=
  fun field_name =>
    match cells with
    | [] => NaN
    | (k, v) :: rest => if String.eqb k field_name then v else series_of rest field_name
    end.

Record DataFrame := {
  columns : list string;
  rows : list Series
}.

(** class [FormFiller]; the optional attributes [driver], [wait] and
    [actions] are either set or [None]. *)
Record FormFiller := {
  url : string;
  excel_path : string;
  driver : bool;
  wait : bool;
  actions : bool;
  data : option DataFrame
}.

Import Selenium.
Local Open Scope string_scope.
Local Open Scope py_scope.

Section WithBrowser.

Variable env : Env.

Definition find_element by_ sel : M WebElement := call (ask_element env) (FindElement by_ sel).
Definition find_elements by_ sel : M (list WebElement) := call (ask_elements env) (FindElements by_ sel).
Definition element_find_elements e by_ sel : M (list WebElement) :=
  call (ask_elements env) (ElementFindElements e by_ sel).
Definition is_displayed e : M bool := call (ask_bool env) (IsDisplayed e).
Definition is_enabled e : M bool := call (ask_bool env) (IsEnabled e).
Definition is_selected e : M bool := call (ask_bool env) (IsSelected e).
Definition get_attribute e attr : M (option string) := call (ask_attr env) (GetAttribute e attr).
Definition tag_name e : M string := call (ask_str env) (TagName e).
Definition text e : M string := call (ask_str env) (Text e).
Definition click e : M unit := call (ask_unit env) (Click e).
Definition clear e : M unit := call (ask_unit env) (Clear e).
Definition send_keys e keys : M unit := call (ask_unit env) (SendKeys e keys).
Definition execute_script script args : M unit := call (ask_unit env) (ExecuteScript script args).
Definition actions_click_send_keys e keys : M unit := call (ask_unit env) (ActionsClickSendKeys e keys).
Definition actions_click e : M unit := call (ask_unit env) (ActionsClick e).
Definition wait_clickable by_ sel : M WebElement := call (ask_element env) (WaitClickable by_ sel).
Definition driver_get u : M unit := call (ask_unit env) (Get u).
Definition driver_quit : M unit := call (ask_unit env) Quit.

(** *** find_field_by_multiple_strategies *)

Definition strategies (label : string) : list (By * string) :=
  [ (CSS_SELECTOR, "label[for*='" ++ label ++ "'] + input, label[for*='" ++ label
                   ++ "'] + select, label[for*='" ++ label ++ "'] + textarea");
    (XPATH, "//label[contains(translate(text(), 'ABCDEFGHIJKLMNOPQRSTUVWXYZ', 'abcdefghijklmnopqrstuvwxyz'), '"
            ++ lower label ++ "')]//following::input[1]");
    (CSS_SELECTOR, "input[placeholder*='" ++ label ++ "'], textarea[placeholder*='" ++ label ++ "']");
    (CSS_SELECTOR, "input[name*='" ++ label ++ "'], input[id*='" ++ label
                   ++ "'], textarea[name*='" ++ label ++ "'], textarea[id*='" ++ label ++ "']");
    (CSS_SELECTOR, "input[aria-label*='" ++ label ++ "'], textarea[aria-label*='" ++ label ++ "']");
    (CSS_SELECTOR, "input[class*='" ++ label ++ "'], textarea[class*='" ++ label ++ "']");
    (XPATH, "//*[contains(text(), '" ++ label ++ "')]/following::input[1]");
    (CSS_SELECTOR, "input[data-testid*='" ++ label ++ "'], input[data-test*='" ++ label
                   ++ "'], input[data-qa*='" ++ label ++ "']") ].

(** [except (NoSuchElementException, ElementNotInteractableException)] *)
Definition lookup_miss (e : exn) : bool :=
  match e with
  | NoSuchElementException | ElementNotInteractableException => true
  | _ => false
  end.

(** One turn of "Try each strategy": [Some field] stands for [return field],
    [None] for falling through or [continue]. *)
Definition try_strategy (by_ : By) (selector : string) : M (option WebElement) :=
  try_except
    (field <- find_element by_ selector ;;
     displayed <- is_displayed field ;;
     if displayed
     then (enabled <- is_enabled field ;;
           if enabled then ret (Some field) else ret None)
     else ret None)
    lookup_miss
    (fun _ => ret None).

Fixpoint try_strategies (l : list (By * string)) : M (option WebElement) :=
  match l with
  | [] => ret None
  | (by_, selector) :: rest =>
      found <- try_strategy by_ selector ;;
      match found with
      | Some field => ret (Some field)
      | None => try_strategies rest
      end
  end.

(** [for attr in [...]]: [true] stands for [return input_field]. *)
Fixpoint check_attributes (label : string) (input_field : WebElement) (attrs : list string) : M bool :=
  match attrs with
  | [] => ret false
  | attr :: rest =>
      attr_value <- get_attribute input_field attr ;;
      if match attr_value with
         | Some v => truthy v && strings_similar label v
         | None => false
         end
      then ret true
      else check_attributes label input_field rest
  end.

(** [str()] of an optional attribute inside an f-string. *)
Definition format_attr (o : option string) : string :=
  match o with Some v => v | None => "None" end.

(** The XPath of "Check nearby labels"; the f-string reads [tag_name] and
    the [id] attribute twice, left to right. *)
Definition nearby_xpath (input_field : WebElement) : M string :=
  tag1 <- tag_name input_field ;;
  id1 <- get_attribute input_field "id" ;;
  tag2 <- tag_name input_field ;;
  id2 <- get_attribute input_field "id" ;;
  ret ("//label[ancestor::*[count(.|//" ++ tag1 ++ "[@id='" ++ format_attr id1
       ++ "'])=count(//" ++ tag2 ++ "[@id='" ++ format_attr id2 ++ "'])]]").

Fixpoint check_nearby_labels (label : string) (nearby_labels : list WebElement) : M bool :=
  match nearby_labels with
  | [] => ret false
  | nearby_label :: rest =>
      txt <- text nearby_label ;;
      if strings_similar label txt then ret true
      else check_nearby_labels label rest
  end.

Definition fuzzy_attrs : list string := ["name"; "id"; "placeholder"; "aria-label"].

Fixpoint fuzzy_loop (label : string) (all_inputs : list WebElement) : M (option WebElement) :=
  match all_inputs with
  | [] => ret None
  | input_field :: rest =>
      by_attr <- check_attributes label input_field fuzzy_attrs ;;
      if by_attr then ret (Some input_field)
      else
        by_label <- try_except
                      (xp <- nearby_xpath input_field ;;
                       nearby_labels <- find_elements XPATH xp ;;
                       check_nearby_labels label nearby_labels)
                      any_exception
                      (fun _ => ret false) ;;
        if by_label then ret (Some input_field)
        else fuzzy_loop label rest
  end.

(** "If no exact match found, try fuzzy matching on all input fields" *)
Definition fuzzy_fallback (label : string) : M (option WebElement) :=
  try_except
    (all_inputs <- find_elements CSS_SELECTOR "input:not([type='hidden']), textarea, select" ;;
     fuzzy_loop label all_inputs)
    any_exception
    (fun e => log WARNING (ErrorInFuzzyMatching e) ;; ret None).

Definition find_field_by_multiple_strategies (self : FormFiller) (label : string)
  : M (option WebElement) :=
  if negb (driver self) || negb (wait self) then ret None
  else
    found <- try_strategies (strategies label) ;;
    match found with
    | Some field => ret (Some field)
    | None => fuzzy_fallback label
    end.

(** *** safe_send_keys *)

Definition max_attempts : nat := 3.

(** "Normal typing": [for char in value: field.send_keys(char)] *)
Fixpoint type_chars (field : WebElement) (value : string) : M unit :=
  match value with
  | EmptyString => ret tt
  | String char rest => send_keys field (String char EmptyString) ;; type_chars field rest
  end.

Definition set_value_script : string := "arguments[0].value = arguments[1]".

(** "Try different input methods" *)
Definition input_method (self : FormFiller) (attempt : nat) (field : WebElement) (value : string)
  : M unit :=
  match attempt with
  | 0 => type_chars field value
  | 1 => if driver self
         then execute_script set_value_script [ArgElement field; ArgString value]
         else ret tt
  | _ => if actions self then actions_click_send_keys field value else ret tt
  end.

Definition attr_equals (actual_value : option string) (value : string) : bool :=
  match actual_value with
  | Some v => String.eqb v value
  | None => false
  end.

(** The body of the [try] of one attempt; [true] stands for [return]. *)
Definition attempt_body (self : FormFiller) (attempt : nat) (field : WebElement) (value : string)
  : M bool :=
  click field ;;
  clear field ;;
  input_method self attempt field value ;;
  actual_value <- get_attribute field "value" ;;
  ret (attr_equals actual_value value).

Fixpoint attempts_loop (self : FormFiller) (field : WebElement) (value : string)
         (attempts : list nat) : M unit :=
  match attempts with
  | [] => raise (ValueError "Failed to input value after 3 attempts")
  | attempt :: rest =>
      verified <- try_except (attempt_body self attempt field value)
                    any_exception
                    (fun e => log WARNING (AttemptFailed attempt e) ;; ret false) ;;
      if verified then ret tt else attempts_loop self field value rest
  end.

Definition safe_send_keys (self : FormFiller) (field : WebElement) (value : string) : M unit :=
  attempts_loop self field value (seq 0 max_attempts).

(** *** fill_field *)

(** [for option in options]: [true] stands for [select_handled]. *)
Fixpoint select_option (options : list WebElement) (str_value : string) : M bool :=
  match options with
  | [] => ret false
  | option :: rest =>
      txt <- text option ;;
      if strings_similar txt str_value
      then click option ;; ret true
      else select_option rest str_value
  end.

Definition fill_select (self : FormFiller) (field : WebElement) (str_value : string) : M unit :=
  options <- element_find_elements field TAG_NAME "option" ;;
  select_handled <- select_option options str_value ;;
  if negb select_handled && negb (match options with [] => true | _ => false end)
  then (if driver self
        then execute_script set_value_script [ArgElement field; ArgString str_value]
        else ret tt)
  else ret tt.

Definition fill_checkbox (field : WebElement) (str_value : string) : M unit :=
  current_state <- is_selected field ;;
  if negb (Bool.eqb current_state (desired_state str_value))
  then click field
  else ret tt.

Definition fill_radio (field : WebElement) (str_value : string) : M unit :=
  if desired_state str_value then click field else ret tt.

Definition type_is (field_type : option string) (kind : string) : bool :=
  match field_type with
  | Some ty => String.eqb ty kind
  | None => false
  end.

Definition fill_field (self : FormFiller) (field : WebElement) (value : scalar)
           (field_name : string) : M unit :=
  try_except
    (let str_value := str_value_of value in
     if negb (truthy str_value) then ret tt
     else
       field_type <- get_attribute field "type" ;;
       (if type_is field_type "select-one" then fill_select self field str_value
        else if type_is field_type "checkbox" then fill_checkbox field str_value
        else if type_is field_type "radio" then fill_radio field str_value
        else safe_send_keys self field str_value) ;;
       log INFO (FilledField field_name str_value))
    any_exception
    (fun e => log ERROR (ErrorFillingField field_name e)).

(** *** submit_form *)

Definition submit_strategies : list (option (By * string)) :=
  [ Some (CSS_SELECTOR, "button[type='submit'], input[type='submit']");
    Some (CSS_SELECTOR, ".submit-button, .submitButton, .submit");
    Some (XPATH, "//button[contains(translate(text(), 'SUBMIT', 'submit'), 'submit')]");
    Some (CSS_SELECTOR, "input[type='image'][name*='submit']");
    None ].

Definition submit_with (strategy : option (By * string)) : M unit :=
  match strategy with
  | Some (by_, selector) =>
      submit_button <- wait_clickable by_ selector ;;
      actions_click submit_button
  | None => execute_script "document.forms[0].submit()" []
  end.

Fixpoint submit_loop (l : list (option (By * string))) : M bool :=
  match l with
  | [] => ret false
  | strategy :: rest =>
      submitted <- try_except (submit_with strategy ;; ret true)
                     any_exception
                     (fun e => log WARNING (SubmitStrategyFailed e) ;; ret false) ;;
      if submitted then ret true else submit_loop rest
  end.

Definition submit_form (self : FormFiller) : M bool :=
  if negb (driver self) || negb (wait self) || negb (actions self) then ret false
  else submit_loop submit_strategies.

(** *** fill_form *)

(** The body of [for field_name in df.columns] *)
Definition fill_column (self : FormFiller) (row : Series) (field_name : string) : M unit :=
  let value := row field_name in
  if isna value then ret tt
  else
    let clean := clean_field_name field_name in
    field <- find_field_by_multiple_strategies self clean ;;
    match field with
    | Some f => fill_field self f value clean
    | None => log WARNING (CouldNotFindField clean)
    end.

Fixpoint fill_columns (self : FormFiller) (row : Series) (cols : list string) : M unit :=
  match cols with
  | [] => ret tt
  | field_name :: rest => fill_column self row field_name ;; fill_columns self row rest
  end.

(** The body of [for idx in range(total_rows)] *)
Definition process_row (self : FormFiller) (df : DataFrame) (total_rows idx : nat) (row : Series)
  : M unit :=
  log INFO (ProcessingRow idx) ;;
  fill_columns self row (columns df) ;;
  submitted <- submit_form self ;;
  if submitted
  then log INFO (SubmittedForm idx) ;;
       (if Nat.ltb idx (total_rows - 1) then driver_get (url self) else ret tt)
  else log ERROR (FailedToSubmitForm idx).

(** The rows from index [idx] on. *)
Fixpoint rows_loop (self : FormFiller) (df : DataFrame) (total_rows idx : nat)
         (remaining : list Series) : M unit :=
  match remaining with
  | [] => ret tt
  | row :: rest =>
      process_row self df total_rows idx row ;;
      rows_loop self df total_rows (S idx) rest
  end.

Definition fill_form (self : FormFiller) : M unit :=
  match data self with
  | None => ret tt
  | Some df =>
      if negb (driver self) || negb (wait self) then ret tt
      else
        try_finally
          (try_except
             (driver_get (url self) ;;
              rows_loop self df (List.length (rows df)) 0 (rows df))
             any_exception
             (fun e => log ERROR (ErrorInFormFilling e)))
          (if driver self then driver_quit else ret tt)
  end.

End WithBrowser.

(** *** load_excel_data *)

(** The records that [load_excel_data] writes. *)
Inductive load_record :=
| ExcelNotLoaded                 (* error "Excel file could not be loaded" *)
| ExcelEmpty                     (* error "Excel file is empty" *)
| NoDataRows                     (* error "No data rows found in Excel file" *)
| LoadedRows (row_count : nat)   (* info "Loaded {row_count} rows of data from Excel" *)
| ErrorLoading (e : exn).        (* error "Error loading Excel data: {e}" *)

(** [df.empty]: one of the two axes has length 0. *)
Definition empty (df : DataFrame) : bool :=
  match columns df, rows df with
  | [], _ | _, [] => true
  | _, _ => false
  end.

(** [self.data = d] *)
Definition set_data (self : FormFiller) (d : option DataFrame) : FormFiller :=
  {| url := url self;
     excel_path := excel_path self;
     driver := driver self;
     wait := wait self;
     actions := actions self;
     data := d |}.

(** [read_excel] is what [pd.read_excel(self.excel_path)] returns or
    raises.  The result is the object after the call, the records written,
    and the value returned. *)
Definition load_excel_data (read_excel : result (option DataFrame)) (self : FormFiller)
  : FormFiller * list load_record * bool :=
  match read_excel with
  | Raise e => (self, [ErrorLoading e], false)
  | Ok d =>
      let self' := set_data self d in
      match d with
      | None => (self', [ExcelNotLoaded], false)
      | Some df =>
          if empty df then (self', [ExcelEmpty], false)
          else
            let row_count := List.length (rows df) in
            if Nat.eqb row_count 0 then (self', [NoDataRows], false)
            else (self', [LoadedRows row_count], true)
      end
  end.

(** *** A page that answers every call

    A static document served by a driver that never fails: lookups
    answer from [query], the candidates of the fuzzy fallback are
    [inputs] in document order, a checkbox is toggled by each click on it,
    and the value of a text control is what was written into it since it
    was last cleared. *)

Record Page := {
  query : By -> string -> option WebElement;
  displayed : WebElement -> bool;
  enabled : WebElement -> bool;
  inputs : list WebElement;
  attribute : WebElement -> string -> option string;
  tag : WebElement -> string;
  xpath_elements : string -> list WebElement;
  children : WebElement -> list WebElement;
  inner_text : WebElement -> string;
  initially_selected : WebElement -> bool
}.

Definition format_attr_or_empty (o : option string) : string :=
  match o with Some v => v | None => "" end.

Definition inputs_selector : string := "input:not([type='hidden']), textarea, select".

(** The number of [click]s on [e] recorded in a trace. *)
Fixpoint clicks_on (e : WebElement) (t : trace) : nat :=
  match t with
  | [] => 0
  | Click e' :: t' => (if Nat.eqb e e' then 1 else 0) + clicks_on e t'
  | _ :: t' => clicks_on e t'
  end.

(** The value of the control [e] after the calls of a trace. *)
Fixpoint value_after (e : WebElement) (current : string) (t : trace) : string :=
  match t with
  | [] => current
  | Clear e' :: t' => value_after e (if Nat.eqb e e' then "" else current) t'
  | SendKeys e' keys :: t' =>
      value_after e (if Nat.eqb e e' then current ++ keys else current) t'
  | ActionsClickSendKeys e' keys :: t' =>
      value_after e (if Nat.eqb e e' then current ++ keys else current) t'
  | ExecuteScript _ [ArgElement e'; ArgString v] :: t' =>
      value_after e (if Nat.eqb e e' then v else current) t'
  | _ :: t' => value_after e current t'
  end.

Definition page_env (p : Page) : Env := {|
  ask_unit := fun _ _ => Ok tt;
  ask_bool := fun t ev =>
    match ev with
    | IsDisplayed e => Ok (displayed p e)
    | IsEnabled e => Ok (enabled p e)
    | IsSelected e => Ok (xorb (initially_selected p e) (Nat.odd (clicks_on e t)))
    | _ => Ok false
    end;
  ask_attr := fun t ev =>
    match ev with
    | GetAttribute e attr =>
        if String.eqb attr "value"
        then Ok (Some (value_after e (format_attr_or_empty (attribute p e "value")) t))
        else Ok (attribute p e attr)
    | _ => Ok None
    end;
  ask_str := fun _ ev =>
    match ev with
    | TagName e => Ok (tag p e)
    | Text e => Ok (inner_text p e)
    | _ => Ok ""
    end;
  ask_element := fun _ ev =>
    match ev with
    | FindElement by_ selector =>
        match query p by_ selector with
        | Some e => Ok e
        | None => Raise NoSuchElementException
        end
    | WaitClickable by_ selector =>
        match query p by_ selector with
        | Some e => Ok e
        | None => Raise TimeoutException
        end
    | _ => Raise WebDriverException
    end;
  ask_elements := fun _ ev =>
    match ev with
    | FindElements CSS_SELECTOR selector =>
        if String.eqb selector inputs_selector then Ok (inputs p) else Ok []
    | FindElements XPATH selector => Ok (xpath_elements p selector)
    | ElementFindElements e _ _ => Ok (children p e)
    | _ => Ok []
    end
|}.

(** *** Classes of events *)

(** The calls by which the resolver inspects the page, and its warning. *)
Definition is_lookup (ev : event) : bool :=
  match ev with
  | FindElement _ _ | FindElements _ _ | IsDisplayed _ | IsEnabled _
  | GetAttribute _ _ | TagName _ | Text _
  | Log WARNING (ErrorInFuzzyMatching _) => true
  | _ => false
  end.

(** The calls that change a control or act on the page. *)
Definition is_write (ev : event) : bool :=
  match ev with
  | Click _ | Clear _ | SendKeys _ _ | ExecuteScript _ _
  | ActionsClickSendKeys _ _ | ActionsClick _ => true
  | _ => false
  end.

(** The events of the session loop itself: navigation, the log records of
    [fill_form], and the final [quit]. *)
Definition is_session (ev : event) : bool :=
  match ev with
  | Get _ | Quit
  | Log _ (ProcessingRow _) | Log _ (SubmittedForm _)
  | Log _ (FailedToSubmitForm _) | Log _ (ErrorInFormFilling _) => true
  | _ => false
  end.

Definition is_log (ev : event) : bool :=
  match ev with Log _ _ => true | _ => false end.

(** *** Properties of a trace, step by step

    [all_steps ok hist evs]: every event of [evs] is accepted by [ok], which
    sees the events before it ([hist] first). *)
Fixpoint all_steps (ok : trace -> event -> bool) (hist : trace) (evs : list event) : bool :=
  match evs with
  | [] => true
  | ev :: rest => ok hist ev && all_steps ok (hist ++ [ev])%list rest
  end.

Definition last_event (t : trace) : option event :=
  match rev t with
  | [] => None
  | ev :: _ => Some ev
  end.

End Filler.


(** ** bdo_form_filler.py: the batch submitter *)

Module BDO.

Import Selenium.
Local Open Scope string_scope.

(** *** Python list slices *)

(** [l[:k]] *)
Definition slice_to {A} (l : list A) (k : Z) : list A :=
  if (0 <=? k)%Z then firstn (Z.to_nat k) l
  else firstn (List.length l - Z.to_nat (- k)) l.

(** [l[k:]] *)
Definition slice_from {A} (l : list A) (k : Z) : list A :=
  if (0 <=? k)%Z then skipn (Z.to_nat k) l
  else skipn (List.length l - Z.to_nat (- k)) l.

(** [x in l] for a list of strings *)
Definition mem (x : string) (l : list string) : bool := existsb (String.eqb x) l.

(** *** The browser of one batch

    Each turn of the loop starts a fresh browser.  Its answers are given
    per call: [started] tells whether [BDOFormFiller()] returns,
    [setup_driver()] is true and [driver] is set; the other fields answer
    the calls made on the driver, per window handle. *)
Record Tab := {
  switch_to_window : result unit;   (* driver.switch_to.window(handle), before submitting *)
  click_next : result bool;         (* the script that clicks the Next button *)
  popup_clickable : result unit;    (* WebDriverWait(driver, 3).until(...) on personalbtn *)
  click_popup : result unit         (* the script that clicks the popup button *)
}.

Record Browser := {
  started : bool;
  is_chrome : bool;                              (* isinstance(driver, webdriver.Chrome) *)
  open_tabs : nat -> result unit;                (* execute_script of n times window.open('') *)
  window_handles : result (list string);
  load_form : string -> result unit;             (* switch_to.window(handle); get(url) *)
  fill_tab : string -> string -> result unit;    (* switch_to.window(handle); the fill script *)
  tab : string -> string -> Tab
}.

(** *** The local variables of [process_batch]

    [batch] is unbound until the first batch is cut.  [batches] is not a
    variable of the program: it records the batches cut so far, oldest
    first. *)
Record State := {
  successful : list string;
  failed : list string;
  remaining_numbers : list string;
  batch : option (list string);
  batches : list (list string)
}.

Definition B (A : Type) : Type := State -> State * result A.

Definition ret {A} (a : A) : B A := fun st => (st, Ok a).
Definition raise {A} (e : exn) : B A := fun st => (st, Raise e).
Definition bind {A C} (m : B A) (k : A -> B C) : B C :=
  fun st =>
    match m st with
    | (st', Ok a) => k a st'
    | (st', Raise e) => (st', Raise e)
    end.
Definition try_except {A} (m : B A) (handler : exn -> B A) : B A :=
  fun st =>
    match m st with
    | (st', Ok a) => (st', Ok a)
    | (st', Raise e) => handler e st'
    end.
Definition lift {A} (r : result A) : B A := fun st => (st, r).
Definition get_state : B State := fun st => (st, Ok st).

Definition append_successful (phone : string) : B unit :=
  fun st => ({| successful := successful st ++ [phone];
                failed := failed st;
                remaining_numbers := remaining_numbers st;
                batch := batch st;
                batches := batches st |}, Ok tt).

Definition append_failed (phone : string) : B unit :=
  fun st => ({| successful := successful st;
                failed := failed st ++ [phone];
                remaining_numbers := remaining_numbers st;
                batch := batch st;
                batches := batches st |}, Ok tt).

(** [batch = remaining_numbers[:size]; remaining_numbers = remaining_numbers[size:]] *)
Definition cut_batch (size : Z) : B (list string) :=
  fun st =>
    let new_batch := slice_to (remaining_numbers st) size in
    ({| successful := successful st;
        failed := failed st;
        remaining_numbers := slice_from (remaining_numbers st) size;
        batch := Some new_batch;
        batches := batches st ++ [new_batch] |}, Ok new_batch).

Notation "x <- m ;; k" := (bind m (fun x => k))
  (at level 61, m at next level, right associativity).
Notation "m ;; k" := (bind m (fun _ => k))
  (at level 61, right associativity).

(** *** The dictionary [active_tabs], in insertion order *)

Fixpoint dict_set (d : list (string * string)) (key value : string) : list (string * string) :=
  match d with
  | [] => [(key, value)]
  | (k, v) :: d' =>
      if String.eqb k key then (k, value) :: d' else (k, v) :: dict_set d' key value
  end.

(** [for i, phone in enumerate(batch): active_tabs[handles[i]] = phone] *)
Fixpoint assign_tabs (handles : list string) (i : nat) (phones : list string)
         (active_tabs : list (string * string)) : result (list (string * string)) :=
  match phones with
  | [] => Ok active_tabs
  | phone :: rest =>
      match nth_error handles i with
      | Some handle => assign_tabs handles (S i) rest (dict_set active_tabs handle phone)
      | None => Raise IndexError
      end
  end.

(** [for handle, phone in active_tabs.items(): body] *)
Fixpoint for_tabs (active_tabs : list (string * string)) (body : string -> string -> B unit)
  : B unit :=
  match active_tabs with
  | [] => ret tt
  | (handle, phone) :: rest => body handle phone ;; for_tabs rest body
  end.

(** The body of "Submit all forms simultaneously". *)
Definition submit_tab (b : Browser) (handle phone : string) : B unit :=
  lift (switch_to_window (tab b handle phone)) ;;
  try_except
    (next_button <- lift (click_next (tab b handle phone)) ;;
     confirmed <-
       (if next_button
        then try_except
               (lift (popup_clickable (tab b handle phone)) ;;
                lift (click_popup (tab b handle phone)) ;;
                append_successful phone ;;
                ret true)
               (fun _ => ret false)
        else ret false) ;;
     if confirmed then ret tt else append_failed phone)
    (fun _ => append_failed phone).

(** "Add remaining numbers in batch to failed" *)
Fixpoint fail_unrecorded (phones : list string) : B unit :=
  match phones with
  | [] => ret tt
  | phone :: rest =>
      st <- get_state ;;
      (if negb (mem phone (successful st)) && negb (mem phone (failed st))
       then append_failed phone
       else ret tt) ;;
      fail_unrecorded rest
  end.

(** The [except Exception] clause of the loop body. *)
Definition on_batch_error : B unit :=
  st <- get_state ;;
  match batch st with
  | None => raise (UnboundLocalError "batch")
  | Some phones => fail_unrecorded phones
  end.

(** The part of the [try] block that follows the cut of the batch: open the
    tabs, load and fill the form in each, submit each. *)
Definition run_tabs (b : Browser) (phones : list string) : B unit :=
  (if negb (is_chrome b) then raise (PyException "Driver not properly initialized")
   else ret tt) ;;
  lift (open_tabs b (List.length phones - 1)) ;;
  handles <- lift (window_handles b) ;;
  active_tabs <- lift (assign_tabs handles 0 phones []) ;;
  for_tabs active_tabs (fun handle _ => lift (load_form b handle)) ;;
  for_tabs active_tabs (fun handle phone => lift (fill_tab b handle phone)) ;;
  for_tabs active_tabs (submit_tab b).

(** "Determine batch size - first batch 20, then smaller batches" *)
Definition current_batch_size (st : State) (max_tabs : Z) : Z :=
  if Nat.eqb (List.length (successful st) + List.length (failed st)) 0
  then 20%Z else max_tabs.

(** One turn of [while remaining_numbers]; the [finally] clause only quits
    the browser and changes no variable. *)
Definition process_one_batch (b : Browser) (max_tabs : Z) : B unit :=
  try_except
    ((if negb (started b) then raise (PyException "Failed to initialize browser") else ret tt) ;;
     st <- get_state ;;
     phones <- cut_batch (current_batch_size st max_tabs) ;;
     run_tabs b phones)
    (fun _ => on_batch_error).

(** [while remaining_numbers: ...], the browser of turn [turn] being
    [browsers turn]. *)
Fixpoint batch_loop (fuel : nat) (browsers : nat -> Browser) (turn : nat) (max_tabs : Z)
         (st : State) : option (State * result unit) :=
  match fuel with
  | O => None
  | S fuel' =>
      match remaining_numbers st with
      | [] => Some (st, Ok tt)
      | _ :: _ =>
          match process_one_batch (browsers turn) max_tabs st with
          | (st', Ok _) => batch_loop fuel' browsers (S turn) max_tabs st'
          | (st', Raise e) => Some (st', Raise e)
          end
      end
  end.

Definition initial_state (phone_numbers : list string) : State :=
  {| successful := [];
     failed := [];
     remaining_numbers := phone_numbers;
     batch := None;
     batches := [] |}.

(** [process_batch(phone_numbers, max_tabs)]: the final variables and
    [Ok tt] when the function returns [(successful, failed)]. *)
Definition process_batch (fuel : nat) (browsers : nat -> Browser)
           (phone_numbers : list string) (max_tabs : Z) : option (State * result unit) :=
  batch_loop fuel browsers 0 max_tabs (initial_state phone_numbers).

(** The rows of [form_results.xlsx] written by [main], without the
    timestamp column. *)
Definition results_rows (successful_numbers failed_numbers : list string)
  : list (string * string) :=
  combine (successful_numbers ++ failed_numbers)
          (repeat "success" (List.length successful_numbers)
           ++ repeat "failed" (List.length failed_numbers)).

(** *** The data of the form, derived from the phone number *)

(** [s[:k]] on a string, for a literal [k >= 0] *)
Fixpoint str_to (s : string) (k : nat) : string :=
  match k, s with
  | S k', String c s' => String c (str_to s' k')
  | _, _ => EmptyString
  end.

Fixpoint str_skip (s : string) (k : nat) : string :=
  match k, s with
  | S k', String _ s' => str_skip s' k'
  | _, _ => s
  end.

(** [s[-k:]] on a string, for a literal [k > 0] *)
Definition str_last (s : string) (k : nat) : string :=
  str_skip s (String.length s - k).

(** The dictionary passed to the fill script. *)
Record FormData := {
  firstName : string;
  lastName : string;
  phone : string;
  email : string
}.

Definition form_data (phone_number : string) : FormData :=
  {| firstName := str_to phone_number 20;
     lastName := str_to phone_number 20;
     phone := str_last phone_number 11;
     email := str_to (phone_number ++ "@gmail.com") 40 |}.

(** A browser in which everything works: handles [tab0], [tab1], ... and
    a confirmation popup in every tab. *)
Definition working_browser : Browser := {|
  started := true;
  is_chrome := true;
  open_tabs := fun _ => Ok tt;
  window_handles := Ok (map (fun i => "tab" ++ PyStr.str_of_int (Z.of_nat i)) (seq 0 32));
  load_form := fun _ => Ok tt;
  fill_tab := fun _ _ => Ok tt;
  tab := fun _ _ => {| switch_to_window := Ok tt;
                       click_next := Ok true;
                       popup_clickable := Ok tt;
                       click_popup := Ok tt |}
|}.

(** A browser that cannot be started. *)
Definition dead_browser : Browser := {|
  started := false;
  is_chrome := false;
  open_tabs := fun _ => Raise WebDriverException;
  window_handles := Raise WebDriverException;
  load_form := fun _ => Raise WebDriverException;
  fill_tab := fun _ _ => Raise WebDriverException;
  tab := fun _ _ => {| switch_to_window := Raise WebDriverException;
                       click_next := Raise WebDriverException;
                       popup_clickable := Raise TimeoutException;
                       click_popup := Raise WebDriverException |}
|}.

End BDO.

(** ** Traced computations over any type of calls

    The computations of form_analyzer.py and of the methods of
    [BDOFormFiller] make calls that [form_filler.py] does not make.  They
    are written in the same style, over a type of calls of their own. *)

Module Traced.

Import Selenium.

Section Calls.

Variable call : Type.

Definition T (A : Type) : Type := list call -> list call * result A.

Definition ret {A} (a : A) : T A := fun _ => ([], Ok a).

Definition raise {A} (e : exn) : T A := fun _ => ([], Raise e).

Definition bind {A B} (m : T A) (k : A -> T B) : T B :=
  fun t =>
    match m t with
    | (evs1, Ok a) =>
        match k a (t ++ evs1) with
        | (evs2, r) => (evs1 ++ evs2, r)
        end
    | (evs1, Raise e) => (evs1, Raise e)
    end.

Definition try_except {A} (m : T A) (catches : exn -> bool) (handler : exn -> T A) : T A :=
  fun t =>
    match m t with
    | (evs1, Ok a) => (evs1, Ok a)
    | (evs1, Raise e) =>
        if catches e
        then match handler e (t ++ evs1) with
             | (evs2, r) => (evs1 ++ evs2, r)
             end
        else (evs1, Raise e)
    end.

Definition try_finally {A} (m : T A) (cleanup : T unit) : T A :=
  fun t =>
    match m t with
    | (evs1, r) =>
        match cleanup (t ++ evs1) with
        | (evs2, Ok _) => (evs1 ++ evs2, r)
        | (evs2, Raise e) => (evs1 ++ evs2, Raise e)
        end
    end.

(** A call answered by an oracle that sees the calls before it. *)
Definition ask {A} (oracle : list call -> call -> result A) (c : call) : T A :=
  fun t => ([c], oracle t c).

(** A step that cannot fail: a log record, or a change of a variable of
    the object. *)
Definition emit (c : call) : T unit := fun _ => ([c], Ok tt).

End Calls.

Arguments ret {call A} a.
Arguments raise {call A} e.
Arguments bind {call A B} m k.
Arguments try_except {call A} m catches handler.
Arguments try_finally {call A} m cleanup.
Arguments ask {call A} oracle c.
Arguments emit {call} c.

End Traced.

Declare Scope traced_scope.
Delimit Scope traced_scope with traced.
Notation "x <- m ;; k" := (Traced.bind m (fun x => k))
  (at level 61, m at next level, right associativity) : traced_scope.
Notation "m ;; k" := (Traced.bind m (fun _ => k))
  (at level 61, right associativity) : traced_scope.

(** ** form_analyzer.py: the analysis of a page *)

Module Analysis.

Import PyStr Selenium Traced.
Local Open Scope string_scope.
Local Open Scope traced_scope.

(** [c.isspace()] for a character below 256 *)
Definition is_space (c : ascii) : bool :=
  let n := nat_of_ascii c in
  (Nat.leb 9 n && Nat.leb n 13) || (Nat.leb 28 n && Nat.leb n 32)
  || Nat.eqb n 133 || Nat.eqb n 160.

(** [s.lstrip()] *)
Fixpoint lstrip (s : string) : string :=
  match s with
  | EmptyString => EmptyString
  | String c s' => if is_space c then lstrip s' else s
  end.

(** [s.rstrip()] *)
Fixpoint rstrip (s : string) : string :=
  match s with
  | EmptyString => EmptyString
  | String c s' =>
      match rstrip s' with
      | EmptyString => if is_space c then EmptyString else String c EmptyString
      | r => String c r
      end
  end.

(** [s.strip()] *)
Definition strip (s : string) : string := rstrip (lstrip s).

(** [value or default] for the result of [get_attribute] *)
Definition or_else (value : option string) (default : string) : string :=
  match value with
  | Some v => if truthy v then v else default
  | None => default
  end.

(** [a or b] on strings *)
Definition str_or (a b : string) : string := if truthy a then a else b.

(** The records written through [logging]. *)
Inductive log_msg :=
| BrowserSetupCompleted             (* "Browser setup completed successfully" *)
| ErrorSettingUpBrowser (e : exn)   (* "Error setting up browser: {e}" *)
| ErrorGettingFieldInfo (e : exn)   (* "Error getting field info: {e}" *)
| FoundField (label field_type : string)  (* "Found field: {label} ({field_type})" *)
| FoundFields (count : nat)         (* "Found {len(self.form_fields)} form fields" *)
| ErrorAnalyzingForm (e : exn).     (* "Error analyzing form: {e}" *)

Inductive call :=
| StartBrowser
    (* Service(EdgeChromiumDriverManager().install()); webdriver.Edge(...) *)
| Get (url : string)
| WaitAllPresent (by_ : By) (selector : string)
    (* wait.until(EC.presence_of_all_elements_located((by, selector))) *)
| GetAttribute (e : WebElement) (attr : string)
| FindElement (by_ : By) (selector : string)         (* driver.find_element *)
| ElementFindElement (e : WebElement) (by_ : By) (selector : string)
                                                     (* field.find_element *)
| Text (e : WebElement)
| Quit
| Append (field_info : Analyzer.FormField)   (* self.form_fields.append(field_info) *)
| Log (lvl : level) (msg : log_msg).

Record Browser := {
  ask_unit : list call -> call -> result unit;
  ask_attr : list call -> call -> result (option string);
  ask_str : list call -> call -> result string;
  ask_element : list call -> call -> result WebElement;
  ask_elements : list call -> call -> result (list WebElement)
}.

Definition An := T call.

(** The fields appended to [self.form_fields] by the calls of a trace. *)
Fixpoint appended (evs : list call) : list Analyzer.FormField :=
  match evs with
  | [] => []
  | Append field_info :: rest => field_info :: appended rest
  | _ :: rest => appended rest
  end.

Section WithBrowser.

Variable env : Browser.

Definition get_attribute e attr : An (option string) := ask (ask_attr env) (GetAttribute e attr).
Definition find_element by_ sel : An WebElement := ask (ask_element env) (FindElement by_ sel).
Definition element_find_element e by_ sel : An WebElement :=
  ask (ask_element env) (ElementFindElement e by_ sel).
Definition text e : An string := ask (ask_str env) (Text e).
Definition driver_get u : An unit := ask (ask_unit env) (Get u).
Definition driver_quit : An unit := ask (ask_unit env) Quit.
Definition start_browser : An unit := ask (ask_unit env) StartBrowser.
Definition wait_all_present by_ sel : An (list WebElement) :=
  ask (ask_elements env) (WaitAllPresent by_ sel).
Definition log lvl msg : An unit := emit (Log lvl msg).

(** *** setup_driver

    [driver] tells whether [self.driver] is set when the method is called.
    The outcome is [None] when the method returns, with [self.driver] and
    [self.wait] set, and [Some (e, still_set)] when it raises [e]:
    [self.driver] is [None] then, unless it was set before and its [quit]
    raised in the handler, in which case that exception is the one raised
    and [self.driver] is left as it was. *)
Definition setup_driver_outcome (driver : bool) : An (option (exn * bool)) :=
  try_except
    (start_browser ;; log INFO BrowserSetupCompleted ;; ret None)
    any_exception
    (fun e =>
       log ERROR (ErrorSettingUpBrowser e) ;;
       if driver
       then try_except (driver_quit ;; ret (Some (e, false)))
                       any_exception
                       (fun e2 => ret (Some (e2, true)))
       else ret (Some (e, false))).

Definition setup_driver (driver : bool) : An unit :=
  outcome <- setup_driver_outcome driver ;;
  match outcome with
  | None => ret tt
  | Some (e, _) => raise e
  end.

(** *** find_label_text *)

(** [except NoSuchElementException] *)
Definition no_such_element (e : exn) : bool :=
  match e with
  | NoSuchElementException => true
  | _ => false
  end.

(** One of the three lookups of a label: [Some text] stands for
    [return label_elem.text.strip()], [None] for [pass]. *)
Definition label_by (lookup : An WebElement) : An (option string) :=
  try_except
    (label_elem <- lookup ;;
     txt <- text label_elem ;;
     ret (Some (strip txt)))
    no_such_element
    (fun _ => ret None).

Definition find_label_text (driver : bool) (field : WebElement) : An string :=
  if negb driver then ret ""
  else
    field_id <- get_attribute field "id" ;;
    by_for <- (if truthy (or_else field_id "")
               then label_by (find_element CSS_SELECTOR
                                ("label[for='" ++ or_else field_id "" ++ "']"))
               else ret None) ;;
    match by_for with
    | Some label => ret label
    | None =>
        by_ancestor <- label_by (element_find_element field XPATH "./ancestor::label") ;;
        match by_ancestor with
        | Some label => ret label
        | None =>
            by_sibling <- label_by (element_find_element field XPATH "../label") ;;
            match by_sibling with
            | Some label => ret label
            | None => ret ""
            end
        end
    end.

(** *** get_field_info *)

(** [get_attribute('required') is not None or
     get_attribute('aria-required') == 'true'] *)
Definition read_required (field : WebElement) : An bool :=
  required <- get_attribute field "required" ;;
  match required with
  | Some _ => ret true
  | None =>
      aria <- get_attribute field "aria-required" ;;
      ret (match aria with Some v => String.eqb v "true" | None => false end)
  end.

Definition get_field_info (driver : bool) (field : WebElement) : An (option Analyzer.FormField) :=
  try_except
    (type_attr <- get_attribute field "type" ;;
     let field_type := or_else type_attr "text" in
     id_attr <- get_attribute field "id" ;;
     let field_id := or_else id_attr "" in
     name_attr <- get_attribute field "name" ;;
     let field_name := or_else name_attr field_id in
     placeholder_attr <- get_attribute field "placeholder" ;;
     let field_placeholder := or_else placeholder_attr "" in
     label <- find_label_text driver field ;;
     let field_label := str_or label (str_or field_placeholder (str_or field_name field_id)) in
     if negb (truthy field_label) then ret None
     else
       required <- read_required field ;;
       ret (Some {| Analyzer.name := field_name;
                    Analyzer.field_type := field_type;
                    Analyzer.label := field_label;
                    Analyzer.required := required |}))
    any_exception
    (fun e => log ERROR (ErrorGettingFieldInfo e) ;; ret None).

(** *** analyze_form *)

(** [for field in input_elements] *)
Fixpoint fields_loop (input_elements : list WebElement) : An unit :=
  match input_elements with
  | [] => ret tt
  | field :: rest =>
      field_info <- get_field_info true field ;;
      match field_info with
      | Some info =>
          emit (Append info) ;;
          log INFO (FoundField (Analyzer.label info) (Analyzer.field_type info))
      | None => ret tt
      end ;;
      fields_loop rest
  end.

(** [len(self.form_fields)], for the list [form_fields] at the start of the
    run and the calls made since. *)
Definition log_found (form_fields : list Analyzer.FormField) (start : nat) : An unit :=
  fun t =>
    log INFO (FoundFields (List.length form_fields + List.length (appended (skipn start t)))) t.

(** [analyze_form], for an analyzer whose [self.driver] is [driver] and
    whose [self.form_fields] is [form_fields] when the method is called.
    The [finally] clause quits the browser when [self.driver] is set. *)
Definition analyze_form (url : string) (driver : bool) (form_fields : list Analyzer.FormField)
  : An unit :=
  fun t =>
    (outcome <- setup_driver_outcome driver ;;
     match outcome with
     | None =>
         try_finally
           (try_except
              (driver_get url ;;
               input_elements <- wait_all_present XPATH
                                   "//input[not(@type='hidden')] | //select | //textarea" ;;
               fields_loop input_elements ;;
               log_found form_fields (List.length t))
              any_exception
              (fun e => log ERROR (ErrorAnalyzingForm e)))
           driver_quit
     | Some (e, still_set) =>
         try_finally
           (log ERROR (ErrorAnalyzingForm e))
           (if still_set then driver_quit else ret tt)
     end) t.

End WithBrowser.

(** *** A document that answers every call

    A static document served by a driver that does not fail: [label_for]
    gives the label whose [for] attribute is an id, [ancestor_label] and
    [sibling_label] the labels found by the two XPath lookups from a
    field. *)
Record Document := {
  elements : list WebElement;
  attribute : WebElement -> string -> option string;
  label_for : string -> option WebElement;
  ancestor_label : WebElement -> option WebElement;
  sibling_label : WebElement -> option WebElement;
  inner_text : WebElement -> string
}.

Definition found (o : option WebElement) : result WebElement :=
  match o with
  | Some e => Ok e
  | None => Raise NoSuchElementException
  end.

Definition document_env (d : Document) : Browser := {|
  ask_unit := fun _ _ => Ok tt;
  ask_attr := fun _ c =>
    match c with
    | GetAttribute e attr => Ok (attribute d e attr)
    | _ => Ok None
    end;
  ask_str := fun _ c =>
    match c with
    | Text e => Ok (inner_text d e)
    | _ => Ok ""
    end;
  ask_element := fun _ c =>
    match c with
    | FindElement CSS_SELECTOR selector =>
        if prefix "label[for='" selector
        then found (label_for d (substring 11 (String.length selector - 13) selector))
        else Raise NoSuchElementException
    | ElementFindElement e XPATH selector =>
        if String.eqb selector "./ancestor::label" then found (ancestor_label d e)
        else if String.eqb selector "../label" then found (sibling_label d e)
        else Raise NoSuchElementException
    | _ => Raise NoSuchElementException
    end;
  ask_elements := fun _ c =>
    match c with
    | WaitAllPresent _ _ => Ok (elements d)
    | _ => Ok []
    end
|}.

End Analysis.

(** ** bdo_form_filler.py: the methods of [BDOFormFiller] *)

Module Chrome.

Import PyStr Selenium Traced.
Local Open Scope string_scope.
Local Open Scope traced_scope.

(** The values of [By]. *)
Definition By_ID : string := "id".
Definition By_NAME : string := "name".
Definition By_CLASS_NAME : string := "class name".
Definition By_CSS_SELECTOR : string := "css selector".
Definition By_XPATH : string := "xpath".

(** *** ElementLocator and FormLocators *)

Record ElementLocator := {
  name : string;
  strategies : list (string * string)
}.

Definition valid_by : list string :=
  [By_ID; By_NAME; By_CLASS_NAME; By_CSS_SELECTOR; By_XPATH].

(** [ElementLocator.__post_init__] *)
Fixpoint post_init (strategies : list (string * string)) : result unit :=
  match strategies with
  | [] => Ok tt
  | (by_, _) :: rest =>
      if negb (in_tuple by_ valid_by)
      then Raise (ValueError ("Invalid locator strategy: " ++ by_))
      else post_init rest
  end.

(** [ElementLocator(name, strategies)] *)
Definition make_locator (name : string) (strategies : list (string * string))
  : result ElementLocator :=
  match post_init strategies with
  | Ok _ => Ok {| name := name; strategies := strategies |}
  | Raise e => Raise e
  end.

Definition COUNTRY_CODE : ElementLocator :=
  {| name := "Country Code";
     strategies := [ (By_ID, "codrp");
                     (By_NAME, "countryCode");
                     (By_CSS_SELECTOR, "select#codrp");
                     (By_XPATH, "//select[contains(@id, 'codrp')]") ] |}.

Definition NEXT_BUTTON : ElementLocator :=
  {| name := "Next Button";
     strategies := [ (By_CSS_SELECTOR, "button.btn.btn-primary.button.next.submit-btn");
                     (By_XPATH, "//button[contains(@class, 'next')]");
                     (By_XPATH, "//button[contains(text(), 'Next')]");
                     (By_CSS_SELECTOR, ".btn-primary.next") ] |}.

(** *** Calls on the driver *)

(** The keys sent by the methods: characters, or one of the special keys. *)
Inductive keys :=
| Chars (s : string)
| CONTROL_a          (* Keys.CONTROL + "a" *)
| DELETE
| ENTER
| RETURN.

(** The scripts run in the page; each constructor stands for one script
    text of bdo_form_filler.py. *)
Inductive script :=
| ScrollIntoView           (* "arguments[0].scrollIntoView({behavior: 'smooth', block: 'center'});" *)
| SetValue                 (* "arguments[0].value = arguments[1];" *)
| SetValueTo (code : string)   (* f"arguments[0].value = '{code}';" *)
| ClickElement             (* "arguments[0].click();" *)
| FillScript               (* [fill_script] of [fill_form] *)
| ClickNextScript.         (* [click_script] of [fill_form] *)

Inductive script_arg :=
| ArgElement (e : WebElement)
| ArgString (s : string)
| ArgData (data : BDO.FormData).

Inductive log_msg :=
| ErrorKillingChrome (e : exn)          (* "Error killing Chrome: {e}" *)
| ErrorSettingUpWebDriver (e : exn)     (* "Error setting up WebDriver: {e}" *)
| NotInitialized                        (* "WebDriver not properly initialized" *)
| ErrorFindingElement (name : string) (e : exn)   (* "Error finding element {locator.name}: {e}" *)
| ErrorEnsuringInteractability (e : exn)  (* "Error ensuring element interactability: {e}" *)
| ErrorFillingInput (name : string) (e : exn)     (* "Error filling input {locator.name}: {e}" *)
| ErrorSelectingCountryCode (e : exn)   (* "Error selecting country code: {e}" *)
| ErrorClickingButton (name : string) (e : exn)   (* "Error clicking button {locator.name}: {e}" *)
| ErrorHandlingPopup (e : exn)          (* "Error handling popup: {e}" *)
| FailedToFillFormFields                (* "Failed to fill form fields" *)
| FailedToClickNextButton               (* "Failed to click next button" *)
| PopupButtonNotFound                   (* "Popup button not found" *)
| ErrorInFormFilling (e : exn)          (* "Error in form filling: {e}" *)
| ErrorProcessingNumber (phone_number : string) (e : exn).
                                        (* "Error processing number {phone_number}: {e}" *)

Inductive call :=
| KillChrome                       (* subprocess.run(['taskkill', ...]) *)
| StartChrome                      (* webdriver.Chrome(service=service, options=options) *)
| SetDriver                        (* self.driver = driver; self.wait = WebDriverWait(...) *)
| Get (url : string)
| WaitPresent (by_ selector : string)
    (* self.wait.until(EC.presence_of_element_located((by, selector))) *)
| WaitClickable (timeout : nat) (by_ selector : string)
    (* WebDriverWait(driver, timeout).until(EC.element_to_be_clickable((by, selector))) *)
| FindElement (by_ selector : string)
| IsDisplayed (e : WebElement)
| IsEnabled (e : WebElement)
| ExecuteScript (s : script) (args : list script_arg)
| MoveTo (e : WebElement)          (* ActionChains(driver).move_to_element(e).perform() *)
| ActionsClick (e : WebElement)    (* ActionChains(driver).move_to_element(e).click().perform() *)
| Clear (e : WebElement)
| Click (e : WebElement)
| SendKeys (e : WebElement) (k : keys)
| GetAttribute (e : WebElement) (attr : string)
| SelectByValue (e : WebElement) (value : string)   (* Select(e).select_by_value(value) *)
| Quit
| Log (lvl : level) (msg : log_msg).

(** The browser; a script answers with the truth value of what it
    returns. *)
Record Browser := {
  ask_unit : list call -> call -> result unit;
  ask_bool : list call -> call -> result bool;
  ask_attr : list call -> call -> result (option string);
  ask_element : list call -> call -> result WebElement
}.

Definition C := T call.

Definition url : string := "https://www.apply.bdo.com.ph/newntb/".

Definition is_set_driver (c : call) : bool :=
  match c with
  | SetDriver => true
  | _ => false
  end.

(** Whether [self.driver] is set after the calls [t], [start] of which were
    made before the method was called with [self.driver] being [driver]. *)
Definition driver_now (driver : bool) (start : nat) (t : list call) : bool :=
  driver || existsb is_set_driver (skipn start t).

Section WithBrowser.

Variable env : Browser.

Definition wait_present by_ sel : C WebElement := ask (ask_element env) (WaitPresent by_ sel).
Definition wait_clickable timeout by_ sel : C WebElement :=
  ask (ask_element env) (WaitClickable timeout by_ sel).
Definition find_element by_ sel : C WebElement := ask (ask_element env) (FindElement by_ sel).
Definition is_displayed e : C bool := ask (ask_bool env) (IsDisplayed e).
Definition is_enabled e : C bool := ask (ask_bool env) (IsEnabled e).
Definition execute_script s args : C bool := ask (ask_bool env) (ExecuteScript s args).
Definition move_to e : C unit := ask (ask_unit env) (MoveTo e).
Definition actions_click e : C unit := ask (ask_unit env) (ActionsClick e).
Definition clear e : C unit := ask (ask_unit env) (Clear e).
Definition click e : C unit := ask (ask_unit env) (Click e).
Definition send_keys e k : C unit := ask (ask_unit env) (SendKeys e k).
Definition get_attribute e attr : C (option string) := ask (ask_attr env) (GetAttribute e attr).
Definition select_by_value e v : C unit := ask (ask_unit env) (SelectByValue e v).
Definition driver_get u : C unit := ask (ask_unit env) (Get u).
Definition driver_quit : C unit := ask (ask_unit env) Quit.
Definition start_chrome : C unit := ask (ask_unit env) StartChrome.
Definition log lvl msg : C unit := emit (Log lvl msg).

(** [try: m  except: pass] *)
Definition attempt (m : C unit) : C unit :=
  try_except m any_exception (fun _ => ret tt).

(** *** kill_chrome *)
Definition kill_chrome : C unit :=
  try_except (ask (ask_unit env) KillChrome)
             any_exception
             (fun e => log ERROR (ErrorKillingChrome e)).

(** *** setup_driver *)
Definition setup_driver (driver : bool) : C bool :=
  fun t =>
    try_except
      (kill_chrome ;;
       start_chrome ;;
       emit SetDriver ;;
       driver_get url ;;
       ret true)
      any_exception
      (fun e =>
         log ERROR (ErrorSettingUpWebDriver e) ;;
         (fun t' => (if driver_now driver (List.length t) t'
                     then attempt driver_quit
                     else ret tt) t') ;;
         ret false)
      t.

(** *** wait_for_element *)

(** [for strategy in locator.strategies]: [Some element] stands for
    [return element], [None] for [continue]. *)
Fixpoint strategies_loop (strategies : list (string * string)) : C (option WebElement) :=
  match strategies with
  | [] => ret None
  | (by_, selector) :: rest =>
      found <- try_except
                 (element <- wait_present by_ selector ;;
                  displayed <- is_displayed element ;;
                  ret (if displayed then Some element else None))
                 any_exception
                 (fun _ => ret None) ;;
      match found with
      | Some element => ret (Some element)
      | None => strategies_loop rest
      end
  end.

Definition wait_for_element (driver wait : bool) (locator : ElementLocator)
  : C (option WebElement) :=
  if negb driver || negb wait then ret None
  else
    try_except
      (strategies_loop (strategies locator))
      any_exception
      (fun e => log ERROR (ErrorFindingElement (name locator) e) ;; ret None).

(** *** ensure_element_interactable *)
Definition ensure_element_interactable (driver : bool) (element : WebElement) : C bool :=
  if negb driver then log ERROR NotInitialized ;; ret false
  else
    try_except
      (execute_script ScrollIntoView [ArgElement element] ;;
       displayed <- is_displayed element ;;
       if negb displayed then ret false
       else
         enabled <- is_enabled element ;;
         if negb enabled then ret false
         else move_to element ;; ret true)
      any_exception
      (fun e => log ERROR (ErrorEnsuringInteractability e) ;; ret false).

(** *** fill_input *)

(** [for char in text: element.send_keys(char)] *)
Fixpoint type_chars (element : WebElement) (text : string) : C unit :=
  match text with
  | EmptyString => ret tt
  | String char rest => send_keys element (Chars (String char EmptyString)) ;;
                        type_chars element rest
  end.

Definition attr_differs (actual_value : option string) (text : string) : bool :=
  match actual_value with
  | Some v => negb (String.eqb v text)
  | None => true
  end.

Definition fill_input (driver wait : bool) (locator : ElementLocator) (text : string) : C bool :=
  if negb driver then log ERROR NotInitialized ;; ret false
  else
    found <- wait_for_element driver wait locator ;;
    match found with
    | None => ret false
    | Some element =>
        try_except
          (interactable <- ensure_element_interactable driver element ;;
           if negb interactable then ret false
           else
             try_except (clear element)
                        any_exception
                        (fun _ => send_keys element CONTROL_a ;; send_keys element DELETE) ;;
             type_chars element text ;;
             actual_value <- get_attribute element "value" ;;
             (if attr_differs actual_value text
              then execute_script SetValue [ArgElement element; ArgString text] ;; ret tt
              else ret tt) ;;
             ret true)
          any_exception
          (fun e => log ERROR (ErrorFillingInput (name locator) e) ;; ret false)
    end.

(** *** click_button *)

(** The four ways of clicking, in their order. *)
Definition click_methods (element : WebElement) : list (C unit) :=
  [ click element;
    execute_script ClickElement [ArgElement element] ;; ret tt;
    actions_click element;
    send_keys element RETURN ].

(** [for method in methods]: the result tells whether a method returned. *)
Fixpoint methods_loop (methods : list (C unit)) : C bool :=
  match methods with
  | [] => ret false
  | method :: rest =>
      clicked <- try_except (method ;; ret true) any_exception (fun _ => ret false) ;;
      if clicked then ret true else methods_loop rest
  end.

Definition click_button (driver wait : bool) (locator : ElementLocator) : C bool :=
  try_except
    (found <- wait_for_element driver wait locator ;;
     match found with
     | None => ret false
     | Some element =>
         (if negb driver then raise (PyException "AssertionError") else ret tt) ;;
         interactable <- ensure_element_interactable driver element ;;
         if negb interactable then ret false
         else methods_loop (click_methods element)
     end)
    any_exception
    (fun e => log ERROR (ErrorClickingButton (name locator) e) ;; ret false).

(** *** select_country_code *)

Definition selection_methods (element : WebElement) (code : string) : list (C unit) :=
  [ select_by_value element code;
    click element ;; send_keys element (Chars code) ;; send_keys element ENTER;
    execute_script (SetValueTo code) [ArgElement element] ;; ret tt ].

Definition attr_contains (value : option string) (code : string) : bool :=
  match value with
  | Some v => truthy v && contains code v
  | None => false
  end.

(** [for method in methods]: each method is followed by a read-back of the
    value. *)
Fixpoint selection_loop (element : WebElement) (code : string) (methods : list (C unit))
  : C bool :=
  match methods with
  | [] => ret false
  | method :: rest =>
      selected <- try_except
                    (method ;;
                     value <- get_attribute element "value" ;;
                     ret (attr_contains value code))
                    any_exception
                    (fun _ => ret false) ;;
      if selected then ret true else selection_loop element code rest
  end.

Definition select_country_code (driver wait : bool) (code : string) : C bool :=
  if negb driver then log ERROR NotInitialized ;; ret false
  else
    found <- wait_for_element driver wait COUNTRY_CODE ;;
    match found with
    | None => ret false
    | Some element =>
        try_except
          (interactable <- ensure_element_interactable driver element ;;
           if negb interactable then ret false
           else selection_loop element code (selection_methods element code))
          any_exception
          (fun e => log ERROR (ErrorSelectingCountryCode e) ;; ret false)
    end.

(** *** handle_popup; without [self.wait] or [self.driver] the attribute
    access raises. *)
Definition handle_popup (driver wait : bool) : C bool :=
  try_except
    ((if negb wait then raise (PyException "AttributeError") else ret tt) ;;
     ok_button <- wait_present By_ID "personalbtn" ;;
     displayed <- is_displayed ok_button ;;
     if displayed
     then
       try_except (click ok_button)
                  any_exception
                  (fun _ =>
                     if negb driver then raise (PyException "AttributeError")
                     else execute_script ClickElement [ArgElement ok_button] ;; ret tt) ;;
       ret true
     else ret false)
    any_exception
    (fun e => log ERROR (ErrorHandlingPopup e) ;; ret false).

(** *** fill_form *)

Definition next_button_name : string :=
  "ctl00$ContentContainer$WebFormControl_50052ed5c76aeb11a812002248167989$NextButton".

(** "Find and click the next button using multiple methods": [Some b]
    stands for [return b], [None] for going on. *)
Definition click_next : C (option bool) :=
  try_except
    (next_button <- find_element By_NAME next_button_name ;;
     execute_script ClickElement [ArgElement next_button] ;;
     ret None)
    any_exception
    (fun _ =>
       try_except
         (next_button <- find_element By_ID "NextButton" ;;
          execute_script ClickElement [ArgElement next_button] ;;
          ret None)
         any_exception
         (fun _ =>
            clicked <- execute_script ClickNextScript [] ;;
            if negb clicked
            then log ERROR FailedToClickNextButton ;; ret (Some false)
            else ret None)).

(** [except TimeoutException] *)
Definition is_timeout (e : exn) : bool :=
  match e with
  | TimeoutException => true
  | _ => false
  end.

(** "Wait for popup and click OK" *)
Definition confirm_popup : C bool :=
  try_except
    (popup_btn <- wait_clickable 5 By_ID "personalbtn" ;;
     execute_script ClickElement [ArgElement popup_btn] ;;
     ret true)
    is_timeout
    (fun _ => log ERROR PopupButtonNotFound ;; ret false).

Definition fill_form (driver : bool) (phone_number : string) : C bool :=
  if negb driver then ret false
  else
    try_except
      (filled <- execute_script FillScript [ArgData (BDO.form_data phone_number)] ;;
       if negb filled
       then log ERROR FailedToFillFormFields ;; ret false
       else
         next <- click_next ;;
         match next with
         | Some b => ret b
         | None => confirm_popup
         end)
      any_exception
      (fun e => log ERROR (ErrorInFormFilling e) ;; ret false).

(** *** process_single_number

    [driver] tells whether [self.driver] is set when the method is
    called.  The two branches of the [finally] clause, for [success] and
    for a failure, both quit the browser and let no exception out. *)
Definition process_single_number (driver : bool) (phone_number : string) : C bool :=
  fun t =>
    try_finally
      (try_except
         (ready <- setup_driver driver ;;
          if ready
          then (fun t' => fill_form (driver_now driver (List.length t) t') phone_number t')
          else ret false)
         any_exception
         (fun e => log ERROR (ErrorProcessingNumber phone_number e) ;; ret false))
      (fun t' => (if driver_now driver (List.length t) t'
                  then attempt driver_quit
                  else ret tt) t')
      t.

End WithBrowser.

End Chrome.

(** * Vocabulary of the properties *)

Import PyStr Selenium.
Open Scope string_scope.

(** ** Reasoning about computations *)

(** [post m t Q]: started after the trace [t], [m] appends events and
    gives a result that satisfy [Q]. *)
Definition post {A} (m : M A) (t : trace) (Q : list event -> result A -> Prop) : Prop :=
  Q (fst (m t)) (snd (m t)).

Definition emits_only (P : event -> bool) {A} (m : M A) : Prop :=
  forall t, forallb P (fst (m t)) = true.

Definition never_raises {A} (m : M A) : Prop :=
  forall t, exists a, snd (m t) = Ok a.

(** The same for the computations over any type of calls. *)
Definition tpost {call A} (m : Traced.T call A) (t : list call)
           (Q : list call -> result A -> Prop) : Prop :=
  Q (fst (m t)) (snd (m t)).

Definition temits_only {call} (P : call -> bool) {A} (m : Traced.T call A) : Prop :=
  forall t, forallb P (fst (m t)) = true.

(** ** Classes of events and properties of traces *)

(** The events of the fuzzy fallback. *)
Definition is_fuzzy (ev : event) : bool :=
  match ev with
  | FindElements _ _ | GetAttribute _ _ | TagName _ | Text _
  | Log WARNING (ErrorInFuzzyMatching _) => true
  | _ => false
  end.

(** The events emitted while the columns of a row are filled and the form
    is submitted: everything but the events of the session loop. *)
Definition is_inner (ev : event) : bool := negb (Filler.is_session ev).

(** The events of filling a field and of submitting: neither an event of
    the session loop nor a single-element lookup. *)
Definition is_action (ev : event) : bool :=
  negb (Filler.is_session ev) && match ev with FindElement _ _ => false | _ => true end.

(** [adjacent ok prev evs]: every event of [evs] is accepted by [ok] after
    the event before it ([prev] before the first). *)
Fixpoint adjacent (ok : option event -> event -> bool) (prev : option event)
         (evs : list event) : bool :=
  match evs with
  | [] => true
  | ev :: rest => ok prev ev && adjacent ok (Some ev) rest
  end.

(** The last event of [evs], or [prev] when [evs] is empty. *)
Fixpoint last_from (prev : option event) (evs : list event) : option event :=
  match evs with
  | [] => prev
  | ev :: rest => last_from (Some ev) rest
  end.

(** The read-back of the value of [field]. *)
Definition is_readback (field : WebElement) (ev : event) : bool :=
  match ev with
  | GetAttribute e attr => Nat.eqb e field && String.eqb attr "value"
  | _ => false
  end.

(** The read-back made after the trace [hist] returns [value]. *)
Definition verified_at (env : Env) (field : WebElement) (value : string) (hist : trace) : bool :=
  match ask_attr env hist (GetAttribute field "value") with
  | Ok actual_value => Filler.attr_equals actual_value value
  | Raise _ => false
  end.

(** No event of the trace is a read-back that returns [value]. *)
Definition unverified_step (env : Env) (field : WebElement) (value : string)
           (hist : trace) (ev : event) : bool :=
  negb (is_readback field ev && verified_at env field value hist).

(** The input strategy an event belongs to: 0 for typed characters, 1 for
    the script assignment, 2 for the pointer-driven input. *)
Definition strategy_of (ev : event) : option nat :=
  match ev with
  | SendKeys _ _ => Some 0
  | ExecuteScript _ _ => Some 1
  | ActionsClickSendKeys _ _ => Some 2
  | _ => None
  end.

(** The strategies occur in non-decreasing order, none below [lo]. *)
Fixpoint in_order (lo : nat) (evs : list event) : bool :=
  match evs with
  | [] => true
  | ev :: rest =>
      match strategy_of ev with
      | Some k => Nat.leb lo k && in_order k rest
      | None => in_order lo rest
      end
  end.

Definition is_attempt_failed (ev : event) : bool :=
  match ev with
  | Log WARNING (AttemptFailed _ _) => true
  | _ => false
  end.

(** What may come right after an event [prev]: after an input call, only
    more typing (for the typing strategy), the read-back, or the warning
    that the attempt failed. *)
Definition follows_input (field : WebElement) (prev : option event) (ev : event) : bool :=
  match prev with
  | Some p =>
      match strategy_of p with
      | Some 0 => (match strategy_of ev with Some 0 => true | _ => false end)
                  || is_readback field ev || is_attempt_failed ev
      | Some _ => is_readback field ev || is_attempt_failed ev
      | None => true
      end
  | None => true
  end.

(** Every event of [evs] is an input call of strategy [k]. *)
Definition all_strategy (k : nat) (evs : list event) : bool :=
  forallb (fun ev => match strategy_of ev with Some j => Nat.eqb j k | None => false end) evs.

(** The strategy used by attempt [k]. *)
Definition strategy_index (k : nat) : nat :=
  match k with 0 => 0 | 1 => 1 | _ => 2 end.

(** An event after which anything may follow. *)
Definition quiet (prev : option event) : Prop :=
  match prev with
  | Some p => strategy_of p = None
  | None => True
  end.

(** One turn of the loop of [safe_send_keys]. *)
Definition attempt_step (env : Env) (self : Filler.FormFiller) (field : WebElement)
           (value : string) (k : nat) : M bool :=
  try_except (Filler.attempt_body env self k field value)
             any_exception
             (fun e => (log WARNING (AttemptFailed k e) ;; ret false)%py).

(** The events of an attempt before its read-back or its warning. *)
Definition attempt_prefix_ok (env : Env) (field : WebElement) (value : string)
           (k : nat) (t : trace) (pre : list event) : Prop :=
  Filler.clicks_on field pre = 1 /\
  Filler.all_steps (unverified_step env field value) t pre = true /\
  forallb (fun ev => match strategy_of ev with
                     | Some j => Nat.eqb j (strategy_index k)
                     | None => true
                     end) pre = true /\
  (forall prev, quiet prev -> adjacent (follows_input field) prev pre = true).

(** The calls that type [value] into [field], one character at a time. *)
Fixpoint keystrokes (field : WebElement) (value : string) : list event :=
  match value with
  | EmptyString => []
  | String char rest => SendKeys field (String char EmptyString) :: keystrokes field rest
  end.

(** The input calls of a strategy: the keystrokes of the value, the script
    that assigns it, the pointer-driven input. *)
Definition strategy_calls (attempt : nat) (field : WebElement) (value : string)
  : list event :=
  match attempt with
  | 0 => keystrokes field value
  | 1 => [ExecuteScript Filler.set_value_script [ArgElement field; ArgString value]]
  | _ => [ActionsClickSendKeys field value]
  end.

(** The object that a strategy works with is set: the driver for the
    script, the action chain for the pointer-driven input. *)
Definition strategy_ready (self : Filler.FormFiller) (attempt : nat) : bool :=
  match attempt with
  | 0 => true
  | 1 => Filler.driver self
  | _ => Filler.actions self
  end.

(** The calls of an attempt before its read-back: the click on the field,
    its clearing, and the input calls of the strategy of the attempt. *)
Definition attempt_calls (self : Filler.FormFiller) (attempt : nat) (field : WebElement)
           (value : string) : list event :=
  Click field :: Clear field ::
  (if strategy_ready self attempt then strategy_calls attempt field value else []).

(** The driver accepted each of the calls [calls], made in order after
    [t]. *)
Fixpoint accepted (env : Env) (t : trace) (calls : list event) : Prop :=
  match calls with
  | [] => True
  | c :: rest => ask_unit env t c = Ok tt /\ accepted env (t ++ [c])%list rest
  end.

(** A run of the calls [calls] that stops at the first on which the driver
    raises: [evs] are the calls made and [r] is the result. *)
Definition calls_run (env : Env) (calls : list event) (t : trace) (evs : list event)
           (r : result unit) : Prop :=
  (accepted env t calls /\ evs = calls /\ r = Ok tt) \/
  (exists done c rest e,
      calls = (done ++ c :: rest)%list /\ accepted env t done /\
      ask_unit env (t ++ done)%list c = Raise e /\
      evs = (done ++ [c])%list /\ r = Raise e).

(** The driver raised [e] on the call [c] made after [t]; each kind of
    call is answered by the oracle of its return type, and a log record is
    no call. *)
Definition raised (env : Env) (t : trace) (c : event) (e : exn) : Prop :=
  match c with
  | FindElement _ _ | WaitClickable _ _ => ask_element env t c = Raise e
  | FindElements _ _ | ElementFindElements _ _ _ => ask_elements env t c = Raise e
  | IsDisplayed _ | IsEnabled _ | IsSelected _ => ask_bool env t c = Raise e
  | GetAttribute _ _ => ask_attr env t c = Raise e
  | TagName _ | Text _ => ask_str env t c = Raise e
  | Log _ _ => False
  | _ => ask_unit env t c = Raise e
  end.

(** One attempt, by the events [evs] it appends to [t] and by whether it
    verified the value.  Either the driver accepted every call of the
    attempt and the value was read back, and the attempt verified the value
    exactly when the value read is [value]; or the driver raised on one of
    the calls or on the read-back, the attempt stopped there with the
    warning and verified nothing. *)
Definition attempt_run (env : Env) (self : Filler.FormFiller) (attempt : nat)
           (field : WebElement) (value : string) (t : trace) (evs : list event)
           (verified : bool) : Prop :=
  let calls := attempt_calls self attempt field value in
  let readback := GetAttribute field "value" in
  (exists actual_value,
      accepted env t calls /\
      ask_attr env (t ++ calls)%list readback = Ok actual_value /\
      evs = (calls ++ [readback])%list /\
      verified = Filler.attr_equals actual_value value) \/
  (exists done c rest e,
      (calls ++ [readback])%list = (done ++ c :: rest)%list /\
      accepted env t done /\
      raised env (t ++ done)%list c e /\
      evs = (done ++ [c; Log WARNING (AttemptFailed attempt e)])%list /\
      verified = false).

(** The attempts [attempts], by the events [evs] they append to [t] and by
    the result: they are made in order, each after the one before it failed
    to verify the value; the first that verifies it ends the run, which
    returns; when none does, the run raises. *)
Fixpoint attempts_run (env : Env) (self : Filler.FormFiller) (field : WebElement)
         (value : string) (attempts : list nat) (t : trace) (evs : list event)
         (r : result unit) : Prop :=
  match attempts with
  | [] => evs = [] /\ r = Raise (ValueError "Failed to input value after 3 attempts")
  | attempt :: rest =>
      exists evs1 verified,
        attempt_run env self attempt field value t evs1 verified /\
        if verified
        then evs = evs1 /\ r = Ok tt
        else exists evs2,
               evs = (evs1 ++ evs2)%list /\
               attempts_run env self field value rest (t ++ evs1)%list evs2 r
  end.

(** The selected state of [field] on the page [p] after the trace [t]. *)
Definition selected_after (p : Filler.Page) (field : WebElement) (t : trace) : bool :=
  xorb (Filler.initially_selected p field) (Nat.odd (Filler.clicks_on field t)).

(** The first call of the resolver for [label]: the lookup by
    [label[for*=...]]. *)
Definition resolver_entry (label : string) : event :=
  FindElement CSS_SELECTOR
    ("label[for*='" ++ label ++ "'] + input, label[for*='" ++ label
     ++ "'] + select, label[for*='" ++ label ++ "'] + textarea").

Definition is_resolver_entry (ev : event) : bool :=
  match ev with
  | FindElement CSS_SELECTOR selector => prefix "label[for*='" selector
  | _ => false
  end.

Definition not_entry (ev : event) : bool := negb (is_resolver_entry ev).

(** The column [c] of [row] holds a value. *)
Definition present (row : Filler.Series) (c : string) : bool :=
  negb (Filler.isna (row c)).

(** ** Strings *)

(** Every character of [s] satisfies [P]. *)
Fixpoint all_chars (P : ascii -> bool) (s : string) : bool :=
  match s with
  | EmptyString => true
  | String c s' => P c && all_chars P s'
  end.

(** A character of the decimal notation of an integer. *)
Definition is_decimal (c : ascii) : bool := is_digit c || Ascii.eqb c "-".

(** A lower-case letter or a digit. *)
Definition is_lower_alnum (c : ascii) : bool := is_lower c || is_digit c.

(** ** Submission *)

Definition is_submit_warning (ev : event) : bool :=
  match ev with
  | Log WARNING (SubmitStrategyFailed _) => true
  | _ => false
  end.

(** The call that opens a submission strategy: the wait for the submit
    control, or the script that submits the first form. *)
Definition submit_entry (strategy : option (By * string)) : event :=
  match strategy with
  | Some (by_, selector) => WaitClickable by_ selector
  | None => ExecuteScript "document.forms[0].submit()" []
  end.

Definition is_submit_entry (ev : event) : bool :=
  match ev with
  | WaitClickable _ _ | ExecuteScript _ [] => true
  | _ => false
  end.

(** What a run of the loop over the strategies [l], started after [t], looks
    like: as many strategies were opened, in order, as failed, plus the one
    that succeeded if one did; a success is a last call that the browser
    accepted. *)
Definition submit_outcome (env : Env) (l : list (option (By * string))) (t : trace)
           (evs : list event) (r : result bool) : Prop :=
  let failures := List.length (filter is_submit_warning evs) in
  match r with
  | Ok true =>
      failures < List.length l /\
      filter is_submit_entry evs = map submit_entry (firstn (S failures) l) /\
      exists pre ev, evs = (pre ++ [ev])%list /\ Filler.is_write ev = true /\
                     ask_unit env (t ++ pre)%list ev = Ok tt
  | Ok false =>
      failures = List.length l /\
      filter is_submit_entry evs = map submit_entry l
  | Raise _ => False
  end.

(** ** The resolver on a page *)

(** Every one of the eight lookups reports that no element matches. *)
Definition strategies_miss (env : Env) (label : string) : Prop :=
  forall t by_ selector,
    In (by_, selector) (Filler.strategies label) ->
    exists e, ask_element env t (FindElement by_ selector) = Raise e /\
              Filler.lookup_miss e = true.

(** The candidate [e] has a non-empty name, id, placeholder or aria-label
    attribute that is similar to [label]. *)
Definition attribute_similar (p : Filler.Page) (label : string) (e : WebElement) : bool :=
  existsb (fun attr =>
             match Filler.attribute p e attr with
             | Some v => truthy v && Filler.strings_similar label v
             | None => false
             end)
          Filler.fuzzy_attrs.

(** The labels that the "nearby labels" query returns for [e]. *)
Definition nearby_labels_of (p : Filler.Page) (e : WebElement) : list WebElement :=
  Filler.xpath_elements p
    ("//label[ancestor::*[count(.|//" ++ Filler.tag p e ++ "[@id='"
     ++ Filler.format_attr (Filler.attribute p e "id")
     ++ "'])=count(//" ++ Filler.tag p e ++ "[@id='"
     ++ Filler.format_attr (Filler.attribute p e "id") ++ "'])]]").

Definition nearby_label_similar (p : Filler.Page) (label : string) (e : WebElement) : bool :=
  existsb (fun l => Filler.strings_similar label (Filler.inner_text p l))
          (nearby_labels_of p e).

Definition fuzzy_accepts (p : Filler.Page) (label : string) (e : WebElement) : bool :=
  attribute_similar p label e || nearby_label_similar p label e.

(** On the page [p], none of the eight lookups for [label] yields a
    displayed and enabled element. *)
Definition strategies_fail (p : Filler.Page) (label : string) : Prop :=
  forall by_ selector,
    In (by_, selector) (Filler.strategies label) ->
    match Filler.query p by_ selector with
    | None => True
    | Some e => Filler.displayed p e && Filler.enabled p e = false
    end.

(** The element given by the first of the lookups [l] that yields a
    displayed and enabled element of the page. *)
Fixpoint first_hit (p : Filler.Page) (l : list (By * string)) : option WebElement :=
  match l with
  | [] => None
  | (by_, selector) :: rest =>
      match Filler.query p by_ selector with
      | Some e => if Filler.displayed p e && Filler.enabled p e then Some e
                  else first_hit p rest
      | None => first_hit p rest
      end
  end.

(** The calls of the loop over the eight lookups. *)
Definition is_strategy_call (ev : event) : bool :=
  match ev with
  | FindElement _ _ | IsDisplayed _ | IsEnabled _ => true
  | _ => false
  end.

Definition has_nonempty_attribute (p : Filler.Page) (e : WebElement) : bool :=
  existsb (fun attr =>
             match Filler.attribute p e attr with
             | Some v => truthy v
             | None => false
             end)
          Filler.fuzzy_attrs.

Definition has_nearby_label (p : Filler.Page) (e : WebElement) : bool :=
  match nearby_labels_of p e with
  | [] => false
  | _ => true
  end.

(** ** The analysis of a document *)

(** The text that [find_label_text] finds for a field of a document: the
    stripped text of the label for its id when it has one, or else of its
    ancestor label, or else of the label beside it. *)
Definition document_label (d : Analysis.Document) (field : WebElement) : string :=
  let field_id := Analysis.or_else (Analysis.attribute d field "id") "" in
  match (if truthy field_id then Analysis.label_for d field_id else None) with
  | Some l => Analysis.strip (Analysis.inner_text d l)
  | None =>
      match Analysis.ancestor_label d field with
      | Some l => Analysis.strip (Analysis.inner_text d l)
      | None =>
          match Analysis.sibling_label d field with
          | Some l => Analysis.strip (Analysis.inner_text d l)
          | None => ""
          end
      end
  end.

(** The first non-empty string of a list, or the empty string. *)
Fixpoint first_nonempty (l : list string) : string :=
  match l with
  | [] => ""
  | s :: rest => if truthy s then s else first_nonempty rest
  end.

(** What the analysis says of a field of a document. *)
Definition document_field (d : Analysis.Document) (field : WebElement)
  : option Analyzer.FormField :=
  let attr := Analysis.attribute d field in
  let field_id := Analysis.or_else (attr "id") "" in
  let field_name := Analysis.or_else (attr "name") field_id in
  let field_label :=
    first_nonempty [document_label d field; Analysis.or_else (attr "placeholder") "";
                    field_name; field_id] in
  if truthy field_label
  then Some {| Analyzer.name := field_name;
               Analyzer.field_type := Analysis.or_else (attr "type") "text";
               Analyzer.label := field_label;
               Analyzer.required :=
                 match attr "required" with
                 | Some _ => true
                 | None =>
                     match attr "aria-required" with
                     | Some v => String.eqb v "true"
                     | None => false
                     end
                 end |}
  else None.

(** The fields of a list of elements, in order. *)
Fixpoint document_fields (d : Analysis.Document) (l : list WebElement)
  : list Analyzer.FormField :=
  match l with
  | [] => []
  | field :: rest =>
      match document_field d field with
      | Some info => info :: document_fields d rest
      | None => document_fields d rest
      end
  end.

(** The calls that leave [self.form_fields] as it is. *)
Definition keeps_fields (c : Analysis.call) : bool :=
  match c with
  | Analysis.Append _ => false
  | _ => true
  end.

(** A field that can be put in a template: it has a label, a type and a
    header. *)
Definition describable (info : Analyzer.FormField) : Prop :=
  Analyzer.label info <> "" /\ Analyzer.field_type info <> "" /\ Analyzer.header info <> "".

(** The last call of a trace. *)
Definition last_call {call} (evs : list call) : option call :=
  match rev evs with
  | [] => None
  | c :: _ => Some c
  end.

(** ** The methods of the BDO form filler *)

(** The wait for the popup button and the click on it. *)
Definition popup_wait : Chrome.call := Chrome.WaitClickable 5 Chrome.By_ID "personalbtn".

Definition popup_click (popup_btn : WebElement) : Chrome.call :=
  Chrome.ExecuteScript Chrome.ClickElement [Chrome.ArgElement popup_btn].

(** The script that fills the form for a number. *)
Definition fill_call (phone_number : string) : Chrome.call :=
  Chrome.ExecuteScript Chrome.FillScript [Chrome.ArgData (BDO.form_data phone_number)].

(** The form was confirmed at the end of the calls [evs] made after [t]:
    the popup button became clickable and the click on it did not raise. *)
Definition popup_confirmed (env : Chrome.Browser) (t evs : list Chrome.call) : Prop :=
  exists pre popup_btn clicked,
    evs = (pre ++ [popup_wait; popup_click popup_btn])%list /\
    Chrome.ask_element env (t ++ pre)%list popup_wait = Ok popup_btn /\
    Chrome.ask_bool env (t ++ pre ++ [popup_wait])%list (popup_click popup_btn) = Ok clicked.

(** The wait for the element of a locator strategy. *)
Definition wait_call (strategy : string * string) : Chrome.call :=
  Chrome.WaitPresent (fst strategy) (snd strategy).

(** The wait for [strategy], made after [t], gave no displayed element, and
    [evs] are the calls made for it: the wait raised; or it returned an
    element and the question whether it is displayed was answered by false
    or by an exception. *)
Definition strategy_missed (env : Chrome.Browser) (t : list Chrome.call)
           (strategy : string * string) (evs : list Chrome.call) : Prop :=
  (exists e, Chrome.ask_element env t (wait_call strategy) = Raise e /\
             evs = [wait_call strategy]) \/
  (exists element,
      Chrome.ask_element env t (wait_call strategy) = Ok element /\
      Chrome.ask_bool env (t ++ [wait_call strategy])%list (Chrome.IsDisplayed element)
      <> Ok true /\
      evs = [wait_call strategy; Chrome.IsDisplayed element]).

(** The strategies were waited for in their order, after [t], by the calls
    [evs], and none gave a displayed element. *)
Fixpoint all_missed (env : Chrome.Browser) (t : list Chrome.call)
         (strategies : list (string * string)) (evs : list Chrome.call) : Prop :=
  match strategies with
  | [] => evs = []
  | strategy :: rest =>
      exists evs1 evs2,
        evs = (evs1 ++ evs2)%list /\
        strategy_missed env t strategy evs1 /\
        all_missed env (t ++ evs1)%list rest evs2
  end.

(** The element was found by the calls [evs] made after [t]: the
    strategies before one of them gave no displayed element, in their order,
    and the wait for that one returned the element, which was displayed. *)
Definition found_first (env : Chrome.Browser) (strategies : list (string * string))
           (t evs : list Chrome.call) (element : WebElement) : Prop :=
  exists before strategy after pre,
    strategies = (before ++ strategy :: after)%list /\
    all_missed env t before pre /\
    evs = (pre ++ [wait_call strategy; Chrome.IsDisplayed element])%list /\
    Chrome.ask_element env (t ++ pre)%list (wait_call strategy) = Ok element /\
    Chrome.ask_bool env (t ++ pre ++ [wait_call strategy])%list (Chrome.IsDisplayed element)
    = Ok true.

(** The calls that type [text] into [element], one character at a time. *)
Fixpoint typed (element : WebElement) (text : string) : list Chrome.call :=
  match text with
  | EmptyString => []
  | String char rest =>
      Chrome.SendKeys element (Chrome.Chars (String char EmptyString)) :: typed element rest
  end.

(** The read-back of the value of [element] and the script that assigns
    [text] to it. *)
Definition value_read (element : WebElement) : Chrome.call :=
  Chrome.GetAttribute element "value".

Definition value_assigned (element : WebElement) (text : string) : Chrome.call :=
  Chrome.ExecuteScript Chrome.SetValue [Chrome.ArgElement element; Chrome.ArgString text].

(** How a successful [fill_input] ends, for the calls [evs] made after [t]:
    the text is typed and the value is read back; either the value read is
    the text, or it is not and the text is assigned by the script, after
    which the value is not read again. *)
Definition input_filled (env : Chrome.Browser) (text : string)
           (t evs : list Chrome.call) : Prop :=
  exists pre element,
    (evs = (pre ++ typed element text ++ [value_read element])%list /\
     Chrome.ask_attr env (t ++ pre ++ typed element text)%list (value_read element)
     = Ok (Some text))
    \/
    (exists actual,
        evs = (pre ++ typed element text
               ++ [value_read element; value_assigned element text])%list /\
        Chrome.ask_attr env (t ++ pre ++ typed element text)%list (value_read element)
        = Ok actual /\
        Chrome.attr_differs actual text = true).

(** How a successful selection ends, for the calls [evs] made after [t]:
    with a read-back of the value that contains the code. *)
Definition selection_verified (env : Chrome.Browser) (code : string)
           (t evs : list Chrome.call) : Prop :=
  exists pre element value,
    evs = (pre ++ [value_read element])%list /\
    Chrome.ask_attr env (t ++ pre)%list (value_read element) = Ok value /\
    Chrome.attr_contains value code = true.

(** The four ways of clicking an element, as calls. *)
Definition click_calls (element : WebElement) : list Chrome.call :=
  [ Chrome.Click element;
    Chrome.ExecuteScript Chrome.ClickElement [Chrome.ArgElement element];
    Chrome.ActionsClick element;
    Chrome.SendKeys element Chrome.RETURN ].

Definition is_click_call (c : Chrome.call) : bool :=
  match c with
  | Chrome.Click _ | Chrome.ExecuteScript Chrome.ClickElement _
  | Chrome.ActionsClick _ | Chrome.SendKeys _ Chrome.RETURN => true
  | _ => false
  end.

Definition not_click_call (c : Chrome.call) : bool := negb (is_click_call c).

(** The browser did not raise on the call [c] made after [t]. *)
Definition call_accepted (env : Chrome.Browser) (t : list Chrome.call) (c : Chrome.call)
  : Prop :=
  match c with
  | Chrome.ExecuteScript _ _ => exists b, Chrome.ask_bool env t c = Ok b
  | _ => Chrome.ask_unit env t c = Ok tt
  end.

(** The browser raised on the call [c] made after [t]. *)
Definition call_rejected (env : Chrome.Browser) (t : list Chrome.call) (c : Chrome.call)
  : Prop :=
  match c with
  | Chrome.ExecuteScript _ _ => exists e, Chrome.ask_bool env t c = Raise e
  | _ => exists e, Chrome.ask_unit env t c = Raise e
  end.

(** The browser raised on each of the calls [calls], made in order after
    [t]. *)
Fixpoint all_rejected (env : Chrome.Browser) (t : list Chrome.call)
         (calls : list Chrome.call) : Prop :=
  match calls with
  | [] => True
  | c :: rest => call_rejected env t c /\ all_rejected env (t ++ [c])%list rest
  end.

(** The calls by which an element is made ready for interaction: it is
    scrolled into view, asked whether it is displayed and enabled, and the
    pointer is moved onto it. *)
Definition interactable_calls (element : WebElement) : list Chrome.call :=
  [ Chrome.ExecuteScript Chrome.ScrollIntoView [Chrome.ArgElement element];
    Chrome.IsDisplayed element;
    Chrome.IsEnabled element;
    Chrome.MoveTo element ].

(** These calls, made after [t], succeeded: the script ran, the element was
    reported displayed and enabled, and the move of the pointer was
    accepted. *)
Definition made_interactable (env : Chrome.Browser) (t : list Chrome.call)
           (element : WebElement) : Prop :=
  (exists scrolled,
      Chrome.ask_bool env t
        (Chrome.ExecuteScript Chrome.ScrollIntoView [Chrome.ArgElement element])
      = Ok scrolled) /\
  Chrome.ask_bool env (t ++ firstn 1 (interactable_calls element))%list
                  (Chrome.IsDisplayed element) = Ok true /\
  Chrome.ask_bool env (t ++ firstn 2 (interactable_calls element))%list
                  (Chrome.IsEnabled element) = Ok true /\
  Chrome.ask_unit env (t ++ firstn 3 (interactable_calls element))%list
                  (Chrome.MoveTo element) = Ok tt.

(** The wait for the confirmation button of the popup. *)
Definition popup_present : Chrome.call := Chrome.WaitPresent Chrome.By_ID "personalbtn".

(** How a successful [handle_popup] runs, for the calls [evs] made after
    [t]: the wait returns the button, the browser answers that it is
    displayed, and then either the direct click is accepted, or the browser
    raises on it and accepts the click by script. *)
Definition popup_handled (env : Chrome.Browser) (t evs : list Chrome.call) : Prop :=
  exists ok_button,
    Chrome.ask_element env t popup_present = Ok ok_button /\
    Chrome.ask_bool env (t ++ [popup_present])%list (Chrome.IsDisplayed ok_button) = Ok true /\
    ((evs = [popup_present; Chrome.IsDisplayed ok_button; Chrome.Click ok_button] /\
      call_accepted env (t ++ [popup_present; Chrome.IsDisplayed ok_button])%list
                    (Chrome.Click ok_button)) \/
     (evs = [popup_present; Chrome.IsDisplayed ok_button; Chrome.Click ok_button;
             popup_click ok_button] /\
      call_rejected env (t ++ [popup_present; Chrome.IsDisplayed ok_button])%list
                    (Chrome.Click ok_button) /\
      call_accepted env (t ++ [popup_present; Chrome.IsDisplayed ok_button;
                               Chrome.Click ok_button])%list
                    (popup_click ok_button))).

(** ** The session, row by row *)

(** The record that an exception has ended the loop over the rows. *)
Definition is_abort (ev : event) : bool :=
  match ev with
  | Log _ (ErrorInFormFilling _) => true
  | _ => false
  end.

(** What [fill_field] appends for a value whose string form is [str_value]:
    nothing when it is empty; otherwise it reads the type of the field,
    acts on the field, and ends with the record that the field was filled or
    with the error record of the exception that stopped it. *)
Definition field_filled (field : WebElement) (field_name str_value : string)
           (evs : list event) : Prop :=
  if truthy str_value
  then exists mid record,
         evs = (GetAttribute field "type" :: mid ++ [record])%list /\
         (record = Log INFO (FilledField field_name str_value) \/
          exists e, record = Log ERROR (ErrorFillingField field_name e))
  else evs = [].

(** The events [evs] of the column [c] of a row, appended to [t]: none for
    a blank cell; for a cell that holds a value, the run of the resolver
    for the cleaned name of the column, which opens with the first of its
    lookups, followed by the run of [fill_field] on the element found, with
    the value of the cell, or by the warning that no field was found. *)
Definition column_filled (env : Env) (self : Filler.FormFiller) (row : Filler.Series)
           (c : string) (t : trace) (evs : list event) : Prop :=
  if present row c
  then
    let clean := Filler.clean_field_name c in
    exists evs1 found,
      Filler.find_field_by_multiple_strategies env self clean t = (evs1, Ok found) /\
      filter is_resolver_entry evs1 = [resolver_entry clean] /\
      match found with
      | Some field =>
          exists evs2,
            Filler.fill_field env self field (row c) clean (t ++ evs1)%list = (evs2, Ok tt) /\
            field_filled field clean (Filler.str_value_of (row c)) evs2 /\
            evs = (evs1 ++ evs2)%list
      | None => evs = (evs1 ++ [Log WARNING (CouldNotFindField clean)])%list
      end
  else evs = [].

(** The columns [cols] of a row, one after the other. *)
Fixpoint columns_filled (env : Env) (self : Filler.FormFiller) (row : Filler.Series)
         (cols : list string) (t : trace) (evs : list event) : Prop :=
  match cols with
  | [] => evs = []
  | c :: rest =>
      exists evs1 evs2,
        evs = (evs1 ++ evs2)%list /\
        column_filled env self row c t evs1 /\
        columns_filled env self row rest (t ++ evs1)%list evs2
  end.

(** How the row [idx] of [total] rows ends: after a submission, with its
    record and, when rows remain, the navigation to the target URL; after a
    failed submission, with the record of the failure alone. *)
Definition row_end (self : Filler.FormFiller) (total idx : nat) (submitted : bool)
  : list event :=
  if submitted
  then Log INFO (SubmittedForm idx) ::
       (if Nat.ltb idx (total - 1) then [Get (Filler.url self)] else [])
  else [Log ERROR (FailedToSubmitForm idx)].

(** The events [evs] of the row [idx], appended to [t]: the record of its
    start; its columns, in the order of the frame; the run of [submit_form],
    which opens the submission strategies in their order and gives true
    only after a call that the driver accepted; and the end of the row.
    The columns and the submission neither navigate nor write a record of
    the session loop. *)
Definition row_processed (env : Env) (self : Filler.FormFiller) (df : Filler.DataFrame)
           (total idx : nat) (row : Filler.Series) (t : trace) (evs : list event) : Prop :=
  exists cols_evs sub_evs submitted,
    columns_filled env self row (Filler.columns df)
                   (t ++ [Log INFO (ProcessingRow idx)])%list cols_evs /\
    Filler.submit_form env self (t ++ Log INFO (ProcessingRow idx) :: cols_evs)%list
    = (sub_evs, Ok submitted) /\
    submit_outcome env Filler.submit_strategies
                   (t ++ Log INFO (ProcessingRow idx) :: cols_evs)%list sub_evs (Ok submitted) /\
    forallb is_inner (cols_evs ++ sub_evs)%list = true /\
    evs = (Log INFO (ProcessingRow idx) :: cols_evs ++ sub_evs
           ++ row_end self total idx submitted)%list.

(** The rows [rows], numbered from [idx], one after the other: [segs] holds
    the events of each of them. *)
Fixpoint rows_processed (env : Env) (self : Filler.FormFiller) (df : Filler.DataFrame)
         (total idx : nat) (rows : list Filler.Series) (t : trace)
         (segs : list (list event)) : Prop :=
  match rows, segs with
  | [], [] => True
  | row :: rows', seg :: segs' =>
      row_processed env self df total idx row t seg /\
      rows_processed env self df total (S idx) rows' (t ++ seg)%list segs'
  | _, _ => False
  end.

(** The call [c], made after [t], raised [e], and nothing in the loop over
    the rows catches it: [c] is a navigation, or it is one of the lookups of
    the resolver and [e] is none of the two exceptions that its loop
    catches. *)
Definition leaves_session (env : Env) (t : trace) (c : event) (e : exn) : Prop :=
  raised env t c e /\
  match c with
  | Get _ => True
  | FindElement _ _ | IsDisplayed _ | IsEnabled _ => Filler.lookup_miss e = false
  | _ => False
  end.

(** The events [evs], appended to [t], end with a call that raised [e] out
    of the loop over the rows. *)
Definition aborted_by (env : Env) (t : trace) (evs : list event) (e : exn) : Prop :=
  exists pre c, evs = (pre ++ [c])%list /\ leaves_session env (t ++ pre)%list c e.

(** A whole session of [total] rows, by the events [evs] it appends to
    [t]: the navigation to the target URL, then the rows in their order,
    each processed to its end, and then either the final [quit], every row
    having been processed, or the call that raised an exception out of the
    loop, in the row after those, followed by the error record of the
    session and the final [quit]. *)
Definition session_rows (env : Env) (self : Filler.FormFiller) (df : Filler.DataFrame)
           (t : trace) (evs : list event) : Prop :=
  let total := List.length (Filler.rows df) in
  let nav := Get (Filler.url self) in
  exists segs tail,
    evs = (nav :: List.concat segs ++ tail)%list /\
    rows_processed env self df total 0 (firstn (List.length segs) (Filler.rows df))
                   (t ++ [nav])%list segs /\
    ((List.length segs = total /\ tail = [Quit]) \/
     (exists partial e,
         tail = (partial ++ [Log ERROR (ErrorInFormFilling e); Quit])%list /\
         aborted_by env t (nav :: List.concat segs ++ partial)%list e /\
         ((partial = [] /\ segs = []) \/
          (List.length segs < total /\
           exists more, partial = Log INFO (ProcessingRow (List.length segs)) :: more)))).

(** ** The batch submitter *)

(** The numbers recorded so far, successful ones first. *)
Definition recorded (st : BDO.State) : list string :=
  (BDO.successful st ++ BDO.failed st)%list.

(** The variables that only [cut_batch] changes. *)
Definition same_frame (st st' : BDO.State) : Prop :=
  BDO.remaining_numbers st' = BDO.remaining_numbers st /\
  BDO.batch st' = BDO.batch st /\
  BDO.batches st' = BDO.batches st.


(** The tab answered every call of a submission: the switch to it, the
    click on Next with a true result, the wait for the popup button and the
    click on it. *)
Definition confirmed (tb : BDO.Tab) : Prop :=
  BDO.switch_to_window tb = Ok tt /\
  BDO.click_next tb = Ok true /\
  BDO.popup_clickable tb = Ok tt /\
  BDO.click_popup tb = Ok tt.

(** What the browser [b] may change in a state besides cutting a batch:
    numbers are appended to the two lists, and a number appended to
    [successful] was confirmed in a tab of [b]. *)
Definition appends (b : BDO.Browser) (st st' : BDO.State) : Prop :=
  same_frame st st' /\
  (exists s, BDO.successful st' = (BDO.successful st ++ s)%list /\
             Forall (fun phone => exists handle, confirmed (BDO.tab b handle phone)) s) /\
  (exists f, BDO.failed st' = (BDO.failed st ++ f)%list).

(** Every successful number was confirmed in a tab of one of the browsers. *)
Definition all_confirmed (browsers : nat -> BDO.Browser) (st : BDO.State) : Prop :=
  forall phone,
    In phone (BDO.successful st) ->
    exists turn handle, confirmed (BDO.tab (browsers turn) handle phone).

(** The browser of the first turn works, no later one can be started. *)
Definition only_first_browser : nat -> BDO.Browser :=
  fun turn => match turn with 0 => BDO.working_browser | S _ => BDO.dead_browser end.


(** ** Pages, drivers and data of the examples *)

(** A label that already carries the marker, as the text of a label such as
    [<label>Email *</label>] does. *)
Definition starred_field : Analyzer.FormField :=
  {| Analyzer.name := "email";
     Analyzer.field_type := "email";
     Analyzer.label := "Email *";
     Analyzer.required := false |}.

(** The page of the scenario: one text input named [firstName], and no
    element that any selector matches. *)
Definition first_name_page : Filler.Page := {|
  Filler.query := fun _ _ => None;
  Filler.displayed := fun _ => true;
  Filler.enabled := fun _ => true;
  Filler.inputs := [1];
  Filler.attribute := fun _ attr => if String.eqb attr "name" then Some "firstName" else None;
  Filler.tag := fun _ => "input";
  Filler.xpath_elements := fun _ => [];
  Filler.children := fun _ => [];
  Filler.inner_text := fun _ => "Surname";
  Filler.initially_selected := fun _ => false
|}.

Definition ready_filler (df : option Filler.DataFrame) : Filler.FormFiller := {|
  Filler.url := "https://example.test/form";
  Filler.excel_path := "form_template.xlsx";
  Filler.driver := true;
  Filler.wait := true;
  Filler.actions := true;
  Filler.data := df
|}.

(** A row whose only cell is the empty string, in the column
    [firstName]. *)
Definition empty_string_row : Filler.Series :=
  Filler.series_of [("firstName", Filler.Str "")].

(** A page with a single unchecked checkbox, element 2. *)
Definition consent_page : Filler.Page := {|
  Filler.query := fun _ _ => None;
  Filler.displayed := fun _ => true;
  Filler.enabled := fun _ => true;
  Filler.inputs := [2];
  Filler.attribute := fun _ attr =>
    if String.eqb attr "type" then Some "checkbox"
    else if String.eqb attr "name" then Some "consent" else None;
  Filler.tag := fun _ => "input";
  Filler.xpath_elements := fun _ => [];
  Filler.children := fun _ => [];
  Filler.inner_text := fun _ => "Consent";
  Filler.initially_selected := fun _ => false
|}.

(** A page with two candidates.  The first is a [select] (element 1) with
    the id [region] and without name, placeholder or aria-label; it holds a
    label, 7, that reads "Phone" (a label inside the control, as an XHTML
    document or a script can put it).  The nearby-label query selects the
    labels that have an ancestor [select] with that id, so it returns the
    label 7 for element 1.  The second candidate is an [input] (element 2)
    named [phone_number], without id: the driver reports the empty string
    for a missing id.  None of the eight lookups for the label "Phone
    number" matches an element of this page: no attribute contains that
    text, and the text of the label 7 does not contain it either. *)
Definition labelled_page : Filler.Page := {|
  Filler.query := fun _ _ => None;
  Filler.displayed := fun _ => true;
  Filler.enabled := fun _ => true;
  Filler.inputs := [1; 2];
  Filler.attribute := fun e attr =>
    if String.eqb attr "id" then Some (if Nat.eqb e 1 then "region" else "")
    else if Nat.eqb e 2 && String.eqb attr "name" then Some "phone_number"
    else None;
  Filler.tag := fun e => if Nat.eqb e 1 then "select" else "input";
  Filler.xpath_elements := fun xp =>
    if String.eqb xp
         "//label[ancestor::*[count(.|//select[@id='region'])=count(//select[@id='region'])]]"
    then [7] else [];
  Filler.children := fun _ => [];
  Filler.inner_text := fun _ => "Phone";
  Filler.initially_selected := fun _ => false
|}.

(** A page with the same two candidates, but the id attribute of the
    [select] is the empty string, the label inside it reads "Region" and
    the [input] is named [phone]: the [select] has no non-empty name, id,
    placeholder or aria-label, and the nearby-label query, for the [select]
    elements whose id is the empty string, returns the label 7. *)
Definition blank_id_page : Filler.Page := {|
  Filler.query := fun _ _ => None;
  Filler.displayed := fun _ => true;
  Filler.enabled := fun _ => true;
  Filler.inputs := [1; 2];
  Filler.attribute := fun e attr =>
    if String.eqb attr "id" then Some ""
    else if Nat.eqb e 2 && String.eqb attr "name" then Some "phone"
    else None;
  Filler.tag := fun e => if Nat.eqb e 1 then "select" else "input";
  Filler.xpath_elements := fun xp =>
    if String.eqb xp
         "//label[ancestor::*[count(.|//select[@id=''])=count(//select[@id=''])]]"
    then [7] else [];
  Filler.children := fun _ => [];
  Filler.inner_text := fun _ => "Region";
  Filler.initially_selected := fun _ => false
|}.

(** A browser that drops every keystroke and ignores the script: the
    value read back is always empty. *)
Definition deaf_env : Env := {|
  ask_unit := fun _ _ => Ok tt;
  ask_bool := fun _ _ => Ok true;
  ask_attr := fun _ _ => Ok (Some "");
  ask_str := fun _ _ => Ok "";
  ask_element := fun _ _ => Raise NoSuchElementException;
  ask_elements := fun _ _ => Ok []
|}.

(** The page of [first_name_page], but without any form to submit: the
    click on a submit control times out and the script
    [document.forms[0].submit()] raises. *)
Definition formless_env : Env := {|
  ask_unit := fun _ ev =>
    match ev with
    | ExecuteScript _ [] => Raise WebDriverException
    | _ => Ok tt
    end;
  ask_bool := ask_bool (Filler.page_env first_name_page);
  ask_attr := ask_attr (Filler.page_env first_name_page);
  ask_str := ask_str (Filler.page_env first_name_page);
  ask_element := ask_element (Filler.page_env first_name_page);
  ask_elements := ask_elements (Filler.page_env first_name_page)
|}.

(** A driver that rejects every selector, as Selenium does for a selector
    that is not well formed. *)
Definition rejecting_env : Env := {|
  ask_unit := fun _ _ => Ok tt;
  ask_bool := fun _ _ => Ok true;
  ask_attr := fun _ _ => Ok None;
  ask_str := fun _ _ => Ok "";
  ask_element := fun _ _ => Raise InvalidSelectorException;
  ask_elements := fun _ _ => Ok []
|}.

(** A browser whose tabs open but in which the fill script raises. *)
Definition stalling_browser : BDO.Browser := {|
  BDO.started := true;
  BDO.is_chrome := true;
  BDO.open_tabs := fun _ => Ok tt;
  BDO.window_handles := BDO.window_handles BDO.working_browser;
  BDO.load_form := fun _ => Ok tt;
  BDO.fill_tab := fun _ _ => Raise WebDriverException;
  BDO.tab := BDO.tab BDO.working_browser
|}.

(** A page on which the lookup by [label[for*=...]] for "Email" gives a
    hidden element, 9, and the lookup by placeholder gives the input 3. *)
Definition placeholder_page : Filler.Page := {|
  Filler.query := fun _ selector =>
    if prefix "label[for*='Email']" selector then Some 9
    else if prefix "input[placeholder*='Email']" selector then Some 3
    else None;
  Filler.displayed := fun e => negb (Nat.eqb e 9);
  Filler.enabled := fun _ => true;
  Filler.inputs := [9; 3];
  Filler.attribute := fun e attr =>
    if Nat.eqb e 3 && String.eqb attr "placeholder" then Some "Email address" else None;
  Filler.tag := fun _ => "input";
  Filler.xpath_elements := fun _ => [];
  Filler.children := fun _ => [];
  Filler.inner_text := fun _ => "Contact";
  Filler.initially_selected := fun _ => false
|}.

(** A page with a dropdown, element 1, whose options 11, 12 and 13 read
    "France", "United Kingdom" and "United States", and a radio button,
    element 2. *)
Definition choice_page : Filler.Page := {|
  Filler.query := fun _ _ => None;
  Filler.displayed := fun _ => true;
  Filler.enabled := fun _ => true;
  Filler.inputs := [1; 2];
  Filler.attribute := fun e attr =>
    if String.eqb attr "type"
    then (if Nat.eqb e 1 then Some "select-one" else Some "radio")
    else None;
  Filler.tag := fun e => if Nat.eqb e 1 then "select" else "input";
  Filler.xpath_elements := fun _ => [];
  Filler.children := fun e => if Nat.eqb e 1 then [11; 12; 13] else [];
  Filler.inner_text := fun e =>
    if Nat.eqb e 11 then "France"
    else if Nat.eqb e 12 then "United Kingdom"
    else "United States";
  Filler.initially_selected := fun _ => false
|}.

(** A browser that cannot be closed: [quit] raises. *)
Definition quit_fails_env : Env := {|
  ask_unit := fun _ ev =>
    match ev with
    | Quit => Raise WebDriverException
    | _ => Ok tt
    end;
  ask_bool := ask_bool (Filler.page_env first_name_page);
  ask_attr := ask_attr (Filler.page_env first_name_page);
  ask_str := ask_str (Filler.page_env first_name_page);
  ask_element := ask_element (Filler.page_env first_name_page);
  ask_elements := ask_elements (Filler.page_env first_name_page)
|}.

(** A document with three controls: an email input, 1, labelled by the
    label 10 for its id; a text input, 2, with a placeholder only; and a
    control, 3, without label, placeholder, name or id. *)
Definition signup_document : Analysis.Document := {|
  Analysis.elements := [1; 2; 3];
  Analysis.attribute := fun e attr =>
    match e with
    | 1 => if String.eqb attr "id" then Some "email"
           else if String.eqb attr "type" then Some "email"
           else if String.eqb attr "required" then Some ""
           else None
    | 2 => if String.eqb attr "placeholder" then Some "Your name" else None
    | _ => None
    end;
  Analysis.label_for := fun id => if String.eqb id "email" then Some 10 else None;
  Analysis.ancestor_label := fun _ => None;
  Analysis.sibling_label := fun _ => None;
  Analysis.inner_text := fun _ => "  Email address "
|}.

(** A browser that accepts every call, finds the element 1 for every
    lookup and answers true to every question. *)
Definition obliging_browser : Chrome.Browser := {|
  Chrome.ask_unit := fun _ _ => Ok tt;
  Chrome.ask_bool := fun _ _ => Ok true;
  Chrome.ask_attr := fun _ _ => Ok None;
  Chrome.ask_element := fun _ _ => Ok 1
|}.

(** A template with the single column [firstName] and two rows. *)
Definition two_rows : Filler.DataFrame := {|
  Filler.columns := ["firstName"];
  Filler.rows := [Filler.series_of [("firstName", Filler.Str "Ada")];
                  Filler.series_of [("firstName", Filler.Str "Bob")]]
|}.

(** A template whose single column has a quote in its name, with two
    rows. *)
Definition quoted_header_rows : Filler.DataFrame := {|
  Filler.columns := ["Mother's name"];
  Filler.rows := [Filler.series_of [("Mother's name", Filler.Str "Ada")];
                  Filler.series_of [("Mother's name", Filler.Str "Eve")]]
|}.

(** The 25 numbers of the scenario. *)
Definition scenario_numbers : list string :=
  map (fun i => "63917" ++ PyStr.str_of_int (1000000 + Z.of_nat i)) (seq 0 25).

(** * Properties *)

(** ** Strings *)

Lemma prefix_app (p s x : string) :
  prefix p s = true -> prefix p (s ++ x) = true.
Proof.
  revert s; induction p as [|a p IH]; intros s; [intros _; destruct (s ++ x); reflexivity|].
  destruct s as [|b s]; simpl; [discriminate|].
  destruct (ascii_dec a b); auto.
Qed.

Lemma length_app (s x : string) :
  String.length (s ++ x) = String.length s + String.length x.
Proof. induction s as [|c s IH]; simpl; auto. Qed.

Lemma prefix_empty (s : string) : prefix "" s = true.
Proof. destruct s; reflexivity. Qed.

Lemma contains_empty (s : string) : contains "" s = true.
Proof. destruct s; reflexivity. Qed.

Lemma contains_cons_false (p : string) (c : ascii) (s : string) :
  contains p (String c s) = false ->
  prefix p (String c s) = false /\ contains p s = false.
Proof.
  cbn [contains]. intros H. apply orb_false_iff in H. exact H.
Qed.

(** The required-" *" [" *"] and its removal. *)

Lemma prefix_marker_spec (c : ascii) (s : string) :
  prefix " *" (String c s) = true <->
  c = " "%char /\ exists s', s = String "*" s'.
Proof.
  cbn [prefix]. split.
  - destruct (ascii_dec " " c) as [<-|]; [|intros ?; discriminate].
    destruct s as [|d s]; [intros ?; discriminate|].
    cbn [prefix].
    destruct (ascii_dec "*" d) as [<-|]; [|intros ?; discriminate].
    intros _. split; [reflexivity|]. exists s. reflexivity.
  - intros [-> [s' ->]].
    destruct (ascii_dec " " " ") as [_|n]; [|exfalso; apply n; reflexivity].
    destruct (ascii_dec "*" "*") as [_|n]; [|exfalso; apply n; reflexivity].
    destruct s'; reflexivity.
Qed.

Lemma marker_prefix_app (c : ascii) (l x : string) :
  prefix " *" (String c l) = false ->
  (forall x', x <> String "*" x') ->
  prefix " *" (String c (l ++ x)) = false.
Proof.
  intros Hl Hstar.
  destruct (prefix " *" (String c (l ++ x))) eqn:E; [exfalso|reflexivity].
  apply prefix_marker_spec in E. destruct E as [-> [s' Hs]].
  destruct l as [|d l].
  - apply (Hstar s'). exact Hs.
  - change (String d l ++ x) with (String d (l ++ x)) in Hs.
    injection Hs as -> _.
    assert (prefix " *" (String " " (String "*" l)) = true) as Ht.
    { apply prefix_marker_spec. split; [reflexivity|]. exists l. reflexivity. }
    rewrite Ht in Hl. discriminate.
Qed.

Lemma prefix_marker_length (c : ascii) (l : string) :
  prefix " *" (String c l) = true -> 1 <= String.length l.
Proof.
  intros H. apply prefix_marker_spec in H. destruct H as [_ [s' ->]]. simpl. lia.
Qed.

Lemma replace_marker_absent (s : string) :
  contains " *" s = false -> replace " *" "" s = s.
Proof.
  unfold replace. induction s as [|c s IH]; intros H; [reflexivity|].
  apply contains_cons_false in H. destruct H as [Hp Hc].
  cbn [replace_from]. rewrite Hp. f_equal. auto.
Qed.

Lemma replace_marker_append (l : string) (k : nat) :
  k <= String.length l ->
  replace_from " *" "" k (l ++ " *") = replace_from " *" "" k l.
Proof.
  revert k. induction l as [|c l IH]; intros k Hk.
  - simpl in Hk. assert (k = 0) as -> by lia. reflexivity.
  - change (String c l ++ " *") with (String c (l ++ " *")).
    cbn [replace_from]. destruct k as [|k].
    + destruct (prefix " *" (String c l)) eqn:Hp.
      * pose proof (prefix_app _ (String c l) " *" Hp) as Hq.
        change (String c l ++ " *") with (String c (l ++ " *")) in Hq. rewrite Hq.
        f_equal. apply IH. pose proof (prefix_marker_length _ _ Hp). simpl. lia.
      * rewrite marker_prefix_app; auto.
        -- f_equal. apply IH. lia.
        -- intros x' Hx. discriminate Hx.
    + apply IH. simpl in Hk. lia.
Qed.

Lemma app_empty_r (s : string) : s ++ "" = s.
Proof. induction s as [|c s IH]; simpl; congruence. Qed.

Lemma replace_from_length (k : nat) (s : string) :
  String.length (replace_from " *" "" k s) <= String.length s - k.
Proof.
  revert k. induction s as [|c s IH]; intros k; [simpl; lia|].
  cbn [replace_from]. destruct k as [|k].
  - destruct (prefix " *" (String c s)).
    + change (String.length ("" ++ replace_from " *" "" (String.length " *" - 1) s))
        with (String.length (replace_from " *" "" 1 s)).
      specialize (IH 1). simpl. lia.
    + specialize (IH 0). simpl. lia.
  - specialize (IH k). simpl. lia.
Qed.

Lemma replace_marker_present (l x : string) :
  contains " *" l = true ->
  String.length (replace " *" "" (l ++ x)) + 2 <= String.length l + String.length x.
Proof.
  unfold replace. induction l as [|c l IH]; intros H; [discriminate|].
  change (String c l ++ x) with (String c (l ++ x)).
  cbn [contains] in H. cbn [replace_from].
  destruct (prefix " *" (String c l)) eqn:Hp.
  - pose proof (prefix_app _ (String c l) x Hp) as Hq.
    change (String c l ++ x) with (String c (l ++ x)) in Hq. rewrite Hq.
    change (String.length ("" ++ replace_from " *" "" (String.length " *" - 1) (l ++ x)))
      with (String.length (replace_from " *" "" 1 (l ++ x))).
    pose proof (replace_from_length 1 (l ++ x)) as Hlen.
    rewrite length_app in Hlen.
    pose proof (prefix_marker_length _ _ Hp).
    simpl. lia.
  - simpl in H. specialize (IH H).
    destruct (prefix " *" (String c (l ++ x))) eqn:Hq.
    + change (String.length ("" ++ replace_from " *" "" (String.length " *" - 1) (l ++ x)))
        with (String.length (replace_from " *" "" 1 (l ++ x))).
      pose proof (replace_from_length 1 (l ++ x)) as Hlen.
      rewrite length_app in Hlen.
      assert (1 <= String.length l) by (destruct l; [discriminate H|simpl; lia]).
      simpl. lia.
    + simpl. lia.
Qed.

(** ** Template headers and their cleaning *)

(** C9, counterexample.  The analyzer's header for the field labelled
    ["Email *"] is ["Email *"]; the session cleans it to ["Email"], which is
    not the label the analyzer found. *)
Lemma header_round_trip_counterexample :
  Analyzer.header starred_field = "Email *" /\
  Filler.clean_field_name (Analyzer.header starred_field) = "Email" /\
  Filler.clean_field_name (Analyzer.header starred_field) <> Analyzer.label starred_field.
Proof.
  repeat split; try reflexivity. intros H. discriminate H.
Qed.

(** C9, as amended.  The header of a field is its label, followed by
    [" *"] exactly when the field is required, and cleaning the header gives
    back the label if and only if the label does not itself contain
    [" *"]; so the headers of a whole template are cleaned to the labels of
    its fields exactly when no label contains the marker. *)
Theorem header_round_trip (form_fields : list Analyzer.FormField) :
  (forall field,
      Analyzer.header field
      = Analyzer.label field ++ (if Analyzer.required field then " *" else "")) /\
  (forall field,
      Filler.clean_field_name (Analyzer.header field) = Analyzer.label field
      <-> contains " *" (Analyzer.label field) = false) /\
  (map Filler.clean_field_name (Analyzer.create_excel_template_headers form_fields)
   = map Analyzer.label form_fields
   <-> Forall (fun field => contains " *" (Analyzer.label field) = false) form_fields).
Proof.
  assert (Hshape : forall field,
             Analyzer.header field
             = Analyzer.label field ++ (if Analyzer.required field then " *" else "")).
  { intros field. unfold Analyzer.header.
    destruct (Analyzer.required field); [reflexivity|]. symmetry. apply app_empty_r. }
  assert (Hclean : forall field,
             Filler.clean_field_name (Analyzer.header field)
             = replace " *" "" (Analyzer.label field)).
  { intros field. unfold Filler.clean_field_name, Analyzer.header.
    destruct (Analyzer.required field); [|reflexivity].
    apply replace_marker_append. lia. }
  assert (Hone : forall field,
             Filler.clean_field_name (Analyzer.header field) = Analyzer.label field
             <-> contains " *" (Analyzer.label field) = false).
  { intros field. rewrite Hclean. split.
    - intros Heq. destruct (contains " *" (Analyzer.label field)) eqn:Hc; [exfalso|reflexivity].
      pose proof (replace_marker_present _ "" Hc) as Hlen.
      rewrite app_empty_r, Heq in Hlen. simpl in Hlen. lia.
    - apply replace_marker_absent. }
  split; [exact Hshape|]. split; [exact Hone|].
  unfold Analyzer.create_excel_template_headers.
  induction form_fields as [|field rest IH]; simpl.
  - split; auto.
  - split.
    + intros H. injection H as H1 H2. constructor.
      * apply Hone. exact H1.
      * apply IH. exact H2.
    + intros H. inversion H as [|? ? H1 H2]; subst. f_equal.
      * apply Hone. exact H1.
      * apply IH. exact H2.
Qed.

(** ** Reasoning about computations *)

Section Logic.

Context {A B : Type}.

Lemma bind_ok (m : M A) (k : A -> M B) t evs1 a :
  m t = (evs1, Ok a) ->
  bind m k t = ((evs1 ++ fst (k a (t ++ evs1)))%list, snd (k a (t ++ evs1))%list).
Proof. unfold bind. intros ->. destruct (k a (t ++ evs1)%list); reflexivity. Qed.

Lemma bind_raise (m : M A) (k : A -> M B) t evs1 e :
  m t = (evs1, Raise e) -> bind m k t = (evs1, Raise e).
Proof. unfold bind. intros ->. reflexivity. Qed.

End Logic.

Lemma post_ret {A} (a : A) t (Q : list event -> result A -> Prop) :
  Q [] (Ok a) -> post (ret a) t Q.
Proof. exact (fun H => H). Qed.

Lemma post_raise {A} e t (Q : list event -> result A -> Prop) :
  Q [] (Raise e) -> post (raise e) t Q.
Proof. exact (fun H => H). Qed.

Lemma post_call {A} (ask : trace -> event -> result A) ev t Q :
  Q [ev] (ask t ev) -> post (call ask ev) t Q.
Proof. exact (fun H => H). Qed.

Lemma post_log lvl msg t (Q : list event -> result unit -> Prop) :
  Q [Log lvl msg] (Ok tt) -> post (log lvl msg) t Q.
Proof. exact (fun H => H). Qed.

Lemma post_bind {A B} (m : M A) (k : A -> M B) t Q :
  post m t (fun evs1 r1 =>
              match r1 with
              | Ok a => post (k a) (t ++ evs1)%list (fun evs2 r => Q (evs1 ++ evs2)%list r)
              | Raise e => Q evs1 (Raise e)
              end) ->
  post (bind m k) t Q.
Proof.
  unfold post, bind. destruct (m t) as [evs1 [a|e]]; simpl; auto.
  destruct (k a (t ++ evs1)%list); auto.
Qed.

Lemma post_try_except {A} (m : M A) (catches : exn -> bool) handler t Q :
  post m t (fun evs1 r1 =>
              match r1 with
              | Ok a => Q evs1 (Ok a)
              | Raise e =>
                  if catches e
                  then post (handler e) (t ++ evs1)%list
                         (fun evs2 r => Q (evs1 ++ evs2)%list r)
                  else Q evs1 (Raise e)
              end) ->
  post (try_except m catches handler) t Q.
Proof.
  unfold post, try_except. destruct (m t) as [evs1 [a|e]]; simpl; auto.
  destruct (catches e); auto. destruct (handler e (t ++ evs1)%list); auto.
Qed.

Lemma post_try_finally {A} (m : M A) cleanup t Q :
  post m t (fun evs1 r1 =>
              post cleanup (t ++ evs1)%list
                (fun evs2 r2 =>
                   match r2 with
                   | Ok _ => Q (evs1 ++ evs2)%list r1
                   | Raise e => Q (evs1 ++ evs2)%list (Raise e)
                   end)) ->
  post (try_finally m cleanup) t Q.
Proof.
  unfold post, try_finally. destruct (m t) as [evs1 r1]; simpl.
  destruct (cleanup (t ++ evs1)%list) as [evs2 [u|e]]; auto.
Qed.

Lemma post_conseq {A} (m : M A) t (Q Q' : list event -> result A -> Prop) :
  post m t Q -> (forall evs r, Q evs r -> Q' evs r) -> post m t Q'.
Proof. unfold post. auto. Qed.

Lemma post_any {A} (m : M A) t (Q : list event -> result A -> Prop) :
  (forall evs r, Q evs r) -> post m t Q.
Proof. unfold post. auto. Qed.

Lemma post_run {A} (m : M A) t (Q : list event -> result A -> Prop) :
  post m t Q -> forall evs r, m t = (evs, r) -> Q evs r.
Proof. unfold post. intros H evs r E. rewrite E in H. exact H. Qed.

(** One step of symbolic execution. *)
Ltac step :=
  match goal with
  | |- post (bind _ _) _ _ => apply post_bind
  | |- post (try_except _ _ _) _ _ => apply post_try_except
  | |- post (try_finally _ _) _ _ => apply post_try_finally
  | |- post (ret _) _ _ => apply post_ret
  | |- post (raise _) _ _ => apply post_raise
  | |- post (log _ _) _ _ => apply post_log
  | |- post (call _ _) _ _ => apply post_call
  end.

(** ** What a computation may emit *)

Lemma emits_only_post (P : event -> bool) {A} (m : M A) :
  (forall t, post m t (fun evs _ => forallb P evs = true)) <-> emits_only P m.
Proof. unfold post, emits_only. tauto. Qed.

Lemma emits_only_ret P {A} (a : A) : emits_only P (ret a).
Proof. intros t. reflexivity. Qed.

Lemma emits_only_raise P {A} e : emits_only P (@raise A e).
Proof. intros t. reflexivity. Qed.

Lemma emits_only_call (P : event -> bool) {A} (ask : trace -> event -> result A) ev :
  P ev = true -> emits_only P (call ask ev).
Proof. intros H t. simpl. rewrite H. reflexivity. Qed.

Lemma emits_only_log (P : event -> bool) lvl msg :
  P (Log lvl msg) = true -> emits_only P (log lvl msg).
Proof. intros H t. simpl. rewrite H. reflexivity. Qed.

Lemma emits_only_bind P {A B} (m : M A) (k : A -> M B) :
  emits_only P m -> (forall a, emits_only P (k a)) -> emits_only P (bind m k).
Proof.
  intros Hm Hk t. specialize (Hm t). unfold bind.
  destruct (m t) as [evs1 [a|e]]; simpl in *; auto.
  specialize (Hk a (t ++ evs1)%list). destruct (k a (t ++ evs1)%list); simpl in *.
  rewrite forallb_app, Hm, Hk. reflexivity.
Qed.

Lemma emits_only_try_except P {A} (m : M A) (catches : exn -> bool) handler :
  emits_only P m -> (forall e, emits_only P (handler e)) ->
  emits_only P (try_except m catches handler).
Proof.
  intros Hm Hh t. specialize (Hm t). unfold try_except.
  destruct (m t) as [evs1 [a|e]]; simpl in *; auto.
  destruct (catches e); simpl; auto.
  specialize (Hh e (t ++ evs1)%list). destruct (handler e (t ++ evs1)%list); simpl in *.
  rewrite forallb_app, Hm, Hh. reflexivity.
Qed.

Lemma emits_only_try_finally P {A} (m : M A) cleanup :
  emits_only P m -> emits_only P cleanup -> emits_only P (try_finally m cleanup).
Proof.
  intros Hm Hc t. specialize (Hm t). unfold try_finally.
  destruct (m t) as [evs1 r1]; simpl in *.
  specialize (Hc (t ++ evs1)%list).
  destruct (cleanup (t ++ evs1)%list) as [evs2 [u|e]]; simpl in *;
    rewrite forallb_app, Hm, Hc; reflexivity.
Qed.

Lemma emits_only_weaken (P P' : event -> bool) {A} (m : M A) :
  (forall ev, P ev = true -> P' ev = true) -> emits_only P m -> emits_only P' m.
Proof.
  intros Himp Hm t. specialize (Hm t).
  rewrite forallb_forall in *. auto.
Qed.

Lemma never_raises_ret {A} (a : A) : never_raises (ret a).
Proof. intros t. exists a. reflexivity. Qed.

Lemma never_raises_log lvl msg : never_raises (log lvl msg).
Proof. intros t. exists tt. reflexivity. Qed.

Lemma never_raises_bind {A B} (m : M A) (k : A -> M B) :
  never_raises m -> (forall a, never_raises (k a)) -> never_raises (bind m k).
Proof.
  intros Hm Hk t. destruct (Hm t) as [a Ha]. unfold bind.
  destruct (m t) as [evs1 r]; simpl in Ha; subst r.
  destruct (Hk a (t ++ evs1)%list) as [b Hb].
  destruct (k a (t ++ evs1)%list); simpl in *. exists b. exact Hb.
Qed.

Lemma never_raises_catch_all {A} (m : M A) handler :
  (forall e, never_raises (handler e)) ->
  never_raises (try_except m any_exception handler).
Proof.
  intros Hh t. unfold try_except.
  destruct (m t) as [evs1 [a|e]]; simpl.
  - exists a. reflexivity.
  - destruct (Hh e (t ++ evs1)%list) as [b Hb].
    destruct (handler e (t ++ evs1)%list); simpl in *. exists b. exact Hb.
Qed.

Create HintDb emits.

#[local] Hint Resolve emits_only_ret emits_only_raise emits_only_call emits_only_log
  emits_only_bind emits_only_try_except emits_only_try_finally
  never_raises_ret never_raises_log never_raises_bind never_raises_catch_all : emits.

Ltac unfold_calls :=
  unfold Filler.find_element, Filler.find_elements, Filler.element_find_elements,
    Filler.is_displayed, Filler.is_enabled, Filler.is_selected, Filler.get_attribute,
    Filler.tag_name, Filler.text, Filler.click, Filler.clear, Filler.send_keys,
    Filler.execute_script, Filler.actions_click_send_keys, Filler.actions_click,
    Filler.wait_clickable, Filler.driver_get, Filler.driver_quit.

(** Decomposes a goal [emits_only P m] or [never_raises m] along the
    structure of [m]. *)
Ltac emits :=
  unfold_calls;
  repeat (intros;
          first
            [ solve [auto]
            | apply emits_only_ret
            | apply emits_only_raise
            | apply emits_only_call; reflexivity
            | apply emits_only_log; reflexivity
            | apply emits_only_bind
            | apply emits_only_try_except
            | apply emits_only_try_finally
            | apply never_raises_ret
            | apply never_raises_log
            | apply never_raises_bind
            | apply never_raises_catch_all
            | progress cbv zeta
            | match goal with
              | |- emits_only _ (if ?b then _ else _) => destruct b
              | |- emits_only _ (match ?x with _ => _ end) => destruct x
              | |- never_raises (if ?b then _ else _) => destruct b
              | |- never_raises (match ?x with _ => _ end) => destruct x
              end ]).

(** ** The resolver only inspects the page *)

Lemma is_fuzzy_lookup ev : is_fuzzy ev = true -> Filler.is_lookup ev = true.
Proof. destruct ev; try discriminate; auto. Qed.

Section Resolver.

Variable env : Env.

Lemma try_strategies_lookup l : emits_only Filler.is_lookup (Filler.try_strategies env l).
Proof.
  induction l as [|[by_ selector] rest IH]; simpl; [emits|].
  unfold Filler.try_strategy. emits.
Qed.

Lemma check_attributes_fuzzy label input_field attrs :
  emits_only is_fuzzy (Filler.check_attributes env label input_field attrs).
Proof. induction attrs as [|attr rest IH]; simpl; emits. Qed.

Lemma check_nearby_labels_fuzzy label labels :
  emits_only is_fuzzy (Filler.check_nearby_labels env label labels).
Proof. induction labels as [|l rest IH]; simpl; emits. Qed.

Lemma fuzzy_loop_fuzzy label all_inputs :
  emits_only is_fuzzy (Filler.fuzzy_loop env label all_inputs).
Proof.
  induction all_inputs as [|input_field rest IH]; simpl; [emits|].
  pose proof check_attributes_fuzzy. pose proof check_nearby_labels_fuzzy.
  unfold Filler.nearby_xpath. emits.
Qed.

Lemma fuzzy_fallback_fuzzy label :
  emits_only is_fuzzy (Filler.fuzzy_fallback env label).
Proof. pose proof fuzzy_loop_fuzzy. unfold Filler.fuzzy_fallback. emits. Qed.

Lemma find_field_lookup self label :
  emits_only Filler.is_lookup (Filler.find_field_by_multiple_strategies env self label).
Proof.
  unfold Filler.find_field_by_multiple_strategies.
  pose proof try_strategies_lookup.
  pose proof (fun label => emits_only_weaken _ _ _ is_fuzzy_lookup (fuzzy_fallback_fuzzy label)).
  emits.
Qed.

End Resolver.

(** ** The resolver when nothing matches *)

Section ResolverMisses.

Variable env : Env.
Variable label : string.

(** No attribute and no label text of the page is similar to [label]. *)
Hypothesis no_similar_attribute :
  forall t e attr v,
    In attr Filler.fuzzy_attrs ->
    ask_attr env t (GetAttribute e attr) = Ok (Some v) ->
    truthy v = true ->
    Filler.strings_similar label v = false.

Hypothesis no_similar_text :
  forall t e txt,
    ask_str env t (Text e) = Ok txt ->
    Filler.strings_similar label txt = false.

Lemma check_attributes_no_match input_field attrs t :
  incl attrs Filler.fuzzy_attrs ->
  post (Filler.check_attributes env label input_field attrs) t
       (fun _ r => r <> Ok true).
Proof.
  revert t. induction attrs as [|attr rest IH]; intros t Hincl; cbn [Filler.check_attributes].
  - step. discriminate.
  - unfold Filler.get_attribute. step. step.
    destruct (ask_attr env t (GetAttribute input_field attr)) as [[v|]|e] eqn:Hask.
    + destruct (truthy v) eqn:Hv; simpl.
      * rewrite (no_similar_attribute t input_field attr v); auto.
        -- eapply post_conseq; [apply IH|]; auto.
           intros a Ha. apply Hincl. right. exact Ha.
        -- apply Hincl. left. reflexivity.
      * eapply post_conseq; [apply IH|]; auto.
        intros a Ha. apply Hincl. right. exact Ha.
    + eapply post_conseq; [apply IH|]; auto.
      intros a Ha. apply Hincl. right. exact Ha.
    + discriminate.
Qed.

Lemma check_nearby_labels_no_match labels t :
  post (Filler.check_nearby_labels env label labels) t (fun _ r => r <> Ok true).
Proof.
  revert t. induction labels as [|l rest IH]; intros t; cbn [Filler.check_nearby_labels].
  - step. discriminate.
  - unfold Filler.text. step. step.
    destruct (ask_str env t (Text l)) as [txt|e] eqn:Hask; [|discriminate].
    rewrite (no_similar_text t l txt Hask).
    eapply post_conseq; [apply IH|]. auto.
Qed.

Lemma fuzzy_loop_no_match all_inputs t :
  post (Filler.fuzzy_loop env label all_inputs) t
       (fun _ r => forall field, r <> Ok (Some field)).
Proof.
  revert t. induction all_inputs as [|input_field rest IH]; intros t; cbn [Filler.fuzzy_loop].
  - step. discriminate.
  - step. eapply post_conseq; [apply check_attributes_no_match; apply incl_refl|].
    intros evs1 [[|]|e] Hr; [congruence| |discriminate].
    step. step.
    assert (forall t', post (xp <- Filler.nearby_xpath env input_field ;;
                             nearby_labels <- Filler.find_elements env XPATH xp ;;
                             Filler.check_nearby_labels env label nearby_labels)%py t'
                         (fun _ r => r <> Ok true)) as Hnear.
    { intros t'. step. apply post_any. intros evs [xp|e]; [|discriminate].
      step. unfold Filler.find_elements. step.
      destruct (ask_elements env _ _) as [ls|e]; [|discriminate].
      eapply post_conseq; [apply check_nearby_labels_no_match|]. auto. }
    eapply post_conseq; [apply Hnear|].
    intros evs2 [[|]|e] Hr2; [congruence| |].
    + eapply post_conseq; [apply IH|]. auto.
    + unfold any_exception. step.
      eapply post_conseq; [apply IH|]. auto.
Qed.

Lemma fuzzy_fallback_no_match t :
  snd (Filler.fuzzy_fallback env label t) = Ok None.
Proof.
  change (post (Filler.fuzzy_fallback env label) t (fun _ r => r = Ok None)).
  unfold Filler.fuzzy_fallback, Filler.find_elements.
  step. step. step.
  destruct (ask_elements env t _) as [all_inputs|e].
  - eapply post_conseq; [apply fuzzy_loop_no_match|].
    intros evs [[field|]|e] Hr; [exfalso; eapply Hr; reflexivity|reflexivity|].
    unfold any_exception. step. step. step. reflexivity.
  - unfold any_exception. step. step. step. reflexivity.
Qed.

End ResolverMisses.

Lemma try_strategies_miss env l :
  (forall t by_ selector,
      In (by_, selector) l ->
      exists e, ask_element env t (FindElement by_ selector) = Raise e /\
                Filler.lookup_miss e = true) ->
  forall t, snd (Filler.try_strategies env l t) = Ok None.
Proof.
  induction l as [|[by_ selector] rest IH]; intros Hmiss t; [reflexivity|].
  change (post (Filler.try_strategies env ((by_, selector) :: rest)) t
               (fun _ r => r = Ok None)).
  cbn [Filler.try_strategies]. unfold Filler.try_strategy, Filler.find_element.
  step. step. step. step.
  destruct (Hmiss t by_ selector (or_introl eq_refl)) as [e [-> Hcatch]].
  rewrite Hcatch. step.
  apply IH. intros t' b s Hin. apply Hmiss. right. exact Hin.
Qed.

Lemma fuzzy_fallback_never_raises env label :
  never_raises (Filler.fuzzy_fallback env label).
Proof. unfold Filler.fuzzy_fallback. emits. Qed.

(** C3, as amended.  When each of the eight lookups reports that no element
    matches, by [NoSuchElementException] or by
    [ElementNotInteractableException], the resolver never raises; when
    moreover no name, id, placeholder or aria-label attribute and no label
    text is similar to the label, it returns [None]. *)
Theorem resolver_not_found (env : Env) (self : Filler.FormFiller) (label : string) :
  strategies_miss env label ->
  (forall t, exists r, snd (Filler.find_field_by_multiple_strategies env self label t) = Ok r) /\
  ((forall t e attr v,
       In attr Filler.fuzzy_attrs ->
       ask_attr env t (GetAttribute e attr) = Ok (Some v) ->
       truthy v = true ->
       Filler.strings_similar label v = false) ->
   (forall t e txt,
       ask_str env t (Text e) = Ok txt ->
       Filler.strings_similar label txt = false) ->
   forall t, snd (Filler.find_field_by_multiple_strategies env self label t) = Ok None).
Proof.
  intros Hmiss.
  assert (Hshape : forall t (Q : result (option WebElement) -> Prop),
             Q (Ok None) ->
             (forall t', Q (snd (Filler.fuzzy_fallback env label t'))) ->
             Q (snd (Filler.find_field_by_multiple_strategies env self label t))).
  { intros t Q Hnone Hfuzzy.
    unfold Filler.find_field_by_multiple_strategies.
    destruct (negb (Filler.driver self) || negb (Filler.wait self)); [exact Hnone|].
    change (post (found <- Filler.try_strategies env (Filler.strategies label) ;;
                  match found with
                  | Some field => ret (Some field)
                  | None => Filler.fuzzy_fallback env label
                  end)%py t (fun _ r => Q r)).
    step. unfold post at 1.
    rewrite (try_strategies_miss env _ Hmiss t). apply Hfuzzy. }
  split.
  - intros t. apply Hshape.
    + exists None. reflexivity.
    + intros t'. apply fuzzy_fallback_never_raises.
  - intros Hattr Htext t. apply Hshape; [reflexivity|].
    intros t'. apply fuzzy_fallback_no_match; assumption.
Qed.

Lemma resolver_not_found_witness :
  snd (Filler.find_field_by_multiple_strategies
         (Filler.page_env first_name_page) (ready_filler None) "Mobile" []) = Ok None.
Proof.
  refine (proj2 (resolver_not_found (Filler.page_env first_name_page) (ready_filler None)
                   "Mobile" _) _ _ []).
  - intros t by_ selector _. exists NoSuchElementException. split; reflexivity.
  - intros t e attr v Hin Hask Hv. simpl in Hin.
    destruct Hin as [<-|[<-|[<-|[<-|[]]]]]; simpl in Hask;
      first [discriminate Hask | injection Hask as <-; reflexivity].
  - intros t e txt Hask. simpl in Hask. injection Hask as <-. reflexivity.
Defined.

(** C3, counterexample.  The selectors built from the label "Mother's name"
    are not well formed: the quote of the label ends the quoted string of
    the selector.  The driver rejects the first of them with
    [InvalidSelectorException], which the loop over the eight lookups does
    not catch: no element matches the label, and the resolver raises. *)
Lemma resolver_not_found_counterexample :
  Filler.lookup_miss InvalidSelectorException = false /\
  Filler.find_field_by_multiple_strategies rejecting_env (ready_filler None) "Mother's name" []
  = ([FindElement CSS_SELECTOR
        "label[for*='Mother's name'] + input, label[for*='Mother's name'] + select, label[for*='Mother's name'] + textarea"],
     Raise InvalidSelectorException).
Proof. split; reflexivity. Qed.

(** ** Blank and empty cells *)

Lemma is_lookup_not_write ev : Filler.is_lookup ev = true -> negb (Filler.is_write ev) = true.
Proof. destruct ev; try discriminate; reflexivity. Qed.

Lemma isna_str_value value : Filler.isna value = true -> Filler.str_value_of value = "".
Proof. destruct value; try discriminate; reflexivity. Qed.

Lemma fill_field_empty env self field value field_name t :
  truthy (Filler.str_value_of value) = false ->
  Filler.fill_field env self field value field_name t = ([], Ok tt).
Proof.
  intros H. unfold Filler.fill_field, try_except. rewrite H. reflexivity.
Qed.

(** C4, as amended.  A cell whose string form is empty, that is a blank
    cell ([NaN] or [None]) or an explicitly empty string, is never written:
    for a blank cell the column is skipped without any call on the driver;
    for an empty string the field is looked up, but [fill_field] returns
    before any call, so no event that writes to a control is emitted. *)
Theorem empty_values_not_written (env : Env) (self : Filler.FormFiller)
        (row : Filler.Series) (field_name : string) (t : trace) :
  truthy (Filler.str_value_of (row field_name)) = false ->
  (Filler.isna (row field_name) = true ->
   Filler.fill_column env self row field_name t = ([], Ok tt)) /\
  forallb (fun ev => negb (Filler.is_write ev))
          (fst (Filler.fill_column env self row field_name t)) = true /\
  (forall field t',
      Filler.fill_field env self field (row field_name)
                        (Filler.clean_field_name field_name) t' = ([], Ok tt)).
Proof.
  intros Hempty. split; [|split].
  - intros Hna. unfold Filler.fill_column. rewrite Hna. reflexivity.
  - unfold Filler.fill_column. destruct (Filler.isna (row field_name)); [reflexivity|].
    change (post (field <- Filler.find_field_by_multiple_strategies env self
                             (Filler.clean_field_name field_name) ;;
                  match field with
                  | Some f => Filler.fill_field env self f (row field_name)
                                (Filler.clean_field_name field_name)
                  | None => log WARNING (CouldNotFindField (Filler.clean_field_name field_name))
                  end)%py t
                 (fun evs _ => forallb (fun ev => negb (Filler.is_write ev)) evs = true)).
    step. eapply post_conseq.
    + apply emits_only_post.
      apply (emits_only_weaken _ _ _ is_lookup_not_write), find_field_lookup.
    + intros evs [[f|]|e] Hevs; cbv beta in *.
      * unfold post. rewrite fill_field_empty by exact Hempty. simpl.
        rewrite app_nil_r. exact Hevs.
      * step. rewrite forallb_app, Hevs. reflexivity.
      * exact Hevs.
  - intros field t'. apply fill_field_empty. exact Hempty.
Qed.

Lemma empty_values_not_written_witness :
  forallb (fun ev => negb (Filler.is_write ev))
          (fst (Filler.fill_column (Filler.page_env first_name_page) (ready_filler None)
                                   empty_string_row "firstName" [])) = true.
Proof.
  refine (proj1 (proj2 (empty_values_not_written (Filler.page_env first_name_page)
                          (ready_filler None) empty_string_row "firstName" [] _))).
  reflexivity.
Defined.

(** C4, counterexample.  The column [firstName] holds the empty string and
    the resolver finds its field (element 1), yet no call writes to any
    control: the run of the column consists of lookups only. *)
Lemma empty_string_written_counterexample :
  Filler.isna (empty_string_row "firstName") = false /\
  snd (Filler.find_field_by_multiple_strategies
         (Filler.page_env first_name_page) (ready_filler None) "firstName" []) = Ok (Some 1) /\
  existsb Filler.is_write
          (fst (Filler.fill_column (Filler.page_env first_name_page) (ready_filler None)
                                   empty_string_row "firstName" [])) = false.
Proof. repeat split; vm_compute; reflexivity. Qed.

(** ** Checkboxes *)

Lemma clicks_on_app e (t1 t2 : trace) :
  Filler.clicks_on e (t1 ++ t2)%list = Filler.clicks_on e t1 + Filler.clicks_on e t2.
Proof.
  induction t1 as [|ev t1 IH]; [reflexivity|].
  destruct ev; simpl; rewrite ?IH; try reflexivity. lia.
Qed.

Lemma selected_after_oracle p field t :
  ask_bool (Filler.page_env p) t (IsSelected field) = Ok (selected_after p field t).
Proof. reflexivity. Qed.

Lemma fill_field_checkbox_run p self field value field_name t :
  Filler.attribute p field "type" = Some "checkbox" ->
  truthy (Filler.str_value_of value) = true ->
  Filler.fill_field (Filler.page_env p) self field value field_name t
  = (([GetAttribute field "type"; IsSelected field]
      ++ (if Bool.eqb (selected_after p field t)
                      (Filler.desired_state (Filler.str_value_of value))
          then [] else [Click field])
      ++ [Log INFO (FilledField field_name (Filler.str_value_of value))])%list,
     Ok tt).
Proof.
  intros Hty Hv.
  unfold Filler.fill_field, try_except, bind, Filler.get_attribute, call.
  rewrite Hv. cbn [negb]. cbn [Filler.page_env ask_attr String.eqb Ascii.eqb Bool.eqb].
  rewrite Hty.
  cbn [Filler.type_is String.eqb Ascii.eqb Bool.eqb].
  unfold Filler.fill_checkbox, bind, Filler.is_selected, Filler.click, call, log.
  cbn [Filler.page_env ask_bool ask_unit].
  replace (Filler.clicks_on field (t ++ [GetAttribute field "type"])%list)
    with (Filler.clicks_on field t)
    by (rewrite clicks_on_app; simpl; lia).
  fold (selected_after p field t).
  destruct (Bool.eqb (selected_after p field t)
                     (Filler.desired_state (Filler.str_value_of value))); reflexivity.
Qed.

Lemma selected_after_no_click p field t evs :
  Filler.clicks_on field evs = 0 ->
  selected_after p field (t ++ evs)%list = selected_after p field t.
Proof.
  intros H. unfold selected_after. rewrite clicks_on_app, H, Nat.add_0_r. reflexivity.
Qed.

Lemma selected_after_one_click p field t evs :
  Filler.clicks_on field evs = 1 ->
  selected_after p field (t ++ evs)%list = negb (selected_after p field t).
Proof.
  intros H. unfold selected_after.
  rewrite clicks_on_app, H, Nat.add_1_r, Nat.odd_succ, <- Nat.negb_odd.
  destruct (Filler.initially_selected p field), (Nat.odd (Filler.clicks_on field t));
    reflexivity.
Qed.

Lemma desired_state_spec str_value :
  Filler.desired_state str_value = true <->
  In (lower str_value) ["true"; "yes"; "1"; "on"].
Proof.
  unfold Filler.desired_state, in_tuple. rewrite existsb_exists. split.
  - intros [x [Hin Heq]]. apply String.eqb_eq in Heq. subst x. exact Hin.
  - intros Hin. exists (lower str_value). split; [exact Hin|]. apply String.eqb_refl.
Qed.

(** C6.  On a page whose checkbox is toggled by each click, filling the
    same value a second time leaves the checkbox as the first fill left it
    and clicks nothing; after a fill with a non-empty value the checkbox is
    in the desired state; the desired state is true exactly when the
    lower-cased value is one of "true", "yes", "1", "on"; and the fill
    clicks the checkbox (once) exactly when its state differs from the
    desired one. *)
Theorem checkbox_fill_idempotent (p : Filler.Page) (self : Filler.FormFiller)
        (field : WebElement) (value : Filler.scalar) (field_name : string) (t : trace) :
  Filler.attribute p field "type" = Some "checkbox" ->
  let env := Filler.page_env p in
  let str_value := Filler.str_value_of value in
  let once := fst (Filler.fill_field env self field value field_name t) in
  let twice := fst (Filler.fill_field env self field value field_name (t ++ once)%list) in
  selected_after p field ((t ++ once) ++ twice)%list = selected_after p field (t ++ once)%list /\
  Filler.clicks_on field twice = 0 /\
  (truthy str_value = true ->
   selected_after p field (t ++ once)%list = Filler.desired_state str_value) /\
  (Filler.desired_state str_value = true <->
   In (lower str_value) ["true"; "yes"; "1"; "on"]) /\
  Filler.clicks_on field once
  = (if truthy str_value
        && negb (Bool.eqb (selected_after p field t) (Filler.desired_state str_value))
     then 1 else 0).
Proof.
  intros Hty env str_value once twice.
  assert (Hdesired := desired_state_spec str_value).
  destruct (truthy str_value) eqn:Hv.
  - assert (Honce : once
                    = ([GetAttribute field "type"; IsSelected field]
                       ++ (if Bool.eqb (selected_after p field t)
                                       (Filler.desired_state str_value)
                           then [] else [Click field])
                       ++ [Log INFO (FilledField field_name str_value)])%list).
    { unfold once, env. rewrite fill_field_checkbox_run by assumption. reflexivity. }
    assert (Hstate : selected_after p field (t ++ once)%list
                     = Filler.desired_state str_value).
    { rewrite Honce.
      destruct (Bool.eqb (selected_after p field t) (Filler.desired_state str_value)) eqn:Heq.
      - rewrite selected_after_no_click by reflexivity. apply Bool.eqb_prop. exact Heq.
      - rewrite selected_after_one_click
          by (simpl; rewrite Nat.eqb_refl; reflexivity).
        destruct (selected_after p field t), (Filler.desired_state str_value);
          try reflexivity; discriminate. }
    assert (Htwice : Filler.clicks_on field twice = 0).
    { unfold twice, env. rewrite fill_field_checkbox_run by assumption.
      rewrite Hstate. rewrite Bool.eqb_reflx. reflexivity. }
    repeat split; try tauto.
    + apply selected_after_no_click. exact Htwice.
    + rewrite Honce. cbn [andb].
      destruct (Bool.eqb (selected_after p field t) (Filler.desired_state str_value));
        simpl; rewrite ?Nat.eqb_refl; reflexivity.
  - assert (Honce : once = []).
    { unfold once, env. rewrite fill_field_empty by assumption. reflexivity. }
    assert (Htwice : twice = []).
    { unfold twice, env. rewrite fill_field_empty by assumption. reflexivity. }
    rewrite Honce, Htwice. repeat split; try tauto; try discriminate.
    rewrite !app_nil_r. reflexivity.
Qed.

Lemma checkbox_fill_idempotent_witness :
  let once := fst (Filler.fill_field (Filler.page_env consent_page) (ready_filler None)
                                     2 (Filler.Str "Yes") "consent" []) in
  selected_after consent_page 2 once = true /\
  Filler.clicks_on 2
    (fst (Filler.fill_field (Filler.page_env consent_page) (ready_filler None)
                            2 (Filler.Str "Yes") "consent" once)) = 0.
Proof.
  pose proof (checkbox_fill_idempotent consent_page (ready_filler None) 2
                (Filler.Str "Yes") "consent" [] eq_refl) as H.
  cbv zeta in H. destruct H as [_ [Htwice [Hstate _]]].
  split.
  - exact (Hstate eq_refl).
  - exact Htwice.
Defined.

(** ** The fuzzy fallback on a page *)

Section OnPage.

Variable p : Filler.Page.
Variable label : string.

Let env := Filler.page_env p.

Lemma try_strategies_page l t :
  (forall by_ selector,
      In (by_, selector) l ->
      match Filler.query p by_ selector with
      | None => True
      | Some e => Filler.displayed p e && Filler.enabled p e = false
      end) ->
  snd (Filler.try_strategies env l t) = Ok None.
Proof.
  revert t. induction l as [|[by_ selector] rest IH]; intros t Hfail; [reflexivity|].
  change (post (Filler.try_strategies env ((by_, selector) :: rest)) t
               (fun _ r => r = Ok None)).
  cbn [Filler.try_strategies]. unfold Filler.try_strategy.
  unfold Filler.find_element, Filler.is_displayed, Filler.is_enabled.
  assert (Hrest : forall t', snd (Filler.try_strategies env rest t') = Ok None).
  { intros t'. apply IH. intros b s Hin. apply Hfail. right. exact Hin. }
  specialize (Hfail by_ selector (or_introl eq_refl)).
  step. step. step. step.
  unfold env at 1. cbn [Filler.page_env ask_element].
  destruct (Filler.query p by_ selector) as [e|].
  - step. step. unfold env at 1. cbn [Filler.page_env ask_bool].
    destruct (Filler.displayed p e); cbn [andb] in Hfail.
    + step. step. unfold env at 1. cbn [Filler.page_env ask_bool]. rewrite Hfail.
      step. apply Hrest.
    + step. apply Hrest.
  - cbn [Filler.lookup_miss]. step. apply Hrest.
Qed.

Lemma check_attributes_page e attrs t :
  Forall (fun attr => String.eqb attr "value" = false) attrs ->
  snd (Filler.check_attributes env label e attrs t)
  = Ok (existsb (fun attr =>
                   match Filler.attribute p e attr with
                   | Some v => truthy v && Filler.strings_similar label v
                   | None => false
                   end) attrs).
Proof.
  revert t. induction attrs as [|attr rest IH]; intros t Hattrs; [reflexivity|].
  inversion Hattrs as [|? ? Hattr Hrest]; subst.
  match goal with |- snd (?m t) = ?r => change (post m t (fun _ x => x = r)) end.
  cbn [Filler.check_attributes existsb]. unfold Filler.get_attribute.
  step. step. unfold env at 1. cbn [Filler.page_env ask_attr]. rewrite Hattr.
  destruct (match Filler.attribute p e attr with
            | Some v => truthy v && Filler.strings_similar label v
            | None => false
            end).
  - step. reflexivity.
  - apply IH. exact Hrest.
Qed.

Lemma nearby_xpath_page e t :
  snd (Filler.nearby_xpath env e t)
  = Ok ("//label[ancestor::*[count(.|//" ++ Filler.tag p e ++ "[@id='"
        ++ Filler.format_attr (Filler.attribute p e "id")
        ++ "'])=count(//" ++ Filler.tag p e ++ "[@id='"
        ++ Filler.format_attr (Filler.attribute p e "id") ++ "'])]]").
Proof. reflexivity. Qed.

Lemma check_nearby_labels_page labels t :
  snd (Filler.check_nearby_labels env label labels t)
  = Ok (existsb (fun l => Filler.strings_similar label (Filler.inner_text p l)) labels).
Proof.
  revert t. induction labels as [|l rest IH]; intros t; [reflexivity|].
  match goal with |- snd (?m t) = ?r => change (post m t (fun _ x => x = r)) end.
  cbn [Filler.check_nearby_labels existsb]. unfold Filler.text.
  step. step. unfold env at 1. cbn [Filler.page_env ask_str].
  destruct (Filler.strings_similar label (Filler.inner_text p l)).
  - step. reflexivity.
  - apply IH.
Qed.

Lemma fuzzy_loop_page all_inputs t :
  snd (Filler.fuzzy_loop env label all_inputs t)
  = Ok (find (fuzzy_accepts p label) all_inputs).
Proof.
  revert t. induction all_inputs as [|e rest IH]; intros t; [reflexivity|].
  match goal with |- snd (?m t) = ?r => change (post m t (fun _ x => x = r)) end.
  cbn [Filler.fuzzy_loop find]. unfold fuzzy_accepts at 1.
  step. unfold post at 1.
  rewrite check_attributes_page
    by (repeat constructor).
  fold (attribute_similar p label e).
  destruct (attribute_similar p label e); cbn [orb].
  - step. reflexivity.
  - step. step. step. unfold post at 1. rewrite nearby_xpath_page.
    fold (nearby_labels_of p e).
    step. unfold Filler.find_elements. step.
    unfold env at 1. cbn [Filler.page_env ask_elements].
    unfold post at 1. rewrite check_nearby_labels_page.
    fold (nearby_labels_of p e). fold (nearby_label_similar p label e).
    destruct (nearby_label_similar p label e).
    + step. reflexivity.
    + apply IH.
Qed.

Lemma fuzzy_fallback_page t :
  snd (Filler.fuzzy_fallback env label t)
  = Ok (find (fuzzy_accepts p label) (Filler.inputs p)).
Proof.
  match goal with |- snd (?m t) = ?r => change (post m t (fun _ x => x = r)) end.
  unfold Filler.fuzzy_fallback, Filler.find_elements.
  step. step. step. unfold env at 1. cbn [Filler.page_env ask_elements].
  change (String.eqb "input:not([type='hidden']), textarea, select" Filler.inputs_selector)
    with true. cbv iota.
  unfold post. rewrite fuzzy_loop_page. reflexivity.
Qed.

Lemma find_field_page self t :
  Filler.driver self = true ->
  Filler.wait self = true ->
  strategies_fail p label ->
  snd (Filler.find_field_by_multiple_strategies env self label t)
  = Ok (find (fuzzy_accepts p label) (Filler.inputs p)).
Proof.
  intros Hd Hw Hfail.
  match goal with |- snd (?m t) = ?r => change (post m t (fun _ x => x = r)) end.
  unfold Filler.find_field_by_multiple_strategies. rewrite Hd, Hw. cbn [negb orb].
  step. unfold post at 1. rewrite try_strategies_page by exact Hfail.
  apply fuzzy_fallback_page.
Qed.

End OnPage.

(** C7, as amended.  When none of the eight lookups yields a displayed and
    enabled element, the resolver returns the first candidate, in the
    document order of the non-hidden input, textarea and select elements,
    that the fallback accepts: a candidate one of whose non-empty name, id,
    placeholder or aria-label attributes is similar to the label (one
    normalized string contains the other), or one of whose nearby labels has
    a text similar to the label; it returns [None] when there is no such
    candidate. *)
Theorem fuzzy_fallback_first_accepted (p : Filler.Page) (self : Filler.FormFiller)
        (label : string) (t : trace) :
  Filler.driver self = true ->
  Filler.wait self = true ->
  strategies_fail p label ->
  snd (Filler.find_field_by_multiple_strategies (Filler.page_env p) self label t)
  = Ok (find (fun e => attribute_similar p label e || nearby_label_similar p label e)
             (Filler.inputs p)) /\
  (forall s1 s2,
      Filler.strings_similar s1 s2
      = contains (Filler.normalize_string s1) (Filler.normalize_string s2)
        || contains (Filler.normalize_string s2) (Filler.normalize_string s1)).
Proof.
  intros Hd Hw Hfail. split.
  - apply find_field_page; assumption.
  - reflexivity.
Qed.

Lemma fuzzy_fallback_first_accepted_witness :
  snd (Filler.find_field_by_multiple_strategies
         (Filler.page_env first_name_page) (ready_filler None) "First Name" [])
  = Ok (Some 1).
Proof.
  refine (proj1 (fuzzy_fallback_first_accepted first_name_page (ready_filler None)
                   "First Name" [] eq_refl eq_refl _)).
  intros by_ selector _. exact I.
Defined.

(** C7, counterexample.  On [labelled_page] no attribute of the select 1 is
    similar to the label "Phone number" (its id is [region]), and the first
    candidate with a similar attribute is the input 2, named
    [phone_number]; but the resolver returns the select 1, accepted for the
    text of the label that the nearby-label query returns for it. *)
Lemma fuzzy_fallback_counterexample :
  strategies_fail labelled_page "Phone number" /\
  Filler.attribute labelled_page 1 "id" = Some "region" /\
  nearby_labels_of labelled_page 1 = [7] /\
  attribute_similar labelled_page "Phone number" 1 = false /\
  find (attribute_similar labelled_page "Phone number") (Filler.inputs labelled_page)
  = Some 2 /\
  snd (Filler.find_field_by_multiple_strategies
         (Filler.page_env labelled_page) (ready_filler None) "Phone number" [])
  = Ok (Some 1).
Proof.
  split; [intros by_ selector _; exact I|]. repeat split; vm_compute; reflexivity.
Qed.

(** ** Labels whose normalized form is empty *)

Lemma similar_to_empty label s :
  Filler.normalize_string label = "" -> Filler.strings_similar label s = true.
Proof.
  intros H. unfold Filler.strings_similar. rewrite H, contains_empty. reflexivity.
Qed.

Lemma existsb_pointwise {X} (f g : X -> bool) (l : list X) :
  (forall x, f x = g x) -> existsb f l = existsb g l.
Proof. intros H. induction l as [|x l IH]; simpl; [reflexivity|]. rewrite H, IH. reflexivity. Qed.

Lemma find_pointwise {X} (f g : X -> bool) (l : list X) :
  (forall x, f x = g x) -> find f l = find g l.
Proof. intros H. induction l as [|x l IH]; simpl; [reflexivity|]. rewrite H, IH. reflexivity. Qed.

Lemma existsb_true {X} (l : list X) :
  existsb (fun _ => true) l = match l with [] => false | _ => true end.
Proof. destruct l; reflexivity. Qed.

Lemma fuzzy_accepts_empty p label e :
  Filler.normalize_string label = "" ->
  fuzzy_accepts p label e = has_nonempty_attribute p e || has_nearby_label p e.
Proof.
  intros H. unfold fuzzy_accepts, attribute_similar, nearby_label_similar,
    has_nonempty_attribute, has_nearby_label. f_equal.
  - apply existsb_pointwise. intros attr. destruct (Filler.attribute p e attr) as [v|]; auto.
    rewrite similar_to_empty by exact H. apply andb_true_r.
  - rewrite <- existsb_true. apply existsb_pointwise. intros l.
    apply similar_to_empty. exact H.
Qed.

(** C10, as amended.  A label whose normalized form is empty is similar to
    every string.  For such a label, when none of the eight lookups yields a
    displayed and enabled element, the resolver returns the first candidate
    that has a non-empty name, id, placeholder or aria-label attribute or
    for which the nearby-label query returns at least one label; so on a
    page with at least one candidate that has such a non-empty attribute it
    never returns [None]. *)
Theorem empty_normalized_label (p : Filler.Page) (self : Filler.FormFiller)
        (label : string) (t : trace) :
  Filler.normalize_string label = "" ->
  Filler.driver self = true ->
  Filler.wait self = true ->
  strategies_fail p label ->
  (forall s, Filler.strings_similar label s = true) /\
  snd (Filler.find_field_by_multiple_strategies (Filler.page_env p) self label t)
  = Ok (find (fun e => has_nonempty_attribute p e || has_nearby_label p e)
             (Filler.inputs p)) /\
  ((exists e, In e (Filler.inputs p) /\ has_nonempty_attribute p e = true) ->
   exists e, snd (Filler.find_field_by_multiple_strategies (Filler.page_env p) self label t)
             = Ok (Some e)).
Proof.
  intros Hnorm Hd Hw Hfail.
  assert (Hrun : snd (Filler.find_field_by_multiple_strategies
                        (Filler.page_env p) self label t)
                 = Ok (find (fun e => has_nonempty_attribute p e || has_nearby_label p e)
                            (Filler.inputs p))).
  { rewrite find_field_page by assumption. f_equal.
    apply find_pointwise. intros e. apply fuzzy_accepts_empty. exact Hnorm. }
  split; [intros s; apply similar_to_empty; exact Hnorm|].
  split; [exact Hrun|].
  intros [e [Hin He]]. rewrite Hrun.
  destruct (find (fun e0 => has_nonempty_attribute p e0 || has_nearby_label p e0)
                 (Filler.inputs p)) as [e'|] eqn:Hfind.
  - exists e'. reflexivity.
  - exfalso. pose proof (find_none _ _ Hfind e Hin) as Hnone.
    cbv beta in Hnone. rewrite He in Hnone. discriminate Hnone.
Qed.

Lemma empty_normalized_label_witness :
  exists e,
    snd (Filler.find_field_by_multiple_strategies
           (Filler.page_env first_name_page) (ready_filler None) " - " [])
    = Ok (Some e).
Proof.
  refine (proj2 (proj2 (empty_normalized_label first_name_page (ready_filler None)
                          " - " [] eq_refl eq_refl eq_refl _)) _).
  - intros by_ selector _. exact I.
  - exists 1. split; [left; reflexivity|reflexivity].
Defined.

(** C10, counterexample.  The label " - " has an empty normalized form.  On
    [blank_id_page] the first candidate with a non-empty name, id,
    placeholder or aria-label is the input 2, yet the resolver returns the
    select 1, which has no such attribute (its id is the empty string) but
    for which the nearby-label query returns a label. *)
Lemma empty_normalized_label_counterexample :
  Filler.normalize_string " - " = "" /\
  strategies_fail blank_id_page " - " /\
  has_nonempty_attribute blank_id_page 1 = false /\
  nearby_labels_of blank_id_page 1 = [7] /\
  find (has_nonempty_attribute blank_id_page) (Filler.inputs blank_id_page) = Some 2 /\
  snd (Filler.find_field_by_multiple_strategies
         (Filler.page_env blank_id_page) (ready_filler None) " - " [])
  = Ok (Some 1).
Proof.
  split; [reflexivity|]. split; [intros by_ selector _; exact I|].
  repeat split; vm_compute; reflexivity.
Qed.

(** ** Text input: three strategies, each verified by a read-back *)

Lemma adjacent_app ok prev a b :
  adjacent ok prev (a ++ b)%list = adjacent ok prev a && adjacent ok (last_from prev a) b.
Proof.
  revert prev. induction a as [|ev a IH]; intros prev; simpl; [reflexivity|].
  rewrite IH, andb_assoc. reflexivity.
Qed.

Lemma last_from_app prev a b :
  last_from prev (a ++ b)%list = last_from (last_from prev a) b.
Proof. revert prev. induction a as [|ev a IH]; intros prev; simpl; auto. Qed.

Lemma all_steps_app ok hist a b :
  Filler.all_steps ok hist (a ++ b)%list
  = Filler.all_steps ok hist a && Filler.all_steps ok (hist ++ a)%list b.
Proof.
  revert hist. induction a as [|ev a IH]; intros hist; simpl.
  - rewrite app_nil_r. reflexivity.
  - rewrite IH, <- app_assoc, andb_assoc. reflexivity.
Qed.

Lemma in_order_app lo k a b :
  forallb (fun ev => match strategy_of ev with Some j => Nat.eqb j k | None => true end) a = true ->
  lo <= k ->
  in_order k b = true ->
  in_order lo (a ++ b)%list = true.
Proof.
  revert lo. induction a as [|ev a IH]; intros lo Ha Hlo Hb; simpl in *.
  - revert lo Hlo. induction b as [|ev b IHb]; intros lo Hlo; simpl in *; [reflexivity|].
    destruct (strategy_of ev) as [j|].
    + apply andb_true_iff in Hb. destruct Hb as [Hkj Hb]. apply Nat.leb_le in Hkj.
      rewrite Hb. replace (Nat.leb lo j) with true; [reflexivity|].
      symmetry. apply Nat.leb_le. lia.
    + apply IHb; [exact Hb|exact Hlo].
  - apply andb_true_iff in Ha. destruct Ha as [Hev Ha].
    destruct (strategy_of ev) as [j|].
    + apply Nat.eqb_eq in Hev. subst j.
      replace (Nat.leb lo k) with true by (symmetry; apply Nat.leb_le; exact Hlo).
      apply IH; auto.
    + apply IH; auto.
Qed.

Lemma all_strategy_clicks k field evs :
  all_strategy k evs = true -> Filler.clicks_on field evs = 0.
Proof.
  induction evs as [|ev evs IH]; [reflexivity|]. unfold all_strategy. simpl.
  intros H. apply andb_true_iff in H. destruct H as [Hev H].
  destruct ev; try discriminate; simpl; auto.
Qed.

Lemma all_strategy_unverified env field value k hist evs :
  all_strategy k evs = true ->
  Filler.all_steps (unverified_step env field value) hist evs = true.
Proof.
  revert hist. induction evs as [|ev evs IH]; intros hist; [reflexivity|].
  unfold all_strategy. simpl.
  intros H. apply andb_true_iff in H. destruct H as [Hev H].
  rewrite (IH _ H). destruct ev; try discriminate; reflexivity.
Qed.

Lemma all_strategy_in_order k evs :
  all_strategy k evs = true ->
  forallb (fun ev => match strategy_of ev with Some j => Nat.eqb j k | None => true end) evs
  = true.
Proof.
  unfold all_strategy. rewrite !forallb_forall. intros H ev Hin. specialize (H ev Hin).
  destruct (strategy_of ev); [exact H|reflexivity].
Qed.

Lemma typing_adjacent field prev evs :
  all_strategy 0 evs = true ->
  match prev with
  | Some p => match strategy_of p with Some (S _) => False | _ => True end
  | None => True
  end ->
  adjacent (follows_input field) prev evs = true.
Proof.
  revert prev. induction evs as [|ev evs IH]; intros prev Hall Hprev; [reflexivity|].
  unfold all_strategy in Hall. simpl in Hall.
  apply andb_true_iff in Hall. destruct Hall as [Hev Hall].
  destruct (strategy_of ev) as [j|] eqn:Hs; [|discriminate].
  apply Nat.eqb_eq in Hev. subst j.
  simpl. rewrite IH; [|exact Hall|simpl; rewrite Hs; exact I].
  rewrite andb_true_r. unfold follows_input.
  destruct prev as [p|]; [|reflexivity].
  destruct (strategy_of p) as [[|j]|]; [|contradiction|reflexivity].
  rewrite Hs. reflexivity.
Qed.

Section TextInput.

Variable env : Env.
Variable self : Filler.FormFiller.
Variable field : WebElement.
Variable value : string.

Lemma type_chars_strategy chars t :
  all_strategy 0 (fst (Filler.type_chars env field chars t)) = true.
Proof.
  revert t. induction chars as [|c rest IH]; intros t; [reflexivity|].
  cbn [Filler.type_chars]. unfold Filler.send_keys, bind, call.
  destruct (ask_unit env t (SendKeys field (String c ""))) as [[]|e]; [|reflexivity].
  specialize (IH (t ++ [SendKeys field (String c "")])%list).
  destruct (Filler.type_chars env field rest _) as [evs r]. simpl in *. exact IH.
Qed.

Lemma input_method_strategy k t :
  all_strategy (strategy_index k) (fst (Filler.input_method env self k field value t)) = true.
Proof.
  destruct k as [|[|k]]; simpl.
  - apply type_chars_strategy.
  - destruct (Filler.driver self); reflexivity.
  - destruct (Filler.actions self); reflexivity.
Qed.

Lemma input_method_adjacent k t prev :
  match prev with
  | Some p => strategy_of p = None
  | None => True
  end ->
  adjacent (follows_input field) prev (fst (Filler.input_method env self k field value t)) = true.
Proof.
  intros Hprev. destruct k as [|[|k]]; simpl.
  - apply typing_adjacent; [apply type_chars_strategy|].
    destruct prev as [p|]; [rewrite Hprev|]; exact I.
  - destruct (Filler.driver self); simpl; [|reflexivity].
    destruct prev as [p|]; simpl; [rewrite Hprev|]; reflexivity.
  - destruct (Filler.actions self); simpl; [|reflexivity].
    destruct prev as [p|]; simpl; [rewrite Hprev|]; reflexivity.
Qed.

End TextInput.

Section Attempts.

Variable env : Env.
Variable self : Filler.FormFiller.
Variable field : WebElement.
Variable value : string.

Let readback : event := GetAttribute field "value".

Lemma attempt_shape k t :
  exists pre tail verified,
    attempt_step env self field value k t = ((pre ++ tail)%list, Ok verified) /\
    attempt_prefix_ok env field value k t pre /\
    ((exists e, tail = [Log WARNING (AttemptFailed k e)] /\ verified = false) \/
     (exists e, tail = [readback; Log WARNING (AttemptFailed k e)] /\ verified = false /\
                verified_at env field value (t ++ pre)%list = false) \/
     (tail = [readback] /\ verified = verified_at env field value (t ++ pre)%list)).
Proof.
  unfold attempt_step, Filler.attempt_body, try_except, bind.
  unfold Filler.click, Filler.clear, Filler.get_attribute, call, log, ret, any_exception.
  destruct (ask_unit env t (Click field)) as [[]|e].
  2:{ exists [Click field], [Log WARNING (AttemptFailed k e)], false.
      split; [reflexivity|]. split; [|left; eauto].
      unfold attempt_prefix_ok. simpl. rewrite Nat.eqb_refl.
      repeat split; auto. intros [p|] Hq; simpl in *; [rewrite Hq|]; reflexivity. }
  destruct (ask_unit env (t ++ [Click field])%list (Clear field)) as [[]|e].
  2:{ exists [Click field; Clear field], [Log WARNING (AttemptFailed k e)], false.
      split; [reflexivity|]. split; [|left; eauto].
      unfold attempt_prefix_ok. simpl. rewrite Nat.eqb_refl.
      repeat split; auto. intros [p|] Hq; simpl in *; [rewrite Hq|]; reflexivity. }
  pose proof (input_method_strategy env self field value k
                ((t ++ [Click field]) ++ [Clear field])%list) as Hstrategy.
  pose proof (input_method_adjacent env self field value k
                ((t ++ [Click field]) ++ [Clear field])%list (Some (Clear field)) eq_refl)
    as Hadjacent.
  destruct (Filler.input_method env self k field value
              ((t ++ [Click field]) ++ [Clear field])%list) as [inp rinp].
  cbn [fst] in Hstrategy, Hadjacent.
  assert (Hpre : attempt_prefix_ok env field value k t (Click field :: Clear field :: inp)).
  { unfold attempt_prefix_ok. repeat split.
    - simpl. rewrite Nat.eqb_refl, (all_strategy_clicks _ _ _ Hstrategy). reflexivity.
    - simpl. apply (all_strategy_unverified _ _ _ _ _ _ Hstrategy).
    - simpl. apply all_strategy_in_order. exact Hstrategy.
    - intros prev Hq. simpl. rewrite Hadjacent.
      destruct prev as [p|]; simpl in *; [rewrite Hq|]; reflexivity. }
  assert (Hassoc : (((t ++ [Click field]) ++ [Clear field]) ++ inp
                    = t ++ Click field :: Clear field :: inp)%list).
  { rewrite <- !app_assoc. reflexivity. }
  destruct rinp as [[]|e].
  2:{ exists (Click field :: Clear field :: inp), [Log WARNING (AttemptFailed k e)], false.
      split; [simpl; rewrite <- ?app_assoc; simpl; rewrite ?app_nil_r; reflexivity|].
      split; [exact Hpre|left; eauto]. }
  destruct (ask_attr env (((t ++ [Click field]) ++ [Clear field]) ++ inp)%list
                     (GetAttribute field "value")) as [actual|e] eqn:Hask.
  - exists (Click field :: Clear field :: inp), [readback], (Filler.attr_equals actual value).
    split; [simpl; rewrite <- ?app_assoc; simpl; rewrite ?app_nil_r; reflexivity|].
    split; [exact Hpre|]. right. right. split; [reflexivity|].
    unfold verified_at. rewrite <- Hassoc, Hask. reflexivity.
  - exists (Click field :: Clear field :: inp),
      [readback; Log WARNING (AttemptFailed k e)], false.
    split; [simpl; rewrite <- ?app_assoc; simpl; rewrite ?app_nil_r; reflexivity|].
    split; [exact Hpre|]. right. left. exists e. repeat split.
    unfold verified_at. rewrite <- Hassoc, Hask. reflexivity.
Qed.

End Attempts.

Lemma in_order_weaken lo hi evs :
  lo <= hi -> in_order hi evs = true -> in_order lo evs = true.
Proof.
  intros Hle H. apply (in_order_app lo hi [] evs); auto.
Qed.

Lemma follows_readback field prev :
  follows_input field prev (GetAttribute field "value") = true.
Proof.
  unfold follows_input. destruct prev as [p|]; [|reflexivity].
  destruct (strategy_of p) as [[|j]|]; simpl; rewrite ?Nat.eqb_refl, ?orb_true_r; reflexivity.
Qed.

Lemma follows_failed field prev k e :
  follows_input field prev (Log WARNING (AttemptFailed k e)) = true.
Proof.
  unfold follows_input. destruct prev as [p|]; [|reflexivity].
  destruct (strategy_of p) as [[|j]|]; simpl; rewrite ?orb_true_r; reflexivity.
Qed.

Section AttemptLoop.

Variable env : Env.
Variable self : Filler.FormFiller.
Variable field : WebElement.
Variable value : string.

Let readback : event := GetAttribute field "value".

Lemma attempt_segment k t :
  exists seg verified,
    attempt_step env self field value k t = (seg, Ok verified) /\
    Filler.clicks_on field seg = 1 /\
    forallb (fun ev => match strategy_of ev with
                       | Some j => Nat.eqb j (strategy_index k)
                       | None => true
                       end) seg = true /\
    (forall prev, quiet prev ->
                  adjacent (follows_input field) prev seg = true /\
                  quiet (last_from prev seg)) /\
    (if verified
     then exists pre, seg = (pre ++ [readback])%list /\
                      verified_at env field value (t ++ pre)%list = true /\
                      Filler.all_steps (unverified_step env field value) t pre = true
     else Filler.all_steps (unverified_step env field value) t seg = true).
Proof.
  destruct (attempt_shape env self field value k t)
    as [pre [tail [verified [Hrun [[Hclicks [Hunv [Hord Hadj]]] Htail]]]]].
  exists (pre ++ tail)%list, verified. split; [exact Hrun|].
  assert (Htail_facts :
            Filler.clicks_on field tail = 0 /\
            forallb (fun ev => match strategy_of ev with
                               | Some j => Nat.eqb j (strategy_index k)
                               | None => true
                               end) tail = true /\
            (forall prev, adjacent (follows_input field) prev tail = true /\
                          quiet (last_from prev tail))).
  { destruct Htail as [[e [-> _]]|[[e [-> _]]|[-> _]]]; repeat split;
      simpl; rewrite ?follows_readback, ?follows_failed; reflexivity. }
  destruct Htail_facts as [Htc [Hto Hta]].
  split; [rewrite clicks_on_app, Hclicks, Htc; reflexivity|].
  split; [rewrite forallb_app, Hord, Hto; reflexivity|].
  split.
  { intros prev Hq. rewrite adjacent_app, last_from_app, (Hadj prev Hq).
    destruct (Hta (last_from prev pre)) as [-> Hquiet]. split; [reflexivity|exact Hquiet]. }
  destruct Htail as [[e [-> ->]]|[[e [-> [-> Hv]]]|[-> ->]]].
  - rewrite all_steps_app, Hunv. reflexivity.
  - rewrite all_steps_app, Hunv. simpl. unfold unverified_step at 1.
    rewrite Hv, andb_false_r. reflexivity.
  - destruct (verified_at env field value (t ++ pre)%list) eqn:Hv.
    + exists pre. auto.
    + rewrite all_steps_app, Hunv. simpl. unfold unverified_step.
      rewrite Hv, andb_false_r. reflexivity.
Qed.

Lemma strategy_index_mono k : strategy_index k <= strategy_index (S k).
Proof. destruct k as [|[|k]]; simpl; lia. Qed.

Lemma attempts_loop_spec n :
  forall k t prev,
    quiet prev ->
    let evs := fst (Filler.attempts_loop env self field value (seq k n) t) in
    let r := snd (Filler.attempts_loop env self field value (seq k n) t) in
    (r = Ok tt \/ r = Raise (ValueError "Failed to input value after 3 attempts")) /\
    (r = Ok tt ->
     exists pre, evs = (pre ++ [readback])%list /\
                 verified_at env field value (t ++ pre)%list = true /\
                 Filler.all_steps (unverified_step env field value) t pre = true) /\
    (r <> Ok tt ->
     Filler.all_steps (unverified_step env field value) t evs = true /\
     Filler.clicks_on field evs = n) /\
    Filler.clicks_on field evs <= n /\
    in_order (strategy_index k) evs = true /\
    adjacent (follows_input field) prev evs = true.
Proof.
  induction n as [|n IH]; intros k t prev Hq.
  - simpl. repeat split; auto. discriminate.
  - cbn [seq Filler.attempts_loop]. fold (attempt_step env self field value k).
    destruct (attempt_segment k t)
      as [seg [verified [Hrun [Hclicks [Hord [Hadj Hver]]]]]].
    rewrite (bind_ok _ _ _ _ _ Hrun). cbn [fst snd].
    destruct (Hadj prev Hq) as [Hadj1 Hquiet].
    destruct verified.
    + destruct Hver as [pre [Hseg [Hv Hunv]]].
      cbn [ret fst snd]. rewrite app_nil_r.
      split; [left; reflexivity|]. split; [|split; [|split; [|split]]].
      * intros _. exists pre. auto.
      * intros Hne. exfalso. apply Hne. reflexivity.
      * lia.
      * rewrite <- (app_nil_r seg).
        apply (in_order_app _ (strategy_index k) seg []); auto.
      * exact Hadj1.
    + specialize (IH (S k) (t ++ seg)%list (last_from prev seg) Hquiet).
      cbv zeta in IH.
      destruct (Filler.attempts_loop env self field value (seq (S k) n) (t ++ seg)%list)
        as [evs2 r2].
      cbn [fst snd] in *.
      destruct IH as [Hr [Hok [Hfail [Hcount [Hin Hadj2]]]]].
      split; [exact Hr|]. split; [|split; [|split; [|split]]].
      * intros Hr2. destruct (Hok Hr2) as [pre2 [Hevs2 [Hv2 Hunv2]]].
        exists (seg ++ pre2)%list. rewrite Hevs2, app_assoc. split; [reflexivity|].
        rewrite app_assoc. split; [exact Hv2|].
        rewrite all_steps_app, Hver, Hunv2. reflexivity.
      * intros Hr2. destruct (Hfail Hr2) as [Hunv2 Hc2].
        rewrite all_steps_app, Hver, Hunv2, clicks_on_app, Hclicks, Hc2. auto.
      * rewrite clicks_on_app, Hclicks. lia.
      * apply (in_order_app _ (strategy_index k)); auto.
        apply (in_order_weaken _ (strategy_index (S k))); auto.
        apply strategy_index_mono.
      * rewrite adjacent_app, Hadj1, Hadj2. reflexivity.
Qed.

End AttemptLoop.

Lemma accepted_app env t a b :
  accepted env t a -> accepted env (t ++ a)%list b -> accepted env t (a ++ b)%list.
Proof.
  revert t. induction a as [|c a IH]; intros t Ha Hb; cbn [app accepted] in *.
  - rewrite app_nil_r in Hb. exact Hb.
  - destruct Ha as [Hc Ha]. split; [exact Hc|]. apply IH; [exact Ha|].
    rewrite <- app_assoc. exact Hb.
Qed.

Lemma calls_run_cons env c calls t evs r :
  ask_unit env t c = Ok tt ->
  calls_run env calls (t ++ [c])%list evs r ->
  calls_run env (c :: calls) t (c :: evs) r.
Proof.
  intros Hc [[Hacc [-> ->]]|[done [c' [rest [e [-> [Hacc [Hraise [-> ->]]]]]]]]].
  - left. repeat split; assumption.
  - right. exists (c :: done), c', rest, e.
    split; [reflexivity|]. split; [split; assumption|].
    split; [rewrite <- app_assoc in Hraise; exact Hraise|]. split; reflexivity.
Qed.

Lemma type_chars_run env field value t :
  calls_run env (keystrokes field value) t
            (fst (Filler.type_chars env field value t))
            (snd (Filler.type_chars env field value t)).
Proof.
  revert t. induction value as [|char rest IH]; intros t.
  - left. repeat split.
  - cbn [Filler.type_chars keystrokes]. unfold Filler.send_keys, bind, call.
    destruct (ask_unit env t (SendKeys field (String char ""))) as [[]|e] eqn:Hask.
    + specialize (IH (t ++ [SendKeys field (String char "")])%list).
      destruct (Filler.type_chars env field rest _) as [evs r]. cbn [fst snd app] in *.
      apply calls_run_cons; assumption.
    + right. exists [], (SendKeys field (String char "")), (keystrokes field rest), e.
      cbn [fst snd app]. rewrite app_nil_r. repeat split. exact Hask.
Qed.

Lemma single_call_run env c t :
  calls_run env [c] t [c] (ask_unit env t c).
Proof.
  destruct (ask_unit env t c) as [[]|e] eqn:Hask.
  - left. repeat split. exact Hask.
  - right. exists [], c, [], e. rewrite app_nil_r. repeat split. exact Hask.
Qed.

Lemma input_method_run env self attempt field value t :
  calls_run env (if strategy_ready self attempt
                 then strategy_calls attempt field value else [])
            t
            (fst (Filler.input_method env self attempt field value t))
            (snd (Filler.input_method env self attempt field value t)).
Proof.
  destruct attempt as [|[|attempt]]; cbn [Filler.input_method strategy_ready strategy_calls].
  - apply type_chars_run.
  - destruct (Filler.driver self); [apply single_call_run|left; repeat split].
  - destruct (Filler.actions self); [apply single_call_run|left; repeat split].
Qed.

Lemma strategy_calls_inputs self attempt field value c :
  In c (if strategy_ready self attempt then strategy_calls attempt field value else []) ->
  strategy_of c <> None.
Proof.
  destruct (strategy_ready self attempt); [|intros []].
  destruct attempt as [|[|attempt]]; cbn [strategy_calls].
  - induction value as [|char rest IH]; cbn [keystrokes]; [intros []|].
    intros [<-|H]; [discriminate|exact (IH H)].
  - intros [<-|[]]. discriminate.
  - intros [<-|[]]. discriminate.
Qed.

Lemma attempt_step_run env self field value attempt t :
  exists evs verified,
    attempt_step env self field value attempt t = (evs, Ok verified) /\
    attempt_run env self attempt field value t evs verified.
Proof.
  unfold attempt_run, attempt_calls. cbv zeta.
  set (inputs := if strategy_ready self attempt
                 then strategy_calls attempt field value else []).
  unfold attempt_step, Filler.attempt_body, try_except, bind.
  unfold Filler.click, Filler.clear, Filler.get_attribute, call, log, ret, any_exception.
  destruct (ask_unit env t (Click field)) as [[]|e] eqn:Hclick.
  2:{ eexists _, false. split; [reflexivity|]. right.
      exists [], (Click field), (Clear field :: inputs ++ [GetAttribute field "value"])%list, e.
      cbn [app]. rewrite app_nil_r. repeat split. exact Hclick. }
  destruct (ask_unit env (t ++ [Click field])%list (Clear field)) as [[]|e] eqn:Hclear.
  2:{ eexists _, false. split; [reflexivity|]. right.
      exists [Click field], (Clear field), (inputs ++ [GetAttribute field "value"])%list, e.
      cbn [app accepted]. repeat split; assumption. }
  pose proof (input_method_run env self attempt field value
                ((t ++ [Click field]) ++ [Clear field])%list) as Hinput.
  fold inputs in Hinput.
  destruct (Filler.input_method env self attempt field value
              ((t ++ [Click field]) ++ [Clear field])%list) as [inp rinp].
  cbn [fst snd] in Hinput.
  assert (Hhist : forall l, ((((t ++ [Click field]) ++ [Clear field]) ++ l)
                             = t ++ Click field :: Clear field :: l)%list).
  { intros l. rewrite <- !app_assoc. reflexivity. }
  destruct Hinput as [[Hacc [-> ->]]|[done [c [rest [e [Hcalls [Hacc [Hraise [-> ->]]]]]]]]].
  - assert (Hall : accepted env t (Click field :: Clear field :: inputs)).
    { cbn [accepted]. split; [exact Hclick|]. split; [exact Hclear|exact Hacc]. }
    destruct (ask_attr env (((t ++ [Click field]) ++ [Clear field]) ++ inputs)%list
                       (GetAttribute field "value")) as [actual_value|e] eqn:Hread;
      rewrite Hhist in Hread.
    + eexists _, _. split; [reflexivity|]. left. exists actual_value.
      split; [exact Hall|]. split; [exact Hread|]. split; [|reflexivity].
      cbn [app]. rewrite ?app_nil_r. reflexivity.
    + eexists _, false. split; [reflexivity|]. right.
      exists (Click field :: Clear field :: inputs), (GetAttribute field "value"), [], e.
      split; [reflexivity|]. split; [exact Hall|]. split; [exact Hread|].
      split; [|reflexivity]. cbn [app]. rewrite <- app_assoc. reflexivity.
  - eexists _, false. split; [reflexivity|]. right.
    exists (Click field :: Clear field :: done), c,
           (rest ++ [GetAttribute field "value"])%list, e.
    split; [rewrite Hcalls; cbn [app]; rewrite <- app_assoc; reflexivity|].
    split; [cbn [accepted]; split; [exact Hclick|]; split; [exact Hclear|exact Hacc]|].
    split.
    + rewrite Hhist in Hraise. unfold raised.
      assert (Hunit : In c inputs) by (rewrite Hcalls; apply in_elt).
      apply strategy_calls_inputs in Hunit.
      destruct c; try exact Hraise; exfalso; apply Hunit; reflexivity.
    + split; [|reflexivity]. cbn [app]. rewrite <- !app_assoc. reflexivity.
Qed.

Lemma attempts_loop_run env self field value attempts :
  forall t,
    attempts_run env self field value attempts t
                 (fst (Filler.attempts_loop env self field value attempts t))
                 (snd (Filler.attempts_loop env self field value attempts t)).
Proof.
  induction attempts as [|attempt rest IH]; intros t.
  - split; reflexivity.
  - cbn [Filler.attempts_loop attempts_run]. fold (attempt_step env self field value attempt).
    destruct (attempt_step_run env self field value attempt t)
      as [evs1 [verified [Hrun Hattempt]]].
    rewrite (bind_ok _ _ _ _ _ Hrun). exists evs1, verified. split; [exact Hattempt|].
    destruct verified.
    + cbn [ret fst snd]. rewrite app_nil_r. split; reflexivity.
    + specialize (IH (t ++ evs1)%list).
      destruct (Filler.attempts_loop env self field value rest (t ++ evs1)%list) as [evs2 r2].
      cbn [fst snd] in *. exists evs2. split; [reflexivity|exact IH].
Qed.

Lemma fill_field_returns env self field value field_name t :
  snd (Filler.fill_field env self field value field_name t) = Ok tt.
Proof.
  unfold Filler.fill_field, try_except.
  match goal with |- snd (match ?m t with _ => _ end) = _ => destruct (m t) as [evs [[]|e]] end;
    reflexivity.
Qed.

(** C2.  [safe_send_keys] makes its attempts in the order typing, script
    assignment, pointer input.  An attempt clicks the field, clears it,
    makes the input calls of its strategy (one keystroke for each character
    of the value; the script that assigns the value, the driver being set;
    the pointer-driven input, the action chain being set) and then reads the
    value attribute back; when the driver raises on one of these calls the
    attempt stops there with a warning.  The run returns at the first
    attempt whose read-back gives exactly [value] (the attribute is set and
    its value is the same string) and makes no further attempt; when none
    of the three attempts does, it raises its
    [ValueError], which [fill_field] catches.  So it returns only right
    after a read-back that gave exactly [value], no earlier read-back of the
    run having given [value]; it raises only when no read-back gave [value]
    and three attempts were started; it never starts more than three; and
    an input call is followed only by more typing, by the read-back, or by
    the warning that the attempt failed. *)
Theorem safe_send_keys_verified (env : Env) (self : Filler.FormFiller)
        (field : WebElement) (value : string) (t : trace) :
  let evs := fst (Filler.safe_send_keys env self field value t) in
  let r := snd (Filler.safe_send_keys env self field value t) in
  attempts_run env self field value [0; 1; 2] t evs r /\
  (forall actual_value,
      Filler.attr_equals actual_value value = true <-> actual_value = Some value) /\
  (r = Ok tt \/ r = Raise (ValueError "Failed to input value after 3 attempts")) /\
  (r = Ok tt ->
   exists pre, evs = (pre ++ [GetAttribute field "value"])%list /\
               verified_at env field value (t ++ pre)%list = true /\
               Filler.all_steps (unverified_step env field value) t pre = true) /\
  (r <> Ok tt ->
   Filler.all_steps (unverified_step env field value) t evs = true /\
   Filler.clicks_on field evs = 3) /\
  Filler.clicks_on field evs <= 3 /\
  in_order 0 evs = true /\
  adjacent (follows_input field) None evs = true /\
  (forall v field_name t',
      snd (Filler.fill_field env self field v field_name t') = Ok tt).
Proof.
  pose proof (attempts_loop_spec env self field value 3 0 t None I) as H.
  pose proof (attempts_loop_run env self field value [0; 1; 2] t) as Hrun.
  cbv zeta in *. unfold Filler.safe_send_keys, Filler.max_attempts.
  destruct H as [H1 [H2 [H3 [H4 [H5 H6]]]]].
  split; [exact Hrun|]. split.
  { intros [v|]; cbn [Filler.attr_equals]; [|split; discriminate].
    rewrite String.eqb_eq. split; [intros ->; reflexivity|intros H; injection H; auto]. }
  repeat split; auto.
  - apply H3; assumption.
  - apply H3; assumption.
  - intros v field_name t'. apply fill_field_returns.
Qed.

(** A text input (element 1) whose value is what is written into it. *)
Example safe_send_keys_on_page :
  Filler.safe_send_keys (Filler.page_env first_name_page) (ready_filler None) 1 "Ada" []
  = ([Click 1; Clear 1; SendKeys 1 "A"; SendKeys 1 "d"; SendKeys 1 "a";
      GetAttribute 1 "value"], Ok tt).
Proof. reflexivity. Qed.

Example safe_send_keys_gives_up :
  Filler.safe_send_keys deaf_env (ready_filler None) 1 "Al" []
  = ([Click 1; Clear 1; SendKeys 1 "A"; SendKeys 1 "l"; GetAttribute 1 "value";
      Click 1; Clear 1;
      ExecuteScript "arguments[0].value = arguments[1]" [ArgElement 1; ArgString "Al"];
      GetAttribute 1 "value";
      Click 1; Clear 1; ActionsClickSendKeys 1 "Al"; GetAttribute 1 "value"],
     Raise (ValueError "Failed to input value after 3 attempts")).
Proof. reflexivity. Qed.

(** ** Filling a row stays inside the row *)

Lemma is_lookup_inner ev : Filler.is_lookup ev = true -> is_inner ev = true.
Proof. destruct ev as [| | | | | | | | | | | | | | | | | |[] []]; try discriminate; reflexivity. Qed.

Lemma is_action_inner ev : is_action ev = true -> is_inner ev = true.
Proof. unfold is_action, is_inner. intros H. apply andb_true_iff in H. tauto. Qed.

Section Inner.

Variable env : Env.
Variable self : Filler.FormFiller.

Lemma type_chars_action field chars : emits_only is_action (Filler.type_chars env field chars).
Proof. induction chars as [|c rest IH]; simpl; emits. Qed.

Lemma attempts_loop_action field value attempts :
  emits_only is_action (Filler.attempts_loop env self field value attempts).
Proof.
  induction attempts as [|k rest IH]; simpl; [emits|].
  pose proof type_chars_action.
  unfold Filler.attempt_body, Filler.input_method. emits.
Qed.

Lemma select_option_action options str_value :
  emits_only is_action (Filler.select_option env options str_value).
Proof. induction options as [|o rest IH]; simpl; emits. Qed.

Lemma fill_field_action field value field_name :
  emits_only is_action (Filler.fill_field env self field value field_name).
Proof.
  pose proof attempts_loop_action. pose proof select_option_action.
  unfold Filler.fill_field, Filler.fill_select, Filler.fill_checkbox, Filler.fill_radio,
    Filler.safe_send_keys.
  emits.
Qed.

Lemma submit_loop_action l : emits_only is_action (Filler.submit_loop env l).
Proof.
  induction l as [|strategy rest IH]; simpl; [emits|].
  unfold Filler.submit_with. emits.
Qed.

Lemma submit_form_action : emits_only is_action (Filler.submit_form env self).
Proof. pose proof submit_loop_action. unfold Filler.submit_form. emits. Qed.

Lemma fill_field_inner field value field_name :
  emits_only is_inner (Filler.fill_field env self field value field_name).
Proof. apply (emits_only_weaken _ _ _ is_action_inner), fill_field_action. Qed.

Lemma submit_form_inner : emits_only is_inner (Filler.submit_form env self).
Proof. apply (emits_only_weaken _ _ _ is_action_inner), submit_form_action. Qed.



Lemma fill_column_inner row field_name :
  emits_only is_inner (Filler.fill_column env self row field_name).
Proof.
  pose proof fill_field_inner.
  pose proof (fun label => emits_only_weaken _ _ _ is_lookup_inner
                             (find_field_lookup env self label)).
  unfold Filler.fill_column. emits.
Qed.

Lemma fill_columns_inner row cols :
  emits_only is_inner (Filler.fill_columns env self row cols).
Proof.
  pose proof fill_column_inner.
  induction cols as [|c rest IH]; simpl; emits.
Qed.

End Inner.

(** ** Every present column is resolved *)

Lemma filter_none {X} (f : X -> bool) (l : list X) :
  forallb (fun x => negb (f x)) l = true -> filter f l = [].
Proof.
  induction l as [|x l IH]; [reflexivity|]. simpl. intros H.
  apply andb_true_iff in H. destruct H as [Hx H].
  destruct (f x); [discriminate|]. auto.
Qed.

Section Entries.

Variable env : Env.
Variable self : Filler.FormFiller.

Hypothesis has_driver : Filler.driver self = true.
Hypothesis has_wait : Filler.wait self = true.

Lemma try_strategies_not_entry l :
  Forall (fun s => is_resolver_entry (FindElement (fst s) (snd s)) = false) l ->
  emits_only not_entry (Filler.try_strategies env l).
Proof.
  induction l as [|[by_ selector] rest IH]; intros Hl; simpl; [emits|].
  inversion Hl as [|? ? Hfirst Hrest]; subst. cbn [fst snd] in Hfirst.
  unfold Filler.try_strategy, Filler.find_element.
  apply emits_only_bind; [|intros [f|]; [emits|apply IH; exact Hrest]].
  apply emits_only_try_except; [|emits].
  apply emits_only_bind; [|emits].
  apply emits_only_call. unfold not_entry. rewrite Hfirst. reflexivity.
Qed.

Lemma fuzzy_fallback_not_entry label :
  emits_only not_entry (Filler.fuzzy_fallback env label).
Proof.
  apply (emits_only_weaken is_fuzzy).
  - intros ev. destruct ev; try discriminate; reflexivity.
  - apply fuzzy_fallback_fuzzy.
Qed.

Lemma try_strategies_entries label t :
  filter is_resolver_entry (fst (Filler.try_strategies env (Filler.strategies label) t))
  = [resolver_entry label].
Proof.
  unfold Filler.strategies.
  match goal with
  | |- context [Filler.try_strategies env (?first :: ?others)] =>
      assert (Hothers : emits_only not_entry (Filler.try_strategies env others));
      [apply try_strategies_not_entry; repeat constructor|];
      set (rest := others) in *
  end.
  cbn [Filler.try_strategies]. unfold Filler.try_strategy at 1.
  unfold Filler.find_element at 1, Filler.is_displayed at 1, Filler.is_enabled at 1.
  match goal with
  | |- filter _ (fst (?m t)) = _ =>
      change (post m t (fun evs _ => filter is_resolver_entry evs = [resolver_entry label]))
  end.
  assert (Hcont : forall (found : option WebElement) t',
             post (match found with
                   | Some field => ret (Some field)
                   | None => Filler.try_strategies env rest
                   end) t'
                  (fun evs _ => filter is_resolver_entry evs = [])).
  { intros found t'. apply post_conseq with (Q := fun evs _ => forallb not_entry evs = true).
    - apply emits_only_post. destruct found; [emits|exact Hothers].
    - intros evs r H. apply filter_none. exact H. }
  assert (Hentry : forall evs,
             filter is_resolver_entry evs = [] ->
             filter is_resolver_entry
                    (FindElement CSS_SELECTOR
                       ("label[for*='" ++ label ++ "'] + input, label[for*='" ++ label
                        ++ "'] + select, label[for*='" ++ label ++ "'] + textarea") :: evs)
             = [resolver_entry label]).
  { intros evs H. cbn [filter]. unfold resolver_entry.
    change (is_resolver_entry
              (FindElement CSS_SELECTOR
                 ("label[for*='" ++ label ++ "'] + input, label[for*='" ++ label
                  ++ "'] + select, label[for*='" ++ label ++ "'] + textarea")))
      with (prefix "" (label ++ "'] + input, label[for*='" ++ label
                       ++ "'] + select, label[for*='" ++ label ++ "'] + textarea")).
    rewrite prefix_empty, H. reflexivity. }
  assert (Hdone : forall mid (found : option WebElement) t',
             filter is_resolver_entry mid = [] ->
             post (match found with
                   | Some field => ret (Some field)
                   | None => Filler.try_strategies env rest
                   end) t'
                  (fun evs _ =>
                     filter is_resolver_entry
                            (([FindElement CSS_SELECTOR
                                 ("label[for*='" ++ label ++ "'] + input, label[for*='"
                                  ++ label ++ "'] + select, label[for*='" ++ label
                                  ++ "'] + textarea")] ++ mid) ++ evs)%list
                     = [resolver_entry label])).
  { intros mid found t' Hmid. eapply post_conseq; [apply Hcont|].
    intros evs r H. cbv beta. cbn [app]. apply Hentry.
    rewrite filter_app, Hmid, H. reflexivity. }
  step. step. step. step.
  destruct (ask_element env t _) as [field|e].
  - step. step. destruct (ask_bool env _ (IsDisplayed field)) as [[|]|e].
    + step. step. destruct (ask_bool env _ (IsEnabled field)) as [[|]|e].
      * step. apply (Hdone _ (Some field)). reflexivity.
      * step. apply (Hdone _ None). reflexivity.
      * destruct (Filler.lookup_miss e).
        -- step. rewrite app_nil_r. apply (Hdone _ None). reflexivity.
        -- cbn [app]. apply Hentry. reflexivity.
    + step. apply (Hdone _ None). reflexivity.
    + destruct (Filler.lookup_miss e).
      * step. rewrite app_nil_r. apply (Hdone _ None). reflexivity.
      * cbn [app]. apply Hentry. reflexivity.
  - destruct (Filler.lookup_miss e).
    + step. apply (Hdone [] None). reflexivity.
    + cbn [app]. apply Hentry. reflexivity.
Qed.

Lemma find_field_entries label t :
  filter is_resolver_entry (fst (Filler.find_field_by_multiple_strategies env self label t))
  = [resolver_entry label].
Proof.
  unfold Filler.find_field_by_multiple_strategies. rewrite has_driver, has_wait.
  cbn [negb orb].
  match goal with
  | |- filter _ (fst (?m t)) = _ =>
      change (post m t (fun evs _ => filter is_resolver_entry evs = [resolver_entry label]))
  end.
  step. unfold post at 1.
  pose proof (try_strategies_entries label t) as Hfirst.
  destruct (Filler.try_strategies env (Filler.strategies label) t) as [evs1 [found|e]];
    cbn [fst snd] in *; [|exact Hfirst].
  apply post_conseq with (Q := fun evs _ => forallb not_entry evs = true).
  - apply emits_only_post. destruct found; [emits|apply fuzzy_fallback_not_entry].
  - intros evs r H. rewrite filter_app, Hfirst, (filter_none _ _ H). reflexivity.
Qed.

End Entries.

(** ** The batch submitter *)

Lemma same_frame_refl st : same_frame st st.
Proof. repeat split. Qed.

Lemma same_frame_trans st1 st2 st3 :
  same_frame st1 st2 -> same_frame st2 st3 -> same_frame st1 st3.
Proof. unfold same_frame. intuition congruence. Qed.

Lemma mem_In x l : BDO.mem x l = true <-> In x l.
Proof.
  unfold BDO.mem. rewrite existsb_exists. split.
  - intros [y [Hin Heq]]. apply String.eqb_eq in Heq. subst y. exact Hin.
  - intros Hin. exists x. split; [exact Hin|apply String.eqb_refl].
Qed.



(** Each tab records its number exactly once, or the switch to the tab
    raises before anything is recorded. *)
Lemma submit_tab_spec b handle phone st :
  let st' := fst (BDO.submit_tab b handle phone st) in
  let r := snd (BDO.submit_tab b handle phone st) in
  (r = Ok tt /\ same_frame st st' /\
   ((BDO.successful st' = (BDO.successful st ++ [phone])%list /\ BDO.failed st' = BDO.failed st) \/
    (BDO.successful st' = BDO.successful st /\ BDO.failed st' = (BDO.failed st ++ [phone])%list)))
  \/ (exists e, r = Raise e /\ st' = st).
Proof.
  unfold BDO.submit_tab, BDO.bind, BDO.try_except, BDO.lift, BDO.ret.
  destruct (BDO.switch_to_window (BDO.tab b handle phone)) as [[]|e];
    [|right; exists e; split; reflexivity].
  left.
  destruct (BDO.click_next (BDO.tab b handle phone)) as [[|]|e1]; cbn;
    try (repeat split; right; split; reflexivity).
  destruct (BDO.popup_clickable (BDO.tab b handle phone)) as [[]|e2]; cbn;
    try (repeat split; right; split; reflexivity).
  destruct (BDO.click_popup (BDO.tab b handle phone)) as [[]|e3]; cbn;
    try (repeat split; right; split; reflexivity).
  repeat split. left. split; reflexivity.
Qed.




Lemma for_tabs_lift (f : string -> string -> result unit) tabs st :
  fst (BDO.for_tabs tabs (fun handle phone => BDO.lift (f handle phone)) st) = st.
Proof.
  induction tabs as [|[handle phone] rest IH]; [reflexivity|].
  cbn [BDO.for_tabs]. unfold BDO.bind, BDO.lift at 1.
  destruct (f handle phone); [exact IH|reflexivity].
Qed.

Lemma mem_app x l1 l2 : BDO.mem x (l1 ++ l2)%list = BDO.mem x l1 || BDO.mem x l2.
Proof. apply existsb_app. Qed.




















(** The scenario of the specification: 25 numbers, tab bound 20. *)
Example scenario_25_numbers :
  exists st,
    BDO.process_batch 26 (fun _ => BDO.working_browser) scenario_numbers 20
    = Some (st, Ok tt) /\
    map (@List.length string) (BDO.batches st) = [20; 5] /\
    List.length (BDO.results_rows (BDO.successful st) (BDO.failed st)) = 25.
Proof. eexists. split; [vm_compute; reflexivity|]. split; reflexivity. Qed.

(** When the browser of the first turn does not start, the handler reads
    [batch] before it is bound: [process_batch] raises and records
    nothing. *)
Example first_browser_does_not_start :
  exists st,
    BDO.process_batch 26 (fun _ => BDO.dead_browser) scenario_numbers 20
    = Some (st, Raise (UnboundLocalError "batch")) /\
    BDO.successful st = [] /\ BDO.failed st = [].
Proof. eexists. split; [vm_compute; reflexivity|]. split; reflexivity. Qed.

(** When an exception ends a batch, the handler records a number only if it
    is in neither list yet: of two equal input numbers only one is
    recorded. *)
Example repeated_number_recorded_once :
  exists st,
    BDO.process_batch 3 (fun _ => stalling_browser) ["639171000000"; "639171000000"] 20
    = Some (st, Ok tt) /\
    BDO.successful st = [] /\ BDO.failed st = ["639171000000"].
Proof. eexists. split; [vm_compute; reflexivity|]. split; reflexivity. Qed.

(** * Further properties *)

(** ** Normalized strings *)

Lemma lower_char_alnum c :
  is_alnum (lower_char c) = is_alnum c /\
  (is_alnum c = true -> is_lower_alnum (lower_char c) = true).
Proof. destruct c as [[] [] [] [] [] [] [] []]; split; vm_compute; auto. Qed.

Lemma lower_char_fixed c : is_upper c = false -> lower_char c = c.
Proof. unfold lower_char. intros ->. reflexivity. Qed.

Lemma is_lower_alnum_spec c :
  is_lower_alnum c = true -> is_upper c = false /\ is_alnum c = true.
Proof. destruct c as [[] [] [] [] [] [] [] []]; vm_compute; auto; discriminate. Qed.

Lemma normalize_string_chars s : all_chars is_lower_alnum (Filler.normalize_string s) = true.
Proof.
  unfold Filler.normalize_string. induction s as [|c s IH]; [reflexivity|].
  cbn [lower keep_alnum]. destruct (lower_char_alnum c) as [Heq Hlow].
  rewrite Heq. destruct (is_alnum c) eqn:Hc; [|exact IH].
  cbn [all_chars]. rewrite Hlow by reflexivity. exact IH.
Qed.

Lemma normalize_string_fixed s :
  all_chars is_lower_alnum s = true -> Filler.normalize_string s = s.
Proof.
  unfold Filler.normalize_string. induction s as [|c s IH]; [reflexivity|].
  cbn [all_chars lower keep_alnum]. intros H. apply andb_prop in H. destruct H as [Hc Hs].
  destruct (is_lower_alnum_spec c Hc) as [Hup Hal].
  rewrite (lower_char_fixed c Hup), Hal, (IH Hs). reflexivity.
Qed.

(** X1.  The normal form of a string is made of lower-case letters and digits
    only, and normalizing a second time changes nothing. *)
Theorem normalize_string_idempotent (text : string) :
  all_chars is_lower_alnum (Filler.normalize_string text) = true /\
  Filler.normalize_string (Filler.normalize_string text) = Filler.normalize_string text.
Proof.
  split; [apply normalize_string_chars|].
  apply normalize_string_fixed, normalize_string_chars.
Qed.

Lemma prefix_refl s : prefix s s = true.
Proof. induction s as [|c s IH]; simpl; [reflexivity|]. destruct (ascii_dec c c); congruence. Qed.

Lemma contains_refl s : contains s s = true.
Proof. destruct s; cbn [contains]; rewrite prefix_refl; reflexivity. Qed.

(** X2.  Similarity is symmetric, sees its arguments only through their normal
    forms, and so holds between any two strings that differ only in case
    and in characters other than letters and digits. *)
Theorem strings_similar_normal_forms (str1 str2 : string) :
  Filler.strings_similar str1 str2 = Filler.strings_similar str2 str1 /\
  Filler.strings_similar (Filler.normalize_string str1) (Filler.normalize_string str2)
  = Filler.strings_similar str1 str2 /\
  (Filler.normalize_string str1 = Filler.normalize_string str2 ->
   Filler.strings_similar str1 str2 = true).
Proof.
  unfold Filler.strings_similar. cbv zeta. split; [apply orb_comm|]. split.
  - rewrite !(normalize_string_fixed _ (normalize_string_chars _)). reflexivity.
  - intros ->. rewrite contains_refl. reflexivity.
Qed.

Lemma strings_similar_normal_forms_witness :
  Filler.strings_similar "First Name" "first_name" = true.
Proof.
  exact (proj2 (proj2 (strings_similar_normal_forms "First Name" "first_name")) eq_refl).
Defined.

(** ** Cell values as checkbox states *)

Lemma all_chars_weaken (P Q : ascii -> bool) s :
  (forall c, P c = true -> Q c = true) -> all_chars P s = true -> all_chars Q s = true.
Proof.
  intros HPQ. induction s as [|c s IH]; [reflexivity|]. cbn [all_chars].
  intros H. apply andb_prop in H. destruct H as [Hc Hs].
  rewrite (HPQ c Hc), (IH Hs). reflexivity.
Qed.

Lemma string_of_uint_digits d : all_chars is_digit (NilZero.string_of_uint d) = true.
Proof.
  assert (H : forall u, all_chars is_digit (NilEmpty.string_of_uint u) = true).
  { induction u as [|u IH|u IH|u IH|u IH|u IH|u IH|u IH|u IH|u IH|u IH];
      [reflexivity|..]; cbn [NilEmpty.string_of_uint all_chars]; rewrite IH; reflexivity. }
  destruct d; [reflexivity|..]; apply H.
Qed.

Lemma str_of_int_decimal z : all_chars is_decimal (str_of_int z) = true.
Proof.
  unfold str_of_int, NilZero.string_of_int.
  destruct (Z.to_int z) as [d|d]; [|cbn [all_chars]; change (is_decimal "-") with true; cbn [andb]];
    apply (all_chars_weaken is_digit); try apply string_of_uint_digits;
    intros c Hc; unfold is_decimal; rewrite Hc; reflexivity.
Qed.

Lemma is_decimal_lower c : is_decimal c = true -> lower_char c = c.
Proof. destruct c as [[] [] [] [] [] [] [] []]; vm_compute; auto; discriminate. Qed.

Lemma lower_decimal s : all_chars is_decimal s = true -> lower s = s.
Proof.
  induction s as [|c s IH]; [reflexivity|]. cbn [all_chars lower].
  intros H. apply andb_prop in H. destruct H as [Hc Hs].
  rewrite (is_decimal_lower c Hc), (IH Hs). reflexivity.
Qed.

Lemma to_int_nonnil z :
  Z.to_int z <> Decimal.Pos Decimal.Nil /\ Z.to_int z <> Decimal.Neg Decimal.Nil.
Proof.
  destruct z as [|q|q]; cbn [Z.to_int]; split; intros H; try discriminate H;
    injection H as H; exact (Unsigned.to_uint_nonnil q H).
Qed.

Lemma str_of_int_inj z z' : str_of_int z = str_of_int z' -> z = z'.
Proof.
  unfold str_of_int. intros H. apply to_int_inj.
  assert (Hsome : Some (Z.to_int z) = Some (Z.to_int z')).
  { rewrite <- (NilZero.isi (Z.to_int z)) by apply to_int_nonnil.
    rewrite <- (NilZero.isi (Z.to_int z')) by apply to_int_nonnil.
    rewrite H. reflexivity. }
  injection Hsome as Hsome. exact Hsome.
Qed.

Lemma str_of_int_not_word z w :
  all_chars is_decimal w = false -> String.eqb (str_of_int z) w = false.
Proof.
  intros Hw. apply String.eqb_neq. intros Heq.
  rewrite <- Heq, str_of_int_decimal in Hw. discriminate Hw.
Qed.

(** X3.  What a cell of a checkbox or radio column asks for: a boolean cell asks
    for its own value, and an integer cell asks for a checked box exactly
    when it is 1. *)
Theorem cell_desired_state :
  (forall b, Filler.desired_state (Filler.str_value_of (Filler.Bool b)) = b) /\
  (forall z, Filler.desired_state (Filler.str_value_of (Filler.Int z)) = Z.eqb z 1).
Proof.
  split; [intros []; reflexivity|]. intros z.
  unfold Filler.desired_state, Filler.str_value_of. cbn [Filler.isna negb andb Filler.py_str].
  rewrite (lower_decimal _ (str_of_int_decimal z)).
  unfold in_tuple. cbn [existsb].
  rewrite (str_of_int_not_word z "true"), (str_of_int_not_word z "yes"),
    (str_of_int_not_word z "on") by reflexivity.
  cbn [orb].
  destruct (Z.eqb z 1) eqn:Hz.
  - apply Z.eqb_eq in Hz. subst z. reflexivity.
  - rewrite orb_false_r. apply String.eqb_neq. intros Heq.
    apply Z.eqb_neq in Hz. apply Hz. apply str_of_int_inj. exact Heq.
Qed.

(** ** The resolver, whatever the browser answers *)

Lemma forallb_weaken {X} (P Q : X -> bool) (l : list X) :
  (forall x, P x = true -> Q x = true) -> forallb P l = true -> forallb Q l = true.
Proof. intros HPQ H. rewrite forallb_forall in *. auto. Qed.

(** X4.  The resolver only inspects the page: each of its calls is a lookup of
    elements, a test of visibility, or the reading of an attribute, a tag
    name or a text; it never clicks, types, clears or runs a script. *)
Theorem resolver_only_inspects (env : Env) (self : Filler.FormFiller) (label : string)
        (t : trace) :
  forallb Filler.is_lookup
          (fst (Filler.find_field_by_multiple_strategies env self label t)) = true /\
  forallb (fun ev => negb (Filler.is_write ev))
          (fst (Filler.find_field_by_multiple_strategies env self label t)) = true.
Proof.
  pose proof (find_field_lookup env self label t) as H. split; [exact H|].
  revert H. apply forallb_weaken. exact is_lookup_not_write.
Qed.

Lemma try_strategies_raises env l t :
  post (Filler.try_strategies env l) t
       (fun evs r =>
          forallb is_strategy_call evs = true /\
          match r with
          | Ok _ => True
          | Raise e => Filler.lookup_miss e = false
          end).
Proof.
  revert t. induction l as [|[by_ selector] rest IH]; intros t; [split; [reflexivity|exact I]|].
  cbn [Filler.try_strategies]. unfold Filler.try_strategy.
  unfold Filler.find_element, Filler.is_displayed, Filler.is_enabled.
  assert (Hrest : forall pre t',
             forallb is_strategy_call pre = true ->
             post (Filler.try_strategies env rest) t'
                  (fun evs2 r =>
                     forallb is_strategy_call (pre ++ evs2)%list = true /\
                     match r with
                     | Ok _ => True
                     | Raise e => Filler.lookup_miss e = false
                     end)).
  { intros pre t' Hpre. eapply post_conseq; [apply IH|].
    intros evs r [Hevs Hr]. rewrite forallb_app, Hpre, Hevs. split; [reflexivity|exact Hr]. }
  step. step. step. step.
  destruct (ask_element env t (FindElement by_ selector)) as [field|e].
  - step. step. destruct (ask_bool env _ (IsDisplayed field)) as [[]|e].
    + step. step. destruct (ask_bool env _ (IsEnabled field)) as [[]|e].
      * step. step. split; [reflexivity|exact I].
      * step. apply Hrest. reflexivity.
      * destruct (Filler.lookup_miss e) eqn:He.
        -- step. apply Hrest. reflexivity.
        -- split; reflexivity.
    + step. apply Hrest. reflexivity.
    + destruct (Filler.lookup_miss e) eqn:He.
      * step. apply Hrest. reflexivity.
      * split; reflexivity.
  - destruct (Filler.lookup_miss e) eqn:He.
    + step. apply Hrest. reflexivity.
    + split; reflexivity.
Qed.

(** X5.  An exception leaves the resolver only from the loop over the eight
    lookups, before the fuzzy fallback is reached, and it is never one of the
    two exceptions that report a missing or a hidden element. *)
Theorem resolver_raises_from_lookups (env : Env) (self : Filler.FormFiller)
        (label : string) (t : trace) (e : exn) :
  snd (Filler.find_field_by_multiple_strategies env self label t) = Raise e ->
  Filler.lookup_miss e = false /\
  forallb is_strategy_call
          (fst (Filler.find_field_by_multiple_strategies env self label t)) = true.
Proof.
  unfold Filler.find_field_by_multiple_strategies.
  destruct (negb (Filler.driver self) || negb (Filler.wait self)); [discriminate|].
  pose proof (try_strategies_raises env (Filler.strategies label) t) as H.
  unfold post in H. unfold bind.
  destruct (Filler.try_strategies env (Filler.strategies label) t) as [evs1 [[field|]|e1]];
    cbn [fst snd] in H.
  - discriminate.
  - destruct (fuzzy_fallback_never_raises env label (t ++ evs1)%list) as [a Ha].
    destruct (Filler.fuzzy_fallback env label (t ++ evs1)%list) as [evs2 r2].
    cbn [snd] in *. rewrite Ha. discriminate.
  - cbn [fst snd]. intros Heq. injection Heq as <-. exact (conj (proj2 H) (proj1 H)).
Qed.

Lemma resolver_raises_from_lookups_witness :
  Filler.lookup_miss InvalidSelectorException = false /\
  forallb is_strategy_call
          (fst (Filler.find_field_by_multiple_strategies
                  rejecting_env (ready_filler None) "Email" [])) = true.
Proof.
  exact (resolver_raises_from_lookups rejecting_env (ready_filler None) "Email" []
           InvalidSelectorException eq_refl).
Defined.

(** ** The resolver on a page: the first lookup that hits wins *)

Lemma try_strategies_first_hit p l t :
  post (Filler.try_strategies (Filler.page_env p) l) t
       (fun evs r => r = Ok (first_hit p l) /\ forallb is_strategy_call evs = true).
Proof.
  revert t. induction l as [|[by_ selector] rest IH]; intros t; [split; reflexivity|].
  cbn [Filler.try_strategies first_hit]. unfold Filler.try_strategy.
  unfold Filler.find_element, Filler.is_displayed, Filler.is_enabled.
  assert (Hrest : forall pre t',
             forallb is_strategy_call pre = true ->
             post (Filler.try_strategies (Filler.page_env p) rest) t'
                  (fun evs2 r => r = Ok (first_hit p rest) /\
                                 forallb is_strategy_call (pre ++ evs2)%list = true)).
  { intros pre t' Hpre. eapply post_conseq; [apply IH|].
    intros evs r [Hr Hevs]. rewrite forallb_app, Hpre, Hevs. split; [exact Hr|reflexivity]. }
  step. step. step. step. cbn [Filler.page_env ask_element].
  destruct (Filler.query p by_ selector) as [e|].
  - step. step. cbn [Filler.page_env ask_bool].
    destruct (Filler.displayed p e); cbn [andb].
    + step. step. cbn [Filler.page_env ask_bool].
      destruct (Filler.enabled p e).
      * step. step. split; reflexivity.
      * step. apply Hrest. reflexivity.
    + step. apply Hrest. reflexivity.
  - cbn [Filler.lookup_miss]. step. apply Hrest. reflexivity.
Qed.

(** X6.  On a page, the resolver returns the element of the first of the eight
    lookups that yields a displayed and enabled element, without consulting
    the fuzzy fallback; only when no lookup does, it returns the first
    candidate that the fallback accepts. *)
Theorem resolver_first_hit_wins (p : Filler.Page) (self : Filler.FormFiller)
        (label : string) (t : trace) :
  Filler.driver self = true ->
  Filler.wait self = true ->
  snd (Filler.find_field_by_multiple_strategies (Filler.page_env p) self label t)
  = Ok (match first_hit p (Filler.strategies label) with
        | Some e => Some e
        | None => find (fuzzy_accepts p label) (Filler.inputs p)
        end) /\
  (first_hit p (Filler.strategies label) <> None ->
   forallb is_strategy_call
           (fst (Filler.find_field_by_multiple_strategies (Filler.page_env p) self label t))
   = true).
Proof.
  intros Hd Hw. unfold Filler.find_field_by_multiple_strategies. rewrite Hd, Hw.
  cbn [negb orb].
  pose proof (try_strategies_first_hit p (Filler.strategies label) t) as H.
  unfold post in H. unfold bind.
  destruct (Filler.try_strategies (Filler.page_env p) (Filler.strategies label) t)
    as [evs1 r1]. cbn [fst snd] in H. destruct H as [-> Hevs].
  destruct (first_hit p (Filler.strategies label)) as [e|].
  - cbn [ret fst snd]. rewrite app_nil_r. split; [reflexivity|intros _; exact Hevs].
  - pose proof (fuzzy_fallback_page p label (t ++ evs1)%list) as Hf.
    destruct (Filler.fuzzy_fallback (Filler.page_env p) label (t ++ evs1)%list) as [evs2 r2].
    cbn [fst snd] in *. split; [exact Hf|]. intros Hne. contradiction Hne. reflexivity.
Qed.

Lemma resolver_first_hit_wins_witness :
  snd (Filler.find_field_by_multiple_strategies
         (Filler.page_env placeholder_page) (ready_filler None) "Email" [])
  = Ok (Some 3).
Proof.
  exact (proj1 (resolver_first_hit_wins placeholder_page (ready_filler None) "Email" []
                  eq_refl eq_refl)).
Defined.

(** ** Text input on a page that takes every keystroke *)

Lemma value_after_app e current (t1 t2 : trace) :
  Filler.value_after e current (t1 ++ t2)%list
  = Filler.value_after e (Filler.value_after e current t1) t2.
Proof.
  revert current. induction t1 as [|ev t1 IH]; intros current; [reflexivity|].
  destruct ev; cbn [app Filler.value_after]; try apply IH.
  destruct args as [|[e1|s1] [|[e2|s2] [|a3 args]]]; apply IH.
Qed.

Lemma value_after_keystrokes field current value :
  Filler.value_after field current (keystrokes field value) = (current ++ value)%string.
Proof.
  revert current. induction value as [|c value IH]; intros current.
  - cbn. rewrite app_empty_r. reflexivity.
  - cbn [keystrokes Filler.value_after]. rewrite Nat.eqb_refl, IH.
    induction current as [|d current IHc]; [reflexivity|].
    cbn [append]. f_equal. exact IHc.
Qed.

Lemma type_chars_keystrokes p field value t :
  Filler.type_chars (Filler.page_env p) field value t = (keystrokes field value, Ok tt).
Proof.
  revert t. induction value as [|c value IH]; intros t; [reflexivity|].
  cbn [Filler.type_chars keystrokes]. unfold bind, Filler.send_keys, call.
  cbn [Filler.page_env ask_unit]. rewrite IH. reflexivity.
Qed.

(** X7.  On a page that takes every keystroke, the first strategy suffices
    whatever the control held before: the field is clicked and cleared, the
    value is typed character by character, and the single read-back that
    follows returns the value; no script is run and no pointer input is
    made. *)
Theorem typing_suffices_on_page (p : Filler.Page) (self : Filler.FormFiller)
        (field : WebElement) (value : string) (t : trace) :
  Filler.safe_send_keys (Filler.page_env p) self field value t
  = (([Click field; Clear field] ++ keystrokes field value
      ++ [GetAttribute field "value"])%list, Ok tt) /\
  forall current,
    Filler.value_after field current
      (t ++ [Click field; Clear field] ++ keystrokes field value)%list = value.
Proof.
  assert (Hvalue : forall current,
             Filler.value_after field current
               (t ++ [Click field; Clear field] ++ keystrokes field value)%list = value).
  { intros current. rewrite value_after_app. cbn [app Filler.value_after].
    rewrite Nat.eqb_refl. apply value_after_keystrokes. }
  split; [|exact Hvalue].
  unfold Filler.safe_send_keys, Filler.max_attempts. cbn [seq Filler.attempts_loop].
  unfold Filler.attempt_body, Filler.input_method.
  unfold bind at 1. unfold try_except.
  unfold bind at 1. unfold Filler.click at 1, call at 1. cbn [Filler.page_env ask_unit].
  unfold bind at 1. unfold Filler.clear at 1, call at 1. cbn [Filler.page_env ask_unit].
  unfold bind at 1. rewrite type_chars_keystrokes.
  unfold bind at 1. unfold Filler.get_attribute, call. cbn [Filler.page_env ask_attr].
  change (String.eqb "value" "value") with true. cbv iota.
  replace (((t ++ [Click field]) ++ [Clear field]) ++ keystrokes field value)%list
    with (t ++ [Click field; Clear field] ++ keystrokes field value)%list
    by (rewrite <- !app_assoc; reflexivity).
  rewrite Hvalue. cbn [ret Filler.attr_equals]. rewrite String.eqb_refl.
  unfold ret. cbn [app]. rewrite !app_nil_r. reflexivity.
Qed.

(** ** Radio buttons and dropdowns *)

Lemma desired_state_truthy str_value :
  Filler.desired_state str_value = true -> truthy str_value = true.
Proof. destruct str_value; [discriminate|reflexivity]. Qed.

(** X8.  Whatever the browser answers, filling a radio button writes nothing but
    at most one click on it, made exactly when the lower-cased value is one
    of "true", "yes", "1", "on": a radio button is never unset. *)
Theorem radio_clicked_only_when_asked (env : Env) (self : Filler.FormFiller)
        (field : WebElement) (value : Filler.scalar) (field_name : string) (t : trace) :
  ask_attr env t (GetAttribute field "type") = Ok (Some "radio") ->
  filter Filler.is_write (fst (Filler.fill_field env self field value field_name t))
  = if Filler.desired_state (Filler.str_value_of value) then [Click field] else [].
Proof.
  intros Hty. unfold Filler.fill_field, try_except. cbv zeta.
  destruct (truthy (Filler.str_value_of value)) eqn:Hv; cbn [negb].
  - unfold bind at 1. unfold Filler.get_attribute at 1, call at 1. rewrite Hty.
    cbn [Filler.type_is]. change (String.eqb "radio" "select-one") with false.
    change (String.eqb "radio" "checkbox") with false.
    change (String.eqb "radio" "radio") with true. cbv iota.
    unfold Filler.fill_radio.
    destruct (Filler.desired_state (Filler.str_value_of value)).
    + unfold bind, Filler.click, call, log, any_exception.
      destruct (ask_unit env (t ++ [GetAttribute field "type"])%list (Click field));
        reflexivity.
    + reflexivity.
  - destruct (Filler.desired_state (Filler.str_value_of value)) eqn:Hd; [|reflexivity].
    apply desired_state_truthy in Hd. congruence.
Qed.

Lemma radio_clicked_only_when_asked_witness :
  filter Filler.is_write
         (fst (Filler.fill_field (Filler.page_env choice_page) (ready_filler None)
                                 2 (Filler.Str "no") "Newsletter" []))
  = [].
Proof.
  exact (radio_clicked_only_when_asked (Filler.page_env choice_page) (ready_filler None)
           2 (Filler.Str "no") "Newsletter" [] eq_refl).
Defined.

Lemma select_option_page p options str_value t :
  post (Filler.select_option (Filler.page_env p) options str_value) t
       (fun evs r =>
          match find (fun o => Filler.strings_similar (Filler.inner_text p o) str_value)
                     options with
          | Some o => r = Ok true /\ filter Filler.is_write evs = [Click o]
          | None => r = Ok false /\ filter Filler.is_write evs = []
          end).
Proof.
  revert t. induction options as [|o rest IH]; intros t; [split; reflexivity|].
  cbn [Filler.select_option find]. unfold Filler.text, Filler.click.
  step. step. cbn [Filler.page_env ask_str].
  destruct (Filler.strings_similar (Filler.inner_text p o) str_value).
  - step. step. cbn [Filler.page_env ask_unit]. step. split; reflexivity.
  - eapply post_conseq; [apply IH|]. intros evs r H. exact H.
Qed.

(** X9.  On a page, filling a dropdown clicks the first option, in document
    order, whose text is similar to the value, and nothing else; when no
    option is similar, the value is assigned to the dropdown by script, unless
    the dropdown has no option at all, in which case nothing is written.  In
    each case the field is then recorded as filled. *)
Theorem dropdown_first_similar_option (p : Filler.Page) (self : Filler.FormFiller)
        (field : WebElement) (value : Filler.scalar) (field_name : string) (t : trace) :
  Filler.attribute p field "type" = Some "select-one" ->
  truthy (Filler.str_value_of value) = true ->
  let str_value := Filler.str_value_of value in
  let evs := fst (Filler.fill_field (Filler.page_env p) self field value field_name t) in
  filter Filler.is_write evs
  = match find (fun o => Filler.strings_similar (Filler.inner_text p o) str_value)
               (Filler.children p field) with
    | Some o => [Click o]
    | None =>
        match Filler.children p field with
        | [] => []
        | _ :: _ =>
            if Filler.driver self
            then [ExecuteScript Filler.set_value_script [ArgElement field; ArgString str_value]]
            else []
        end
    end /\
  last_from None evs = Some (Log INFO (FilledField field_name str_value)).
Proof.
  intros Hty Hv str_value evs. subst evs str_value.
  match goal with
  | |- context [fst (?m t)] =>
      change (post m t (fun evs _ =>
                filter Filler.is_write evs
                = match find (fun o => Filler.strings_similar (Filler.inner_text p o) (Filler.str_value_of value))
                             (Filler.children p field) with
                  | Some o => [Click o]
                  | None =>
                      match Filler.children p field with
                      | [] => []
                      | _ :: _ =>
                          if Filler.driver self
                          then [ExecuteScript Filler.set_value_script
                                  [ArgElement field; ArgString (Filler.str_value_of value)]]
                          else []
                      end
                  end /\
                last_from None evs = Some (Log INFO (FilledField field_name (Filler.str_value_of value)))))
  end.
  unfold Filler.fill_field. cbv zeta. rewrite Hv. cbn [negb].
  unfold Filler.get_attribute. step. step. step. cbn [Filler.page_env ask_attr].
  change (String.eqb "type" "value") with false. cbv iota. rewrite Hty.
  cbn [Filler.type_is]. change (String.eqb "select-one" "select-one") with true. cbv iota.
  step. unfold Filler.fill_select, Filler.element_find_elements.
  step. step. cbn [Filler.page_env ask_elements].
  step. eapply post_conseq; [apply select_option_page|]. intros evs1 r1 H1.
  destruct (find (fun o => Filler.strings_similar (Filler.inner_text p o) (Filler.str_value_of value))
                 (Filler.children p field)) as [o|]; destruct H1 as [-> Hw].
  - cbn [negb andb]. step. step. cbn [fst snd].
    rewrite !filter_app, Hw, !last_from_app. split; reflexivity.
  - destruct (Filler.children p field) as [|o1 os]; cbn [negb andb].
    + step. step. rewrite !filter_app, Hw, !last_from_app. split; reflexivity.
    + destruct (Filler.driver self).
      * unfold Filler.execute_script. step. cbn [Filler.page_env ask_unit]. step.
        rewrite !filter_app, Hw, !last_from_app. split; reflexivity.
      * step. step. rewrite !filter_app, Hw, !last_from_app. split; reflexivity.
Qed.

Lemma dropdown_first_similar_option_witness :
  filter Filler.is_write
         (fst (Filler.fill_field (Filler.page_env choice_page) (ready_filler None)
                                 1 (Filler.Str "united") "Country" []))
  = [Click 12].
Proof.
  exact (proj1 (dropdown_first_similar_option choice_page (ready_filler None)
                  1 (Filler.Str "united") "Country" [] eq_refl eq_refl)).
Defined.

(** ** Submission: the first strategy that does not raise *)

Lemma submit_outcome_cons env strategy rest t evs1 evs2 r :
  List.length (filter is_submit_warning evs1) = 1 ->
  filter is_submit_entry evs1 = [submit_entry strategy] ->
  submit_outcome env rest (t ++ evs1)%list evs2 r ->
  submit_outcome env (strategy :: rest) t (evs1 ++ evs2)%list r.
Proof.
  intros Hwarn Hentry. unfold submit_outcome. cbv zeta.
  rewrite !filter_app, List.length_app, Hwarn, Hentry.
  destruct r as [[]|e]; [| |exact (fun H => H)].
  - intros [Hlt [Hfilter [pre [ev [Hevs [Hw Hask]]]]]]. split; [cbn [List.length]; lia|].
    split.
    + cbn [plus firstn map app]. rewrite Hfilter. reflexivity.
    + exists (evs1 ++ pre)%list, ev. rewrite Hevs, !app_assoc. repeat split; assumption.
  - intros [Hlen Hfilter]. split; [cbn [List.length]; lia|].
    cbn [map app]. rewrite Hfilter. reflexivity.
Qed.

Lemma submit_loop_outcome env l t :
  post (Filler.submit_loop env l) t (submit_outcome env l t).
Proof.
  revert t. induction l as [|strategy rest IH]; intros t; [split; reflexivity|].
  cbn [Filler.submit_loop]. unfold Filler.submit_with.
  unfold Filler.wait_clickable, Filler.actions_click, Filler.execute_script.
  assert (Hrest : forall evs1,
             List.length (filter is_submit_warning evs1) = 1 ->
             filter is_submit_entry evs1 = [submit_entry strategy] ->
             post (Filler.submit_loop env rest) (t ++ evs1)%list
                  (fun evs2 r => submit_outcome env (strategy :: rest) t (evs1 ++ evs2)%list r)).
  { intros evs1 Hwarn Hentry. eapply post_conseq; [apply IH|].
    intros evs2 r. apply submit_outcome_cons; assumption. }
  step. step. step.
  destruct strategy as [[by_ selector]|].
  - step. step. destruct (ask_element env t (WaitClickable by_ selector)) as [button|e].
    + step. destruct (ask_unit env _ (ActionsClick button)) as [[]|e] eqn:Hclick.
      * step. step. unfold submit_outcome. cbn. repeat split; try lia.
        exists [WaitClickable by_ selector], (ActionsClick button).
        repeat split. exact Hclick.
      * cbn [any_exception]. step. step. step. apply Hrest; reflexivity.
    + cbn [any_exception]. step. step. step. apply Hrest; reflexivity.
  - step. destruct (ask_unit env t (ExecuteScript "document.forms[0].submit()" []))
      as [[]|e] eqn:Hscript.
    + step. step. unfold submit_outcome. cbn. repeat split; try lia.
      exists [], (ExecuteScript "document.forms[0].submit()" []).
      repeat split. rewrite app_nil_r. exact Hscript.
    + cbn [any_exception]. step. step. step. apply Hrest; reflexivity.
Qed.

(** X10.  Whatever the browser answers, submitting never raises.  The strategies
    are opened in their order, each after the failure of the one before it,
    and the first whose calls do not raise ends the submission: the result
    is true, and the last call is one that the browser accepted, the click on
    the submit control or the script.  The result is false only after all
    five strategies have failed, each with its warning. *)
Theorem submit_form_first_success (env : Env) (self : Filler.FormFiller) (t : trace) :
  Filler.driver self = true ->
  Filler.wait self = true ->
  Filler.actions self = true ->
  let evs := fst (Filler.submit_form env self t) in
  let failures := List.length (filter is_submit_warning evs) in
  match snd (Filler.submit_form env self t) with
  | Ok true =>
      failures < 5 /\
      filter is_submit_entry evs
      = map submit_entry (firstn (S failures) Filler.submit_strategies) /\
      exists pre ev, evs = (pre ++ [ev])%list /\ Filler.is_write ev = true /\
                     ask_unit env (t ++ pre)%list ev = Ok tt
  | Ok false =>
      failures = 5 /\
      filter is_submit_entry evs = map submit_entry Filler.submit_strategies
  | Raise _ => False
  end.
Proof.
  intros Hd Hw Ha. unfold Filler.submit_form. rewrite Hd, Hw, Ha. cbn [negb orb].
  exact (submit_loop_outcome env Filler.submit_strategies t).
Qed.

Lemma submit_form_first_success_witness :
  List.length (filter is_submit_warning
                 (fst (Filler.submit_form formless_env (ready_filler None) []))) = 5.
Proof.
  exact (proj1 (submit_form_first_success formless_env (ready_filler None) []
                  eq_refl eq_refl eq_refl)).
Defined.

(** ** The session, row by row *)

Lemma aborted_by_shift env t a evs e :
  aborted_by env (t ++ a)%list evs e -> aborted_by env t (a ++ evs)%list e.
Proof.
  intros [pre [c [-> Hc]]]. exists (a ++ pre)%list, c.
  split; [rewrite app_assoc; reflexivity|]. rewrite app_assoc. exact Hc.
Qed.

(** Two writings of the same trace. *)
Ltac same_history :=
  cbn [app]; rewrite <- ?app_assoc, ?app_nil_r; cbn [app]; rewrite ?app_nil_r; reflexivity.

(** The answer [H] of the oracle, up to the writing of the trace. *)
Ltac by_answer H :=
  first [exact H | rewrite <- H; f_equal; same_history].

Lemma try_strategies_abort env l t :
  post (Filler.try_strategies env l) t
       (fun evs r =>
          match r with
          | Ok _ => True
          | Raise e => aborted_by env t evs e
          end).
Proof.
  revert t. induction l as [|[by_ selector] rest IH]; intros t; [exact I|].
  cbn [Filler.try_strategies]. unfold Filler.try_strategy.
  unfold Filler.find_element, Filler.is_displayed, Filler.is_enabled.
  assert (Hrest : forall pre t',
             t' = (t ++ pre)%list ->
             post (Filler.try_strategies env rest) t'
                  (fun evs2 r =>
                     match r with
                     | Ok _ => True
                     | Raise e => aborted_by env t (pre ++ evs2)%list e
                     end)).
  { intros pre t' ->. eapply post_conseq; [apply IH|].
    intros evs2 [found|e] H; [exact I|]. apply aborted_by_shift. exact H. }
  assert (Hleave : forall pre c e,
             raised env (t ++ pre)%list c e ->
             Filler.is_lookup c = true ->
             match c with
             | FindElement _ _ | IsDisplayed _ | IsEnabled _ => True
             | _ => False
             end ->
             Filler.lookup_miss e = false ->
             aborted_by env t (pre ++ [c])%list e).
  { intros pre c e Hraise _ Hkind Hmiss. exists pre, c. split; [reflexivity|].
    split; [exact Hraise|]. destruct c; try contradiction; exact Hmiss. }
  step. step. step. step.
  destruct (ask_element env t (FindElement by_ selector)) as [field|e] eqn:Hfind.
  - step. step. destruct (ask_bool env _ (IsDisplayed field)) as [[]|e] eqn:Hshown.
    + step. step. destruct (ask_bool env _ (IsEnabled field)) as [[]|e] eqn:Henabled.
      * step. step. exact I.
      * step. apply (Hrest [FindElement by_ selector; IsDisplayed field; IsEnabled field]).
        same_history.
      * destruct (Filler.lookup_miss e) eqn:He.
        -- step.
           apply (Hrest [FindElement by_ selector; IsDisplayed field; IsEnabled field]).
           same_history.
        -- apply (Hleave [FindElement by_ selector; IsDisplayed field] (IsEnabled field) e);
             [|reflexivity|exact I|exact He].
           cbn [raised]. by_answer Henabled.
    + step. apply (Hrest [FindElement by_ selector; IsDisplayed field]).
      same_history.
    + destruct (Filler.lookup_miss e) eqn:He.
      * step. apply (Hrest [FindElement by_ selector; IsDisplayed field]).
        same_history.
      * apply (Hleave [FindElement by_ selector] (IsDisplayed field) e);
          [|reflexivity|exact I|exact He].
        cbn [raised]. by_answer Hshown.
  - destruct (Filler.lookup_miss e) eqn:He.
    + step. apply (Hrest [FindElement by_ selector]). same_history.
    + apply (Hleave [] (FindElement by_ selector) e); [|reflexivity|exact I|exact He].
      cbn [raised]. by_answer Hfind.
Qed.

Lemma find_field_run env self label t :
  Filler.driver self = true ->
  Filler.wait self = true ->
  post (Filler.find_field_by_multiple_strategies env self label) t
       (fun evs r =>
          filter is_resolver_entry evs = [resolver_entry label] /\
          match r with
          | Ok _ => True
          | Raise e => aborted_by env t evs e
          end).
Proof.
  intros Hd Hw. unfold post. split; [apply find_field_entries; assumption|].
  change (post (Filler.find_field_by_multiple_strategies env self label) t
               (fun evs r => match r with
                             | Ok _ => True
                             | Raise e => aborted_by env t evs e
                             end)).
  unfold Filler.find_field_by_multiple_strategies. rewrite Hd, Hw. cbn [negb orb].
  step. eapply post_conseq; [apply try_strategies_abort|].
  intros evs1 [[field|]|e] H1; [step; exact I| |exact H1].
  unfold post. destruct (fuzzy_fallback_never_raises env label (t ++ evs1)%list) as [found ->].
  exact I.
Qed.

Lemma fill_field_shape env self field value field_name t :
  exists evs,
    Filler.fill_field env self field value field_name t = (evs, Ok tt) /\
    field_filled field field_name (Filler.str_value_of value) evs.
Proof.
  unfold Filler.fill_field, field_filled, try_except. cbv zeta.
  destruct (truthy (Filler.str_value_of value)); cbn [negb].
  2:{ exists []. split; reflexivity. }
  unfold bind at 1. unfold Filler.get_attribute at 1, call at 1.
  destruct (ask_attr env t (GetAttribute field "type")) as [field_type|e].
  - unfold bind at 1.
    match goal with
    | |- context [match ?m (t ++ [GetAttribute field "type"])%list with _ => _ end] =>
        destruct (m (t ++ [GetAttribute field "type"])%list) as [evs2 [[]|e]]
    end.
    + unfold log. eexists. split; [reflexivity|].
      exists evs2, (Log INFO (FilledField field_name (Filler.str_value_of value))).
      split; [reflexivity|left; reflexivity].
    + cbn [any_exception]. unfold log. eexists. split; [reflexivity|].
      exists evs2, (Log ERROR (ErrorFillingField field_name e)).
      split; [reflexivity|right; exists e; reflexivity].
  - cbn [any_exception]. unfold log. eexists. split; [reflexivity|].
    exists [], (Log ERROR (ErrorFillingField field_name e)).
    split; [reflexivity|right; exists e; reflexivity].
Qed.

Lemma fill_column_run env self row c t :
  Filler.driver self = true ->
  Filler.wait self = true ->
  post (Filler.fill_column env self row c) t
       (fun evs r =>
          match r with
          | Ok _ => column_filled env self row c t evs
          | Raise e => aborted_by env t evs e
          end).
Proof.
  intros Hd Hw. unfold post, Filler.fill_column, column_filled, present.
  destruct (Filler.isna (row c)); cbn [negb]; [reflexivity|]. cbv zeta.
  pose proof (find_field_run env self (Filler.clean_field_name c) t Hd Hw) as Hfind.
  unfold post in Hfind. unfold bind.
  destruct (Filler.find_field_by_multiple_strategies env self (Filler.clean_field_name c) t)
    as [evs1 [found|e]]; cbn [fst snd] in Hfind; destruct Hfind as [Hentry Habort];
    [|exact Habort].
  destruct found as [field|].
  - destruct (fill_field_shape env self field (row c) (Filler.clean_field_name c)
                (t ++ evs1)%list) as [evs2 [Hfill Hshape]].
    rewrite Hfill. cbn [fst snd].
    exists evs1, (Some field). split; [reflexivity|]. split; [exact Hentry|].
    exists evs2. repeat split; assumption.
  - unfold log. cbn [fst snd].
    exists evs1, None. split; [reflexivity|]. split; [exact Hentry|reflexivity].
Qed.

Lemma fill_columns_run env self row cols :
  Filler.driver self = true ->
  Filler.wait self = true ->
  forall t,
    post (Filler.fill_columns env self row cols) t
         (fun evs r =>
            match r with
            | Ok _ => columns_filled env self row cols t evs
            | Raise e => aborted_by env t evs e
            end).
Proof.
  intros Hd Hw. induction cols as [|c rest IH]; intros t; [reflexivity|].
  cbn [Filler.fill_columns columns_filled]. step.
  eapply post_conseq; [apply fill_column_run; assumption|].
  intros evs1 [[]|e] H1; [|exact H1].
  eapply post_conseq; [apply IH|]. intros evs2 [[]|e] H2.
  - exists evs1, evs2. repeat split; assumption.
  - apply aborted_by_shift. exact H2.
Qed.

Lemma submit_form_run env self t :
  Filler.driver self = true ->
  Filler.wait self = true ->
  Filler.actions self = true ->
  exists sub_evs submitted,
    Filler.submit_form env self t = (sub_evs, Ok submitted) /\
    submit_outcome env Filler.submit_strategies t sub_evs (Ok submitted) /\
    forallb is_inner sub_evs = true.
Proof.
  intros Hd Hw Ha.
  pose proof (submit_form_inner env self t) as Hinner.
  pose proof (submit_loop_outcome env Filler.submit_strategies t) as Hout.
  unfold post in Hout. unfold Filler.submit_form in *.
  rewrite Hd, Hw, Ha in *. cbn [negb orb] in *.
  destruct (Filler.submit_loop env Filler.submit_strategies t) as [sub_evs [submitted|e]];
    cbn [fst snd] in *; [|contradiction].
  exists sub_evs, submitted. repeat split; assumption.
Qed.

Lemma process_row_run env self df total idx row t :
  Filler.driver self = true ->
  Filler.wait self = true ->
  Filler.actions self = true ->
  post (Filler.process_row env self df total idx row) t
       (fun evs r =>
          (exists more, evs = Log INFO (ProcessingRow idx) :: more) /\
          match r with
          | Ok _ => row_processed env self df total idx row t evs
          | Raise e => aborted_by env t evs e
          end).
Proof.
  intros Hd Hw Ha. unfold Filler.process_row. step. step. step.
  apply post_conseq with
    (Q := fun evs r =>
            forallb is_inner evs = true /\
            match r with
            | Ok _ => columns_filled env self row (Filler.columns df)
                                     (t ++ [Log INFO (ProcessingRow idx)])%list evs
            | Raise e => aborted_by env (t ++ [Log INFO (ProcessingRow idx)])%list evs e
            end).
  { split; [apply fill_columns_inner|apply fill_columns_run; assumption]. }
  intros cols_evs [[]|e] [Hinner Hcols].
  2:{ split; [eexists; reflexivity|].
      apply (aborted_by_shift env t [Log INFO (ProcessingRow idx)]). exact Hcols. }
  step. unfold post at 1.
  destruct (submit_form_run env self (t ++ Log INFO (ProcessingRow idx) :: cols_evs)%list
              Hd Hw Ha) as [sub_evs [submitted [Hsub [Hout Hsubinner]]]].
  replace ((t ++ [Log INFO (ProcessingRow idx)]) ++ cols_evs)%list
    with (t ++ Log INFO (ProcessingRow idx) :: cols_evs)%list by same_history.
  rewrite Hsub. cbn [fst snd].
  assert (Hrow : forall tail,
             tail = row_end self total idx submitted ->
             row_processed env self df total idx row t
               ([Log INFO (ProcessingRow idx)] ++ cols_evs ++ sub_evs ++ tail)%list).
  { intros tail ->. exists cols_evs, sub_evs, submitted.
    split; [exact Hcols|]. split; [exact Hsub|]. split; [exact Hout|].
    split; [rewrite forallb_app, Hinner, Hsubinner; reflexivity|reflexivity]. }
  destruct submitted.
  - step. step. destruct (Nat.ltb idx (total - 1)) eqn:Hlast.
    + unfold Filler.driver_get. step.
      split; [eexists; reflexivity|].
      destruct (ask_unit env _ (Get (Filler.url self))) as [[]|e] eqn:Hnav.
      * apply Hrow. unfold row_end. rewrite Hlast. reflexivity.
      * exists ([Log INFO (ProcessingRow idx)] ++ cols_evs ++ sub_evs
                ++ [Log INFO (SubmittedForm idx)])%list, (Get (Filler.url self)).
        split; [same_history|]. split; [|exact I].
        cbn [raised]. by_answer Hnav.
    + step. split; [eexists; reflexivity|].
      apply Hrow. unfold row_end. rewrite Hlast. reflexivity.
  - step. split; [eexists; reflexivity|]. apply Hrow. reflexivity.
Qed.

Lemma rows_loop_run env self df total remaining :
  Filler.driver self = true ->
  Filler.wait self = true ->
  Filler.actions self = true ->
  forall idx t,
    post (Filler.rows_loop env self df total idx remaining) t
         (fun evs r =>
            exists segs tail,
              evs = (List.concat segs ++ tail)%list /\
              rows_processed env self df total idx
                             (firstn (List.length segs) remaining) t segs /\
              match r with
              | Ok _ => List.length segs = List.length remaining /\ tail = []
              | Raise e =>
                  List.length segs < List.length remaining /\
                  aborted_by env t (List.concat segs ++ tail)%list e /\
                  exists more,
                    tail = Log INFO (ProcessingRow (idx + List.length segs)) :: more
              end).
Proof.
  intros Hd Hw Ha. induction remaining as [|row rest IH]; intros idx t.
  - cbn [Filler.rows_loop]. step. exists [], []. repeat split.
  - cbn [Filler.rows_loop]. step.
    eapply post_conseq; [apply process_row_run; assumption|].
    intros evs1 [[]|e] [Hhead H1].
    + eapply post_conseq; [apply IH|].
      intros evs2 r [segs [tail [-> [Hrows Hr]]]].
      exists (evs1 :: segs), tail.
      split; [cbn [List.concat]; rewrite app_assoc; reflexivity|].
      split; [cbn [List.length firstn rows_processed]; split; assumption|].
      destruct r as [[]|e].
      * destruct Hr as [Hlen ->]. cbn [List.length]. split; [lia|reflexivity].
      * destruct Hr as [Hlt [Habort [more ->]]]. cbn [List.length].
        split; [lia|]. split.
        -- cbn [List.concat]. rewrite <- app_assoc. apply aborted_by_shift. exact Habort.
        -- exists more. replace (idx + S (List.length segs)) with (S idx + List.length segs)
             by lia. reflexivity.
    + exists [], evs1. split; [reflexivity|]. split; [exact I|].
      cbn [List.length]. split; [lia|]. split; [exact H1|].
      destruct Hhead as [more ->]. exists more. rewrite Nat.add_0_r. reflexivity.
Qed.

Lemma fill_form_run env self df t :
  Filler.data self = Some df ->
  Filler.driver self = true ->
  Filler.wait self = true ->
  Filler.actions self = true ->
  session_rows env self df t (fst (Filler.fill_form env self t)).
Proof.
  intros Hdata Hd Hw Ha. unfold Filler.fill_form. rewrite Hdata, Hd, Hw. cbn [negb orb].
  unfold session_rows. cbv zeta.
  set (total := List.length (Filler.rows df)). set (nav := Get (Filler.url self)).
  unfold try_finally, try_except, bind at 1.
  unfold Filler.driver_get at 1, call at 1. fold nav.
  destruct (ask_unit env t nav) as [[]|e] eqn:Hnav.
  - pose proof (rows_loop_run env self df total (Filler.rows df) Hd Hw Ha 0
                  (t ++ [nav])%list) as Hrows.
    unfold post in Hrows.
    destruct (Filler.rows_loop env self df total 0 (Filler.rows df) (t ++ [nav])%list)
      as [evs r]. cbn [fst snd] in Hrows.
    destruct Hrows as [segs [tail [-> [Hproc Hr]]]]. exists segs.
    destruct r as [[]|e].
    + destruct Hr as [Hlen ->]. exists [Quit]. split.
      * unfold Filler.driver_quit, call. destruct (ask_unit env _ Quit); cbn [fst];
          same_history.
      * split; [exact Hproc|]. left. split; [exact Hlen|reflexivity].
    + destruct Hr as [Hlt [Habort [more Htail]]]. cbn [any_exception].
      exists (tail ++ [Log ERROR (ErrorInFormFilling e); Quit])%list. split.
      * unfold log, Filler.driver_quit, call. destruct (ask_unit env _ Quit); cbn [fst];
          same_history.
      * split; [exact Hproc|]. right. exists tail, e. split; [reflexivity|]. split.
        -- apply (aborted_by_shift env t [nav]). exact Habort.
        -- right. split; [exact Hlt|]. exists more. exact Htail.
  - cbn [any_exception]. exists [], [Log ERROR (ErrorInFormFilling e); Quit]. split.
    + unfold log, Filler.driver_quit, call. destruct (ask_unit env _ Quit); cbn [fst];
        same_history.
    + split; [exact I|]. right. exists [], e. split; [reflexivity|]. split.
      * exists [], nav. split; [reflexivity|]. split; [|exact I].
        cbn [raised nav]. fold nav. by_answer Hnav.
      * left. split; reflexivity.
Qed.

(** C5, counterexample.  In the first session no submission of the first
    row succeeds; the session logs the failure and fills the second row at
    once: both rows are processed, but the target URL is loaded only once,
    before the first row, and no navigation comes before the second row.
    In the second session the name of the column has a quote in it, the
    driver rejects the selector of the first lookup, and the exception ends
    the session in its first row: the second row is not processed. *)
Lemma navigation_before_each_row_counterexample :
  filter Filler.is_session
         (fst (run (Filler.fill_form formless_env (ready_filler (Some two_rows)))))
  = [Get "https://example.test/form"; Log INFO (ProcessingRow 0);
     Log ERROR (FailedToSubmitForm 0); Log INFO (ProcessingRow 1);
     Log ERROR (FailedToSubmitForm 1); Quit] /\
  filter Filler.is_session
         (fst (run (Filler.fill_form rejecting_env (ready_filler (Some quoted_header_rows)))))
  = [Get "https://example.test/form"; Log INFO (ProcessingRow 0);
     Log ERROR (ErrorInFormFilling InvalidSelectorException); Quit].
Proof. split; vm_compute; reflexivity. Qed.

(** C5, as amended.  A session that has its data, its driver, its wait and
    its action chain, and that no exception ends early (no error record of
    the session is written), loads the target URL, processes every row of
    the frame, in the order of the rows, and quits.  For each row it writes
    the record of the start of the row; resolves, in the order of the
    columns, every column whose value is present, under its cleaned name,
    and fills the element found with the value of the cell, or warns that
    no field was found; and then submits.  After a submission it writes its
    record and, when rows remain, loads the target URL again; after a failed
    submission it writes the record of the failure and goes on at once to
    the next row, without loading the URL.  It loads the URL at no other
    point. *)
Theorem session_processes_every_row (env : Env) (self : Filler.FormFiller)
        (df : Filler.DataFrame) (t : trace) :
  Filler.data self = Some df ->
  Filler.driver self = true ->
  Filler.wait self = true ->
  Filler.actions self = true ->
  existsb is_abort (fst (Filler.fill_form env self t)) = false ->
  exists segs,
    fst (Filler.fill_form env self t)
    = (Get (Filler.url self) :: List.concat segs ++ [Quit])%list /\
    rows_processed env self df (List.length (Filler.rows df)) 0 (Filler.rows df)
                   (t ++ [Get (Filler.url self)])%list segs.
Proof.
  intros Hdata Hd Hw Ha Hquiet.
  destruct (fill_form_run env self df t Hdata Hd Hw Ha)
    as [segs [tail [Hevs [Hrows [[Hlen ->]|[partial [e [-> _]]]]]]]].
  - exists segs. split; [exact Hevs|].
    rewrite <- Hlen, firstn_all2 in Hrows by (rewrite Hlen; apply Nat.le_refl).
    rewrite Hlen in Hrows. exact Hrows.
  - exfalso. rewrite Hevs in Hquiet. cbn [existsb] in Hquiet.
    rewrite !existsb_app in Hquiet. cbn [existsb is_abort] in Hquiet.
    rewrite !orb_true_r in Hquiet. discriminate Hquiet.
Qed.

Lemma session_processes_every_row_witness :
  exists segs,
    fst (Filler.fill_form (Filler.page_env first_name_page) (ready_filler (Some two_rows)) [])
    = (Get "https://example.test/form" :: List.concat segs ++ [Quit])%list /\
    rows_processed (Filler.page_env first_name_page) (ready_filler (Some two_rows)) two_rows
                   2 0 (Filler.rows two_rows) [Get "https://example.test/form"] segs.
Proof.
  apply (session_processes_every_row (Filler.page_env first_name_page)
           (ready_filler (Some two_rows)) two_rows []); reflexivity.
Defined.

(** On that page the first row is submitted by the script, and the target
    URL is loaded again before the second row. *)
Example submission_goes_on :
  filter Filler.is_session
         (fst (run (Filler.fill_form (Filler.page_env first_name_page)
                      (ready_filler (Some two_rows)))))
  = [Get "https://example.test/form"; Log INFO (ProcessingRow 0);
     Log INFO (SubmittedForm 0); Get "https://example.test/form";
     Log INFO (ProcessingRow 1); Log INFO (SubmittedForm 1); Quit].
Proof. vm_compute. reflexivity. Qed.

(** ** Failures inside a row *)




(** ** Exceptions that leave the session *)

(** X11.  The only exception that can leave a session is one raised by the final
    [quit]: every other exception is logged inside the session. *)
Theorem fill_form_raises_only_on_quit (env : Env) (self : Filler.FormFiller)
        (t : trace) (e : exn) :
  snd (Filler.fill_form env self t) = Raise e ->
  exists pre,
    fst (Filler.fill_form env self t) = (pre ++ [Quit])%list /\
    ask_unit env (t ++ pre)%list Quit = Raise e.
Proof.
  unfold Filler.fill_form.
  destruct (Filler.data self) as [df|]; [|discriminate].
  destruct (negb (Filler.driver self) || negb (Filler.wait self)) eqn:Hflags; [discriminate|].
  apply orb_false_elim in Hflags. destruct Hflags as [Hd _].
  apply negb_false_iff in Hd. rewrite Hd.
  unfold try_finally, try_except.
  match goal with
  | |- context [match ?m t with _ => _ end] => destruct (m t) as [evs1 [[]|e1]]
  end.
  - unfold Filler.driver_quit, call.
    destruct (ask_unit env (t ++ evs1)%list Quit) as [[]|e2] eqn:Hquit; [discriminate|].
    cbn [fst snd]. intros Heq. injection Heq as <-. exists evs1. split; [reflexivity|exact Hquit].
  - cbn [any_exception]. unfold log, Filler.driver_quit, call.
    destruct (ask_unit env (t ++ evs1 ++ [Log ERROR (ErrorInFormFilling e1)])%list Quit)
      as [[]|e2] eqn:Hquit; [discriminate|].
    cbn [fst snd]. intros Heq. injection Heq as <-.
    exists (evs1 ++ [Log ERROR (ErrorInFormFilling e1)])%list.
    split; [reflexivity|exact Hquit].
Qed.

Lemma fill_form_raises_only_on_quit_witness :
  exists pre,
    fst (Filler.fill_form quit_fails_env (ready_filler (Some two_rows)) [])
    = (pre ++ [Quit])%list /\
    ask_unit quit_fails_env ([] ++ pre)%list Quit = Raise WebDriverException.
Proof.
  apply (fill_form_raises_only_on_quit quit_fails_env (ready_filler (Some two_rows)) []
           WebDriverException).
  vm_compute. reflexivity.
Defined.

(** ** The batch submitter, whatever the browsers answer *)

Lemma appends_refl b st : appends b st st.
Proof.
  split; [apply same_frame_refl|]. split.
  - exists []. rewrite app_nil_r. split; [reflexivity|constructor].
  - exists []. rewrite app_nil_r. reflexivity.
Qed.

Lemma appends_trans b st1 st2 st3 :
  appends b st1 st2 -> appends b st2 st3 -> appends b st1 st3.
Proof.
  intros [Hf1 [[s1 [Hs1 Hc1]] [f1 Hfl1]]] [Hf2 [[s2 [Hs2 Hc2]] [f2 Hfl2]]].
  split; [eapply same_frame_trans; eassumption|]. split.
  - exists (s1 ++ s2)%list. rewrite Hs2, Hs1, app_assoc. split; [reflexivity|].
    apply Forall_app. split; assumption.
  - exists (f1 ++ f2)%list. rewrite Hfl2, Hfl1, app_assoc. reflexivity.
Qed.

Lemma appends_recorded b st st' :
  appends b st st' -> List.length (recorded st) <= List.length (recorded st').
Proof.
  intros [_ [[s [Hs _]] [f Hf]]]. unfold recorded.
  rewrite Hs, Hf, !List.length_app. lia.
Qed.

Lemma appends_one_failed b st phone :
  appends b st (fst (BDO.append_failed phone st)).
Proof.
  split; [repeat split|]. split.
  - exists []. cbn. rewrite app_nil_r. split; [reflexivity|constructor].
  - exists [phone]. reflexivity.
Qed.

Lemma submit_tab_appends b handle phone st :
  appends b st (fst (BDO.submit_tab b handle phone st)).
Proof.
  unfold BDO.submit_tab, BDO.bind, BDO.try_except, BDO.lift, BDO.ret.
  destruct (BDO.switch_to_window (BDO.tab b handle phone)) as [[]|e] eqn:Hswitch;
    [|apply appends_refl].
  destruct (BDO.click_next (BDO.tab b handle phone)) as [[|]|e1] eqn:Hnext; cbn [fst];
    try apply appends_one_failed.
  destruct (BDO.popup_clickable (BDO.tab b handle phone)) as [[]|e2] eqn:Hpopup; cbn [fst];
    try apply appends_one_failed.
  destruct (BDO.click_popup (BDO.tab b handle phone)) as [[]|e3] eqn:Hclick; cbn [fst];
    try apply appends_one_failed.
  split; [repeat split|]. split.
  - exists [phone]. split; [reflexivity|]. constructor; [|constructor].
    exists handle. repeat split; assumption.
  - exists []. cbn. rewrite app_nil_r. reflexivity.
Qed.

Lemma for_tabs_submit_appends b tabs st :
  appends b st (fst (BDO.for_tabs tabs (BDO.submit_tab b) st)).
Proof.
  revert st. induction tabs as [|[handle phone] rest IH]; intros st; [apply appends_refl|].
  cbn [BDO.for_tabs]. unfold BDO.bind.
  pose proof (submit_tab_appends b handle phone st) as H1.
  destruct (BDO.submit_tab b handle phone st) as [st1 [[]|e]]; cbn [fst] in *; [|exact H1].
  eapply appends_trans; [exact H1|apply IH].
Qed.

(** The tabs of a batch: the state after them, and whether all were
    submitted. *)
Lemma run_tabs_appends b phones st :
  exists st' r,
    BDO.run_tabs b phones st = (st', r) /\
    appends b st st' /\
    (r = Ok tt -> phones <> [] -> recorded st' <> []).
Proof.
  assert (Hnone : forall e,
             exists st' r,
               (st, @Raise unit e) = (st', r) /\
               appends b st st' /\
               (r = Ok tt -> phones <> [] -> recorded st' <> [])).
  { intros e. exists st, (Raise e). split; [reflexivity|].
    split; [apply appends_refl|discriminate]. }
  unfold BDO.run_tabs, BDO.bind.
  destruct (BDO.is_chrome b); cbn [negb]; [|apply Hnone].
  unfold BDO.ret at 1, BDO.lift at 1.
  destruct (BDO.open_tabs b (List.length phones - 1)) as [[]|e]; [|apply Hnone].
  unfold BDO.lift at 1.
  destruct (BDO.window_handles b) as [hs|e]; [|apply Hnone].
  unfold BDO.lift at 1.
  destruct (BDO.assign_tabs hs 0 phones []) as [tabs|e] eqn:Htabs; [|apply Hnone].
  pose proof (for_tabs_lift (fun handle _ => BDO.load_form b handle) tabs st) as Hload.
  destruct (BDO.for_tabs tabs (fun handle _ => BDO.lift (BDO.load_form b handle)) st)
    as [st1 [[]|e]]; cbn [fst] in Hload; subst st1; [|apply Hnone].
  pose proof (for_tabs_lift (BDO.fill_tab b) tabs st) as Hfill.
  destruct (BDO.for_tabs tabs (fun handle phone => BDO.lift (BDO.fill_tab b handle phone)) st)
    as [st1 [[]|e]]; cbn [fst] in Hfill; subst st1; [|apply Hnone].
  pose proof (for_tabs_submit_appends b tabs st) as Happ.
  assert (Hrec : snd (BDO.for_tabs tabs (BDO.submit_tab b) st) = Ok tt -> phones <> [] ->
                 recorded (fst (BDO.for_tabs tabs (BDO.submit_tab b) st)) <> []).
  { intros Hok Hne.
    assert (Htabs_ne : tabs <> []).
    { destruct phones as [|phone rest]; [contradiction|].
      cbn [BDO.assign_tabs] in Htabs.
      destruct (nth_error hs 0) as [handle|]; [|discriminate].
      cbn [BDO.dict_set] in Htabs.
      assert (Hgen : forall phones i d tabs',
                 d <> [] -> BDO.assign_tabs hs i phones d = Ok tabs' -> tabs' <> []).
      { clear. induction phones as [|phone rest IH]; intros i d tabs' Hd; cbn [BDO.assign_tabs].
        - intros Heq. injection Heq as <-. exact Hd.
        - destruct (nth_error hs i) as [handle|]; [|discriminate].
          apply IH. destruct d as [|[k v] d]; [contradiction|].
          cbn [BDO.dict_set]. destruct (String.eqb k handle); discriminate. }
      apply (Hgen rest 1 [(handle, phone)] tabs); [discriminate|exact Htabs]. }
    destruct tabs as [|[handle phone] rest]; [contradiction|].
    cbn [BDO.for_tabs] in *. unfold BDO.bind in *.
    pose proof (submit_tab_spec b handle phone st) as Hspec. cbv zeta in Hspec.
    destruct (BDO.submit_tab b handle phone st) as [st1 [[]|e]]; cbn [fst snd] in *;
      [|discriminate].
    pose proof (appends_recorded b st1 _ (for_tabs_submit_appends b rest st1)) as Hgrow.
    destruct Hspec as [[_ [_ Hrec]]|[e [He _]]]; [|discriminate].
    assert (Hlen : 0 < List.length (recorded st1)).
    { unfold recorded. rewrite List.length_app.
      destruct Hrec as [[-> _]|[_ ->]]; rewrite List.length_app; cbn; lia. }
    intros Hnil. rewrite Hnil in Hgrow. cbn in Hgrow. lia. }
  destruct (BDO.for_tabs tabs (BDO.submit_tab b) st) as [st2 r2]. cbn [fst snd] in *.
  exists st2, r2. split; [reflexivity|]. split; [exact Happ|exact Hrec].
Qed.

Lemma fail_unrecorded_appends b phones st :
  exists st',
    BDO.fail_unrecorded phones st = (st', Ok tt) /\
    appends b st st' /\
    (phones <> [] -> recorded st' <> []).
Proof.
  revert st. induction phones as [|phone rest IH]; intros st.
  - exists st. split; [reflexivity|]. split; [apply appends_refl|]. intros H. contradiction.
  - cbn [BDO.fail_unrecorded]. unfold BDO.bind, BDO.get_state.
    destruct (negb (BDO.mem phone (BDO.successful st))
              && negb (BDO.mem phone (BDO.failed st))) eqn:Hcond.
    + pose proof (appends_one_failed b st phone) as H1.
      unfold BDO.append_failed in *. cbn [fst] in H1.
      match goal with
      | |- context [BDO.fail_unrecorded rest ?st1] =>
          destruct (IH st1) as [st2 [Hrun [Happ _]]]; set (s1 := st1) in *
      end.
      exists st2. rewrite Hrun. split; [reflexivity|].
      split; [eapply appends_trans; eassumption|]. intros _ Hnil.
      pose proof (appends_recorded b s1 st2 Happ) as Hgrow.
      rewrite Hnil in Hgrow. unfold recorded, s1 in Hgrow. cbn in Hgrow.
      rewrite !List.length_app in Hgrow. cbn in Hgrow. lia.
    + unfold BDO.ret. destruct (IH st) as [st2 [Hrun [Happ _]]].
      exists st2. rewrite Hrun. split; [reflexivity|]. split; [exact Happ|].
      intros _ Hnil.
      pose proof (appends_recorded b st st2 Happ) as Hgrow.
      rewrite Hnil in Hgrow. cbn in Hgrow.
      assert (Hin : BDO.mem phone (recorded st) = true).
      { unfold recorded. rewrite mem_app.
        destruct (BDO.mem phone (BDO.successful st)), (BDO.mem phone (BDO.failed st));
          try reflexivity; discriminate. }
      apply mem_In in Hin. destruct (recorded st); [contradiction|]. cbn in Hgrow. lia.
Qed.

(** A turn whose browser starts: the batch is cut, and then numbers are only
    appended. *)
Lemma process_one_batch_started b max_tabs st :
  BDO.started b = true ->
  exists st',
    BDO.process_one_batch b max_tabs st = (st', Ok tt) /\
    appends b (fst (BDO.cut_batch (BDO.current_batch_size st max_tabs) st)) st' /\
    (BDO.slice_to (BDO.remaining_numbers st) (BDO.current_batch_size st max_tabs) <> [] ->
     recorded st' <> []).
Proof.
  intros Hstarted.
  unfold BDO.process_one_batch, BDO.try_except, BDO.bind at 1.
  rewrite Hstarted. cbn [negb]. unfold BDO.ret at 1.
  unfold BDO.bind at 1, BDO.get_state at 1.
  unfold BDO.bind at 1, BDO.cut_batch. cbn [fst].
  set (new := BDO.slice_to (BDO.remaining_numbers st) (BDO.current_batch_size st max_tabs)).
  match goal with
  | |- context [BDO.run_tabs b new ?st1] => set (cut := st1)
  end.
  destruct (run_tabs_appends b new cut) as [st1 [r1 [Hrun1 [Happ Hrec]]]].
  rewrite Hrun1. destruct r1 as [[]|e].
  - exists st1. split; [reflexivity|]. split; [exact Happ|]. intros Hne. apply Hrec; auto.
  - unfold BDO.on_batch_error, BDO.bind, BDO.get_state.
    assert (Hbatch : BDO.batch st1 = Some new).
    { destruct Happ as [[_ [Hb _]] _]. rewrite Hb. reflexivity. }
    rewrite Hbatch.
    destruct (fail_unrecorded_appends b new st1) as [st2 [Hrun [Happ2 Hrec2]]].
    rewrite Hrun. exists st2. split; [reflexivity|].
    split; [eapply appends_trans; eassumption|exact Hrec2].
Qed.

(** A turn whose browser does not start, after a batch has been cut: the
    old batch is looked at again, and no number is taken from those that
    remain. *)
Lemma process_one_batch_not_started b max_tabs st :
  BDO.started b = false ->
  BDO.batch st <> None ->
  exists st',
    BDO.process_one_batch b max_tabs st = (st', Ok tt) /\ appends b st st'.
Proof.
  intros Hstarted Hbatch.
  unfold BDO.process_one_batch, BDO.try_except, BDO.bind at 1.
  rewrite Hstarted. cbn [negb]. unfold BDO.raise at 1.
  unfold BDO.on_batch_error, BDO.bind, BDO.get_state.
  destruct (BDO.batch st) as [phones|]; [|contradiction].
  destruct (fail_unrecorded_appends b phones st) as [st2 [Hrun [Happ _]]].
  rewrite Hrun. exists st2. split; [reflexivity|exact Happ].
Qed.

Lemma first_turn_unbound browsers phone_numbers max_tabs fuel :
  phone_numbers <> [] ->
  BDO.started (browsers 0) = false ->
  BDO.process_batch (S fuel) browsers phone_numbers max_tabs
  = Some (BDO.initial_state phone_numbers, Raise (UnboundLocalError "batch")).
Proof.
  intros Hne Hstarted. unfold BDO.process_batch. cbn [BDO.batch_loop].
  destruct phone_numbers as [|phone rest]; [contradiction|].
  cbn [BDO.initial_state BDO.remaining_numbers].
  unfold BDO.process_one_batch, BDO.try_except, BDO.bind at 1.
  rewrite Hstarted. reflexivity.
Qed.

(** X12.  When the browser of the first turn does not start, the handler of the
    loop reads the variable [batch] before any batch was cut: the error
    leaves [process_batch], and no number is recorded. *)
Theorem first_browser_must_start (browsers : nat -> BDO.Browser)
        (phone_numbers : list string) (max_tabs : Z) (fuel : nat) :
  phone_numbers <> [] ->
  BDO.started (browsers 0) = false ->
  BDO.process_batch (S fuel) browsers phone_numbers max_tabs
  = Some (BDO.initial_state phone_numbers, Raise (UnboundLocalError "batch")).
Proof. apply first_turn_unbound. Qed.

Lemma first_browser_must_start_witness :
  BDO.process_batch 1 (fun _ => BDO.dead_browser) scenario_numbers 20
  = Some (BDO.initial_state scenario_numbers, Raise (UnboundLocalError "batch")).
Proof.
  apply (first_browser_must_start (fun _ => BDO.dead_browser) scenario_numbers 20 0).
  - discriminate.
  - reflexivity.
Defined.

Lemma batch_loop_spins browsers max_tabs :
  forall fuel turn st,
    BDO.batch st <> None ->
    BDO.remaining_numbers st <> [] ->
    (forall k, turn <= k -> BDO.started (browsers k) = false) ->
    BDO.batch_loop fuel browsers turn max_tabs st = None.
Proof.
  induction fuel as [|fuel IH]; intros turn st Hbatch Hrem Hdead; [reflexivity|].
  cbn [BDO.batch_loop].
  destruct (BDO.remaining_numbers st) as [|phone rest] eqn:Hst; [contradiction|].
  destruct (process_one_batch_not_started (browsers turn) max_tabs st
              (Hdead turn (Nat.le_refl _)) Hbatch) as [st' [Hrun [[Hr [Hb _]] _]]].
  rewrite Hrun. apply IH.
  - rewrite Hb. exact Hbatch.
  - rewrite Hr, Hst. discriminate.
  - intros k Hk. apply Hdead. lia.
Qed.

Lemma skipn_nonempty {X} (l : list X) n : n < List.length l -> skipn n l <> [].
Proof.
  intros Hlt Hnil. pose proof (length_skipn n l) as Hlen.
  rewrite Hnil in Hlen. cbn in Hlen. lia.
Qed.

Lemma firstn_nonempty {X} (l : list X) n : 0 < n -> l <> [] -> firstn n l <> [].
Proof. destruct n, l; cbn; intros; try lia; try contradiction; discriminate. Qed.

(** The first turn of a run over more than 20 numbers, with a browser that
    starts. *)
Lemma first_turn browsers phone_numbers max_tabs :
  BDO.started (browsers 0) = true ->
  20 < List.length phone_numbers ->
  exists st',
    BDO.process_one_batch (browsers 0) max_tabs (BDO.initial_state phone_numbers)
    = (st', Ok tt) /\
    BDO.batch st' <> None /\
    BDO.remaining_numbers st' <> [] /\
    recorded st' <> [].
Proof.
  intros Hstarted Hlen.
  destruct (process_one_batch_started (browsers 0) max_tabs
              (BDO.initial_state phone_numbers) Hstarted)
    as [st' [Hrun [[[Hr [Hb _]] _] Hrec]]].
  exists st'. split; [exact Hrun|].
  cbn in Hr, Hb, Hrec.
  split; [rewrite Hb; discriminate|]. split.
  - rewrite Hr. apply skipn_nonempty. exact Hlen.
  - apply Hrec. apply firstn_nonempty; [lia|]. intros ->. cbn in Hlen. lia.
Qed.

(** X13.  When the browser starts for the first batch but can never be started
    again, and numbers remain after the first batch, the loop goes on for
    ever: each turn finds the old batch already recorded and takes no number
    from those that remain. *)
Theorem browser_failures_retried_forever (browsers : nat -> BDO.Browser)
        (phone_numbers : list string) (max_tabs : Z) (fuel : nat) :
  BDO.started (browsers 0) = true ->
  (forall turn, 1 <= turn -> BDO.started (browsers turn) = false) ->
  20 < List.length phone_numbers ->
  BDO.process_batch fuel browsers phone_numbers max_tabs = None.
Proof.
  intros Hfirst Hdead Hlen. destruct fuel as [|fuel]; [reflexivity|].
  unfold BDO.process_batch. cbn [BDO.batch_loop].
  destruct phone_numbers as [|phone rest] eqn:Hphones; [cbn in Hlen; lia|].
  cbn [BDO.initial_state BDO.remaining_numbers]. rewrite <- Hphones in *.
  fold (BDO.initial_state phone_numbers).
  destruct (first_turn browsers phone_numbers max_tabs Hfirst Hlen)
    as [st' [Hrun [Hb [Hr _]]]].
  rewrite Hrun. apply batch_loop_spins; assumption.
Qed.

Lemma browser_failures_retried_forever_witness :
  BDO.process_batch 1000 only_first_browser scenario_numbers 20 = None.
Proof.
  apply (browser_failures_retried_forever only_first_browser scenario_numbers 20 1000).
  - reflexivity.
  - intros [|turn] H; [lia|reflexivity].
  - cbn. lia.
Defined.

Lemma slice_from_nonempty {X} (l : list X) (k : Z) :
  (k <= 0)%Z -> l <> [] -> BDO.slice_from l k <> [].
Proof.
  intros Hk Hne. unfold BDO.slice_from.
  assert (Hlen : 0 < List.length l) by (destruct l; [contradiction|cbn; lia]).
  destruct (0 <=? k)%Z eqn:Hsign.
  - apply Z.leb_le in Hsign. replace k with 0%Z by lia. exact Hne.
  - apply Z.leb_gt in Hsign. apply skipn_nonempty. lia.
Qed.

Lemma batch_size_later st max_tabs :
  recorded st <> [] -> BDO.current_batch_size st max_tabs = max_tabs.
Proof.
  unfold BDO.current_batch_size, recorded. intros Hne.
  destruct (BDO.successful st), (BDO.failed st); try reflexivity. contradiction.
Qed.

Lemma appends_nonempty b st st' : appends b st st' -> recorded st <> [] -> recorded st' <> [].
Proof.
  intros Happ Hne Hnil. apply appends_recorded in Happ. rewrite Hnil in Happ.
  destruct (recorded st); [contradiction|cbn in Happ; lia].
Qed.

Lemma batch_loop_stalls browsers max_tabs :
  (max_tabs <= 0)%Z ->
  forall fuel turn st,
    BDO.batch st <> None ->
    BDO.remaining_numbers st <> [] ->
    recorded st <> [] ->
    BDO.batch_loop fuel browsers turn max_tabs st = None.
Proof.
  intros Hmax. induction fuel as [|fuel IH]; intros turn st Hbatch Hrem Hrec; [reflexivity|].
  cbn [BDO.batch_loop].
  destruct (BDO.remaining_numbers st) as [|phone rest] eqn:Hst; [contradiction|].
  destruct (BDO.started (browsers turn)) eqn:Hstarted.
  - destruct (process_one_batch_started (browsers turn) max_tabs st Hstarted)
      as [st' [Hrun [Happ _]]].
    rewrite Hrun. rewrite (batch_size_later st max_tabs Hrec) in Happ.
    pose proof Happ as [[Hr [Hb _]] _]. cbn in Hr, Hb.
    apply IH.
    + rewrite Hb. discriminate.
    + rewrite Hr, Hst. apply slice_from_nonempty; [exact Hmax|discriminate].
    + apply (appends_nonempty _ _ _ Happ). exact Hrec.
  - destruct (process_one_batch_not_started (browsers turn) max_tabs st Hstarted Hbatch)
      as [st' [Hrun Happ]].
    rewrite Hrun. pose proof Happ as [[Hr [Hb _]] _].
    apply IH.
    + rewrite Hb. exact Hbatch.
    + rewrite Hr, Hst. discriminate.
    + apply (appends_nonempty _ _ _ Happ). exact Hrec.
Qed.

(** X14.  With a tab bound that is not positive and more than 20 numbers, the
    function never returns its two lists, whatever the browsers do: either
    the first browser does not start and the error of the unbound batch
    leaves the function, or the loop goes on for ever, since after the first
    batch no turn takes the last of the numbers that remain. *)
Theorem tab_bound_must_be_positive (browsers : nat -> BDO.Browser)
        (phone_numbers : list string) (max_tabs : Z) (fuel : nat) :
  (max_tabs <= 0)%Z ->
  20 < List.length phone_numbers ->
  BDO.process_batch fuel browsers phone_numbers max_tabs = None \/
  BDO.process_batch fuel browsers phone_numbers max_tabs
  = Some (BDO.initial_state phone_numbers, Raise (UnboundLocalError "batch")).
Proof.
  intros Hmax Hlen. destruct fuel as [|fuel]; [left; reflexivity|].
  assert (Hne : phone_numbers <> []) by (intros ->; cbn in Hlen; lia).
  destruct (BDO.started (browsers 0)) eqn:Hstarted.
  - left. unfold BDO.process_batch. cbn [BDO.batch_loop].
    destruct phone_numbers as [|phone rest] eqn:Hphones; [contradiction|].
    cbn [BDO.initial_state BDO.remaining_numbers]. rewrite <- Hphones in *.
    fold (BDO.initial_state phone_numbers).
    destruct (first_turn browsers phone_numbers max_tabs Hstarted Hlen)
      as [st' [Hrun [Hb [Hr Hrec]]]].
    rewrite Hrun. apply batch_loop_stalls; assumption.
  - right. apply first_turn_unbound; assumption.
Qed.

Lemma tab_bound_must_be_positive_witness :
  BDO.process_batch 500 (fun _ => BDO.working_browser) scenario_numbers 0 = None \/
  BDO.process_batch 500 (fun _ => BDO.working_browser) scenario_numbers 0
  = Some (BDO.initial_state scenario_numbers, Raise (UnboundLocalError "batch")).
Proof.
  apply (tab_bound_must_be_positive (fun _ => BDO.working_browser) scenario_numbers 0 500).
  - lia.
  - cbn. lia.
Defined.

Lemma appends_confirmed browsers turn st st' :
  all_confirmed browsers st -> appends (browsers turn) st st' -> all_confirmed browsers st'.
Proof.
  intros Hall [_ [[s [Hs Hc]] _]] phone Hin. rewrite Hs in Hin.
  apply in_app_or in Hin. destruct Hin as [Hin|Hin]; [apply Hall; exact Hin|].
  rewrite Forall_forall in Hc. destruct (Hc phone Hin) as [handle Hconf].
  exists turn, handle. exact Hconf.
Qed.

Lemma batch_loop_confirmed browsers max_tabs :
  forall fuel turn st st' r,
    all_confirmed browsers st ->
    BDO.batch_loop fuel browsers turn max_tabs st = Some (st', r) ->
    all_confirmed browsers st'.
Proof.
  induction fuel as [|fuel IH]; intros turn st st' r Hall; [discriminate|].
  cbn [BDO.batch_loop].
  destruct (BDO.remaining_numbers st) as [|phone rest] eqn:Hst.
  - intros Heq. injection Heq as <- _. exact Hall.
  - destruct (BDO.started (browsers turn)) eqn:Hstarted.
    + destruct (process_one_batch_started (browsers turn) max_tabs st Hstarted)
        as [st1 [Hrun [Happ _]]].
      rewrite Hrun. apply IH.
      refine (appends_confirmed browsers turn _ _ _ Happ). exact Hall.
    + destruct (BDO.batch st) as [phones|] eqn:Hbatch.
      * destruct (process_one_batch_not_started (browsers turn) max_tabs st Hstarted)
          as [st1 [Hrun Happ]]; [rewrite Hbatch; discriminate|].
        rewrite Hrun. apply IH. exact (appends_confirmed browsers turn _ _ Hall Happ).
      * unfold BDO.process_one_batch, BDO.try_except, BDO.bind at 1.
        rewrite Hstarted. cbn [negb]. unfold BDO.raise at 1.
        unfold BDO.on_batch_error, BDO.bind, BDO.get_state. rewrite Hbatch.
        unfold BDO.raise. intros Heq. injection Heq as <- _. exact Hall.
Qed.

(** X15.  A number is recorded as successful only if, in a tab of one of the
    browsers, the click on Next returned true, the popup button became
    clickable and the click on it did not raise. *)
Theorem success_only_when_confirmed (browsers : nat -> BDO.Browser)
        (phone_numbers : list string) (max_tabs : Z) (fuel : nat)
        (st : BDO.State) (r : result unit) (phone : string) :
  BDO.process_batch fuel browsers phone_numbers max_tabs = Some (st, r) ->
  In phone (BDO.successful st) ->
  exists turn handle, confirmed (BDO.tab (browsers turn) handle phone).
Proof.
  intros Hrun Hin.
  apply (batch_loop_confirmed browsers max_tabs fuel 0 _ st r) in Hrun.
  - exact (Hrun phone Hin).
  - intros p [].
Qed.

Lemma success_only_when_confirmed_witness :
  exists turn handle,
    confirmed (BDO.tab ((fun _ : nat => BDO.working_browser) turn) handle "639171000000").
Proof.
  eapply (success_only_when_confirmed (fun _ => BDO.working_browser) scenario_numbers 20 3).
  - vm_compute. reflexivity.
  - vm_compute. left. reflexivity.
Defined.

(** ** The data sent to the form *)

Lemma str_to_length s k : String.length (BDO.str_to s k) = Nat.min k (String.length s).
Proof.
  revert s. induction k as [|k IH]; intros [|c s]; cbn [BDO.str_to String.length Nat.min];
    try reflexivity.
  rewrite IH. reflexivity.
Qed.

Lemma str_to_all s k : String.length s <= k -> BDO.str_to s k = s.
Proof.
  revert s. induction k as [|k IH]; intros [|c s]; cbn [BDO.str_to String.length];
    try reflexivity; intros H; [lia|].
  rewrite IH by lia. reflexivity.
Qed.

Lemma str_to_skip s k : (BDO.str_to s k ++ BDO.str_skip s k)%string = s.
Proof.
  revert s. induction k as [|k IH]; intros [|c s]; cbn [BDO.str_to BDO.str_skip append];
    try reflexivity.
  rewrite IH. reflexivity.
Qed.

Lemma str_skip_length s k : String.length (BDO.str_skip s k) = String.length s - k.
Proof.
  revert s. induction k as [|k IH]; intros [|c s]; cbn [BDO.str_skip String.length];
    try reflexivity; try lia.
  apply IH.
Qed.

(** X16.  The data derived from a phone number: the two names are the same and
    have at most 20 characters, the phone has at most 11, the email at most
    40; the phone is the end of the number; and the email is the number
    followed by "@gmail.com" exactly when the number has at most 30
    characters, a longer number losing part of the domain. *)
Theorem form_data_bounds (phone_number : string) :
  let data := BDO.form_data phone_number in
  BDO.lastName data = BDO.firstName data /\
  String.length (BDO.firstName data) = Nat.min 20 (String.length phone_number) /\
  String.length (BDO.phone data) = Nat.min 11 (String.length phone_number) /\
  String.length (BDO.email data) = Nat.min 40 (String.length phone_number + 10) /\
  (exists front, phone_number = (front ++ BDO.phone data)%string) /\
  (BDO.email data = (phone_number ++ "@gmail.com")%string
   <-> String.length phone_number <= 30).
Proof.
  cbv zeta. unfold BDO.form_data. cbn [BDO.firstName BDO.lastName BDO.phone BDO.email].
  split; [reflexivity|]. split; [apply str_to_length|]. split.
  { unfold BDO.str_last. rewrite str_skip_length. lia. }
  split.
  { rewrite str_to_length, length_app. reflexivity. }
  split.
  { unfold BDO.str_last.
    exists (BDO.str_to phone_number (String.length phone_number - 11)).
    symmetry. apply str_to_skip. }
  split.
  - intros Heq. apply (f_equal String.length) in Heq.
    rewrite str_to_length, length_app in Heq. cbn [String.length] in Heq. lia.
  - intros Hlen. apply str_to_all. rewrite length_app. cbn [String.length]. lia.
Qed.

(** ** Loading the template *)

(** X17.  Loading succeeds exactly when the file is read and the frame has at
    least one row and one column; the frame is then the data of the filler
    and its number of rows is logged.  The record "No data rows found" is
    never written: a frame without rows is already reported as empty.  When
    the file cannot be read the filler is left as it was, but a frame that is
    read and found empty becomes its data all the same. *)
Theorem load_excel_data_outcome (read_excel : result (option Filler.DataFrame))
        (self : Filler.FormFiller) :
  let '(self', records, loaded) := Filler.load_excel_data read_excel self in
  (loaded = true <->
   exists df, read_excel = Ok (Some df) /\ Filler.rows df <> [] /\ Filler.columns df <> []) /\
  (forall df, read_excel = Ok (Some df) ->
     Filler.data self' = Some df /\
     (loaded = true -> records = [Filler.LoadedRows (List.length (Filler.rows df))])) /\
  ~ In Filler.NoDataRows records /\
  (forall e, read_excel = Raise e -> self' = self /\ records = [Filler.ErrorLoading e]).
Proof.
  unfold Filler.load_excel_data.
  destruct read_excel as [[df|]|e]; cbv zeta.
  - unfold Filler.empty.
    destruct (Filler.columns df) as [|c cs] eqn:Hc; destruct (Filler.rows df) as [|r rs] eqn:Hr;
      cbn [List.length Nat.eqb].
    all: split; [split; [discriminate || (intros _; exists df; rewrite Hc, Hr;
                                          repeat split; discriminate)
                        |intros [df' [Heq [Hrows Hcols]]]; injection Heq as <-;
                         rewrite ?Hc, ?Hr in *; try contradiction; reflexivity]|].
    all: split; [intros df' Heq; injection Heq as <-; split;
                 [reflexivity|try discriminate; intros _; rewrite ?Hr; reflexivity]|].
    all: split; [intros [H|[]]; discriminate H|intros e H; discriminate H].
  - split; [split; [discriminate|intros [df [H _]]; discriminate H]|].
    split; [intros df H; discriminate H|].
    split; [intros [H|[]]; discriminate H|intros e H; discriminate H].
  - split; [split; [discriminate|intros [df [H _]]; discriminate H]|].
    split; [intros df H; discriminate H|].
    split; [intros [H|[]]; discriminate H|].
    intros e' H. injection H as <-. split; reflexivity.
Qed.

(** * The analysis of a form *)

(** ** Reasoning about computations over any calls *)

Lemma tpost_ret {call A} (a : A) (t : list call) (Q : list call -> result A -> Prop) :
  Q [] (Ok a) -> tpost (Traced.ret a) t Q.
Proof. exact (fun H => H). Qed.

Lemma tpost_raise {call A} e (t : list call) (Q : list call -> result A -> Prop) :
  Q [] (Raise e) -> tpost (Traced.raise e) t Q.
Proof. exact (fun H => H). Qed.

Lemma tpost_ask {call A} (oracle : list call -> call -> result A) c t Q :
  Q [c] (oracle t c) -> tpost (Traced.ask oracle c) t Q.
Proof. exact (fun H => H). Qed.

Lemma tpost_emit {call} (c : call) t (Q : list call -> result unit -> Prop) :
  Q [c] (Ok tt) -> tpost (Traced.emit c) t Q.
Proof. exact (fun H => H). Qed.

Lemma tpost_bind {call A B} (m : Traced.T call A) (k : A -> Traced.T call B) t Q :
  tpost m t (fun evs1 r1 =>
               match r1 with
               | Ok a => tpost (k a) (t ++ evs1)%list (fun evs2 r => Q (evs1 ++ evs2)%list r)
               | Raise e => Q evs1 (Raise e)
               end) ->
  tpost (Traced.bind m k) t Q.
Proof.
  unfold tpost, Traced.bind. destruct (m t) as [evs1 [a|e]]; simpl; auto.
  destruct (k a (t ++ evs1)%list); auto.
Qed.

Lemma tpost_try_except {call A} (m : Traced.T call A) (catches : exn -> bool) handler t Q :
  tpost m t (fun evs1 r1 =>
               match r1 with
               | Ok a => Q evs1 (Ok a)
               | Raise e =>
                   if catches e
                   then tpost (handler e) (t ++ evs1)%list
                          (fun evs2 r => Q (evs1 ++ evs2)%list r)
                   else Q evs1 (Raise e)
               end) ->
  tpost (Traced.try_except m catches handler) t Q.
Proof.
  unfold tpost, Traced.try_except. destruct (m t) as [evs1 [a|e]]; simpl; auto.
  destruct (catches e); auto. destruct (handler e (t ++ evs1)%list); auto.
Qed.

Lemma tpost_try_finally {call A} (m : Traced.T call A) cleanup t Q :
  tpost m t (fun evs1 r1 =>
               tpost cleanup (t ++ evs1)%list
                 (fun evs2 r2 =>
                    match r2 with
                    | Ok _ => Q (evs1 ++ evs2)%list r1
                    | Raise e => Q (evs1 ++ evs2)%list (Raise e)
                    end)) ->
  tpost (Traced.try_finally m cleanup) t Q.
Proof.
  unfold tpost, Traced.try_finally. destruct (m t) as [evs1 r1]; simpl.
  destruct (cleanup (t ++ evs1)%list) as [evs2 [u|e]]; auto.
Qed.

Lemma tpost_conseq {call A} (m : Traced.T call A) t (Q Q' : list call -> result A -> Prop) :
  tpost m t Q -> (forall evs r, Q evs r -> Q' evs r) -> tpost m t Q'.
Proof. unfold tpost. auto. Qed.

Lemma tpost_any {call A} (m : Traced.T call A) t (Q : list call -> result A -> Prop) :
  (forall evs r, Q evs r) -> tpost m t Q.
Proof. unfold tpost. auto. Qed.

Ltac tstep :=
  match goal with
  | |- tpost (Traced.bind _ _) _ _ => apply tpost_bind
  | |- tpost (Traced.try_except _ _ _) _ _ => apply tpost_try_except
  | |- tpost (Traced.try_finally _ _) _ _ => apply tpost_try_finally
  | |- tpost (Traced.ret _) _ _ => apply tpost_ret
  | |- tpost (Traced.raise _) _ _ => apply tpost_raise
  | |- tpost (Traced.emit _) _ _ => apply tpost_emit
  | |- tpost (Traced.ask _ _) _ _ => apply tpost_ask
  end.

(** ** Stripped strings *)

Lemma lstrip_head s :
  match Analysis.lstrip s with
  | EmptyString => True
  | String c _ => Analysis.is_space c = false
  end.
Proof.
  induction s as [|c s IH]; [exact I|]. cbn [Analysis.lstrip].
  destruct (Analysis.is_space c) eqn:Hc; [exact IH|exact Hc].
Qed.

Lemma rstrip_idempotent s : Analysis.rstrip (Analysis.rstrip s) = Analysis.rstrip s.
Proof.
  induction s as [|c s IH]; [reflexivity|]. cbn [Analysis.rstrip].
  destruct (Analysis.rstrip s) as [|c' r] eqn:Hr.
  - destruct (Analysis.is_space c) eqn:Hc; [reflexivity|].
    cbn [Analysis.rstrip]. rewrite Hc. reflexivity.
  - cbn [Analysis.rstrip] in *. rewrite IH. reflexivity.
Qed.

Lemma rstrip_head c s :
  Analysis.is_space c = false ->
  exists r, Analysis.rstrip (String c s) = String c r.
Proof.
  intros Hc. cbn [Analysis.rstrip]. destruct (Analysis.rstrip s) as [|c' r].
  - rewrite Hc. eexists. reflexivity.
  - eexists. reflexivity.
Qed.

Lemma strip_idempotent s : Analysis.strip (Analysis.strip s) = Analysis.strip s.
Proof.
  unfold Analysis.strip. pose proof (lstrip_head s) as Hhead.
  destruct (Analysis.lstrip s) as [|c u]; [reflexivity|].
  destruct (rstrip_head c u Hhead) as [r Hr]. rewrite Hr.
  cbn [Analysis.lstrip]. rewrite Hhead, <- Hr. apply rstrip_idempotent.
Qed.

(** ** The label of a field *)

Lemma label_by_stripped env lookup t :
  tpost (Analysis.label_by env lookup) t
        (fun _ r =>
           match r with
           | Ok (Some label) => Analysis.strip label = label
           | Ok None => True
           | Raise _ => True
           end).
Proof.
  unfold Analysis.label_by, Analysis.text. tstep. tstep.
  apply tpost_any. intros evs1 [label_elem|e].
  - tstep. tstep. destruct (Analysis.ask_str env _ _) as [txt|e].
    + tstep. apply strip_idempotent.
    + destruct (Analysis.no_such_element e); [tstep; exact I|exact I].
  - destruct (Analysis.no_such_element e); [tstep; exact I|exact I].
Qed.

(** X18.  Whatever the browser answers, the text that [find_label_text] returns
    has no white space at either end: stripping it again changes nothing. *)
Theorem find_label_text_stripped (env : Analysis.Browser) (driver : bool)
        (field : WebElement) (t : list Analysis.call) :
  match snd (Analysis.find_label_text env driver field t) with
  | Ok label => Analysis.strip label = label
  | Raise _ => True
  end.
Proof.
  change (tpost (Analysis.find_label_text env driver field) t
                (fun _ r => match r with
                            | Ok label => Analysis.strip label = label
                            | Raise _ => True
                            end)).
  unfold Analysis.find_label_text. destruct driver; cbn [negb]; [|tstep; reflexivity].
  unfold Analysis.get_attribute. tstep. tstep.
  destruct (Analysis.ask_attr env t _) as [field_id|e]; [|exact I].
  assert (Hrest : forall t',
             tpost (Traced.bind
                      (Analysis.label_by env
                         (Analysis.element_find_element env field XPATH "./ancestor::label"))
                      (fun by_ancestor =>
                         match by_ancestor with
                         | Some label => Traced.ret label
                         | None =>
                             Traced.bind
                               (Analysis.label_by env
                                  (Analysis.element_find_element env field XPATH "../label"))
                               (fun by_sibling =>
                                  match by_sibling with
                                  | Some label => Traced.ret label
                                  | None => Traced.ret ""
                                  end)
                         end)) t'
                   (fun _ r => match r with
                               | Ok label => Analysis.strip label = label
                               | Raise _ => True
                               end)).
  { intros t'. tstep. eapply tpost_conseq; [apply label_by_stripped|].
    intros evs1 [[label|]|e] H; [tstep; exact H| |exact H].
    tstep. eapply tpost_conseq; [apply label_by_stripped|].
    intros evs2 [[label|]|e] H2; [tstep; exact H2|tstep; reflexivity|exact H2]. }
  tstep. destruct (truthy (Analysis.or_else field_id "")).
  - eapply tpost_conseq; [apply label_by_stripped|].
    intros evs1 [[label|]|e] H; [tstep; exact H| |exact H]. apply Hrest.
  - tstep. apply Hrest.
Qed.

(** ** The description of a field *)

Lemma or_else_nonempty value default : default <> "" -> Analysis.or_else value default <> "".
Proof.
  intros Hd. unfold Analysis.or_else. destruct value as [[|c v]|]; cbn; try exact Hd.
  discriminate.
Qed.

Lemma truthy_nonempty s : truthy s = true -> s <> "".
Proof. destruct s; [discriminate|intros _; discriminate]. Qed.

Lemma header_nonempty info : Analyzer.label info <> "" -> Analyzer.header info <> "".
Proof.
  unfold Analyzer.header. intros Hl. destruct (Analyzer.required info); [|exact Hl].
  destruct (Analyzer.label info); [contradiction|discriminate].
Qed.

Lemma get_field_info_post env driver field t :
  tpost (Analysis.get_field_info env driver field) t
        (fun _ r =>
           match r with
           | Ok (Some info) => describable info
           | Ok None => True
           | Raise _ => False
           end).
Proof.
  unfold Analysis.get_field_info, Analysis.read_required, Analysis.get_attribute, Analysis.log.
  tstep. tstep. tstep. destruct (Analysis.ask_attr env t _) as [type_attr|e];
    [|cbn [any_exception]; tstep; tstep; tstep; exact I].
  cbv zeta. tstep. tstep. destruct (Analysis.ask_attr env _ _) as [id_attr|e];
    [|cbn [any_exception]; tstep; tstep; tstep; exact I].
  tstep. tstep. destruct (Analysis.ask_attr env _ _) as [name_attr|e];
    [|cbn [any_exception]; tstep; tstep; tstep; exact I].
  tstep. tstep. destruct (Analysis.ask_attr env _ _) as [placeholder_attr|e];
    [|cbn [any_exception]; tstep; tstep; tstep; exact I].
  tstep. apply tpost_any. intros evs1 [label|e];
    [|cbn [any_exception]; tstep; tstep; tstep; exact I].
  match goal with
  | |- tpost (if negb (truthy ?l) then _ else _) _ _ => destruct (truthy l) eqn:Hlabel
  end; cbn [negb]; [|tstep; exact I].
  tstep. tstep. tstep. destruct (Analysis.ask_attr env _ _) as [[required|]|e];
    [tstep; tstep| |cbn [any_exception]; tstep; tstep; tstep; exact I].
  - split; [|split]; cbn [Analyzer.label Analyzer.field_type].
    + apply truthy_nonempty. exact Hlabel.
    + apply or_else_nonempty. discriminate.
    + apply header_nonempty. apply truthy_nonempty. exact Hlabel.
  - tstep. tstep. destruct (Analysis.ask_attr env _ _) as [aria|e];
      [tstep; tstep|cbn [any_exception]; tstep; tstep; tstep; exact I].
    split; [|split]; cbn [Analyzer.label Analyzer.field_type].
    + apply truthy_nonempty. exact Hlabel.
    + apply or_else_nonempty. discriminate.
    + apply header_nonempty. apply truthy_nonempty. exact Hlabel.
Qed.

(** X19.  Whatever the browser answers, [get_field_info] returns: an exception
    raised by any of its calls is logged and gives [None].  A field that it
    describes has a label and a type that are not empty, and so a header
    that is not empty. *)
Theorem get_field_info_returns (env : Analysis.Browser) (driver : bool)
        (field : WebElement) (t : list Analysis.call) :
  exists evs info,
    Analysis.get_field_info env driver field t = (evs, Ok info) /\
    match info with
    | Some described =>
        Analyzer.label described <> "" /\
        Analyzer.field_type described <> "" /\
        Analyzer.header described <> ""
    | None => True
    end.
Proof.
  pose proof (get_field_info_post env driver field t) as H. unfold tpost in H.
  destruct (Analysis.get_field_info env driver field t) as [evs [info|e]]; cbn [fst snd] in H.
  - exists evs, info. split; [reflexivity|]. destruct info; exact H.
  - contradiction.
Qed.

(** ** The analysis of a document *)

Lemma substring_all s rest : substring 0 (String.length s) (s ++ rest) = s.
Proof. induction s as [|c s IH]; [destruct rest; reflexivity|]. cbn. rewrite IH. reflexivity. Qed.

Lemma label_selector_decoded d t field_id :
  Analysis.ask_element (Analysis.document_env d) t
    (Analysis.FindElement CSS_SELECTOR ("label[for='" ++ field_id ++ "']"))
  = Analysis.found (Analysis.label_for d field_id).
Proof.
  cbn [Analysis.document_env Analysis.ask_element].
  rewrite (prefix_app "label[for='" "label[for='" (field_id ++ "']") (prefix_refl _)).
  rewrite !length_app. cbn [String.length].
  replace (11 + (String.length field_id + 2) - 13) with (String.length field_id) by lia.
  cbn [append substring]. rewrite substring_all. reflexivity.
Qed.

Lemma label_by_found d (lookup : Analysis.An WebElement) t c (o : option WebElement) :
  lookup t = ([c], Analysis.found o) ->
  snd (Analysis.label_by (Analysis.document_env d) lookup t)
  = Ok (match o with
        | Some l => Some (Analysis.strip (Analysis.inner_text d l))
        | None => None
        end).
Proof.
  intros Hlookup. unfold Analysis.label_by, Traced.try_except, Traced.bind.
  rewrite Hlookup. destruct o as [l|]; reflexivity.
Qed.

Lemma find_label_text_document d field t :
  snd (Analysis.find_label_text (Analysis.document_env d) true field t)
  = Ok (document_label d field).
Proof.
  match goal with |- snd (?m t) = ?r => change (tpost m t (fun _ x => x = r)) end.
  unfold Analysis.find_label_text, document_label. cbn [negb]. cbv zeta.
  unfold Analysis.get_attribute at 1. tstep. tstep.
  cbn [Analysis.document_env Analysis.ask_attr].
  assert (Hrest : forall t',
             tpost (Traced.bind
                      (Analysis.label_by (Analysis.document_env d)
                         (Analysis.element_find_element (Analysis.document_env d)
                            field XPATH "./ancestor::label"))
                      (fun by_ancestor =>
                         match by_ancestor with
                         | Some label => Traced.ret label
                         | None =>
                             Traced.bind
                               (Analysis.label_by (Analysis.document_env d)
                                  (Analysis.element_find_element (Analysis.document_env d)
                                     field XPATH "../label"))
                               (fun by_sibling =>
                                  match by_sibling with
                                  | Some label => Traced.ret label
                                  | None => Traced.ret ""
                                  end)
                         end)) t'
                   (fun _ x =>
                      x = Ok match Analysis.ancestor_label d field with
                             | Some l => Analysis.strip (Analysis.inner_text d l)
                             | None =>
                                 match Analysis.sibling_label d field with
                                 | Some l => Analysis.strip (Analysis.inner_text d l)
                                 | None => ""
                                 end
                             end)).
  { intros t'. tstep. unfold tpost at 1.
    rewrite (label_by_found d _ t' _ (Analysis.ancestor_label d field)) by reflexivity.
    destruct (Analysis.ancestor_label d field) as [l|]; [tstep; reflexivity|].
    tstep. unfold tpost at 1.
    rewrite (label_by_found d _ _ _ (Analysis.sibling_label d field)) by reflexivity.
    destruct (Analysis.sibling_label d field) as [l|]; tstep; reflexivity. }
  tstep.
  destruct (truthy (Analysis.or_else (Analysis.attribute d field "id") "")).
  - unfold tpost at 1.
    rewrite (label_by_found d _ _ _
               (Analysis.label_for d (Analysis.or_else (Analysis.attribute d field "id") "")))
      by (unfold Analysis.find_element, Traced.ask; rewrite label_selector_decoded; reflexivity).
    destruct (Analysis.label_for d (Analysis.or_else (Analysis.attribute d field "id") ""))
      as [l|]; [tstep; reflexivity|apply Hrest].
  - tstep. apply Hrest.
Qed.

Lemma str_or_first_nonempty a b c d' :
  Analysis.str_or a (Analysis.str_or b (Analysis.str_or c d')) = first_nonempty [a; b; c; d'].
Proof.
  unfold Analysis.str_or. cbn [first_nonempty].
  destruct (truthy a), (truthy b), (truthy c); try reflexivity.
  destruct d'; reflexivity.
Qed.

Lemma get_field_info_document d field t :
  snd (Analysis.get_field_info (Analysis.document_env d) true field t)
  = Ok (document_field d field).
Proof.
  match goal with |- snd (?m t) = ?r => change (tpost m t (fun _ x => x = r)) end.
  unfold Analysis.get_field_info, Analysis.read_required, document_field.
  unfold Analysis.get_attribute. cbv zeta.
  tstep. tstep. tstep. cbn [Analysis.document_env Analysis.ask_attr].
  tstep. tstep. cbn [Analysis.document_env Analysis.ask_attr].
  tstep. tstep. cbn [Analysis.document_env Analysis.ask_attr].
  tstep. tstep. cbn [Analysis.document_env Analysis.ask_attr].
  tstep. unfold tpost at 1. rewrite find_label_text_document.
  rewrite str_or_first_nonempty.
  destruct (truthy (first_nonempty _)); cbn [negb]; [|tstep; reflexivity].
  tstep. tstep. tstep. cbn [Analysis.document_env Analysis.ask_attr].
  destruct (Analysis.attribute d field "required") as [v|]; [tstep; tstep; reflexivity|].
  tstep. tstep. cbn [Analysis.document_env Analysis.ask_attr].
  tstep. tstep. reflexivity.
Qed.

(** X20.  On a document, the analysis gives a field the first non-empty string
    among the stripped text of its label (the label for its id, or else its
    ancestor label, or else the label beside it), its placeholder, its name
    and its id, and describes no field when all four are empty; the name is
    the name attribute or else the id, the type is the type attribute or
    else "text", and the field is required when it has a [required]
    attribute or its [aria-required] attribute is "true". *)
Theorem get_field_info_on_document (d : Analysis.Document) (field : WebElement)
        (t : list Analysis.call) :
  snd (Analysis.get_field_info (Analysis.document_env d) true field t)
  = Ok (document_field d field).
Proof. apply get_field_info_document. Qed.

(** ** The run of an analysis *)

Lemma temits_only_ret {call} (P : call -> bool) {A} (a : A) :
  temits_only P (Traced.ret (call := call) a).
Proof. intros t. reflexivity. Qed.

Lemma temits_only_raise {call} (P : call -> bool) {A} e :
  temits_only P (Traced.raise (call := call) (A := A) e).
Proof. intros t. reflexivity. Qed.

Lemma temits_only_ask {call} (P : call -> bool) {A} (oracle : list call -> call -> result A) c :
  P c = true -> temits_only P (Traced.ask oracle c).
Proof. intros H t. simpl. rewrite H. reflexivity. Qed.

Lemma temits_only_emit {call} (P : call -> bool) (c : call) :
  P c = true -> temits_only P (Traced.emit c).
Proof. intros H t. simpl. rewrite H. reflexivity. Qed.

Lemma temits_only_bind {call} (P : call -> bool) {A B}
      (m : Traced.T call A) (k : A -> Traced.T call B) :
  temits_only P m -> (forall a, temits_only P (k a)) -> temits_only P (Traced.bind m k).
Proof.
  intros Hm Hk t. specialize (Hm t). unfold Traced.bind.
  destruct (m t) as [evs1 [a|e]]; simpl in *; auto.
  specialize (Hk a (t ++ evs1)%list). destruct (k a (t ++ evs1)%list); simpl in *.
  rewrite forallb_app, Hm, Hk. reflexivity.
Qed.

Lemma temits_only_try_except {call} (P : call -> bool) {A}
      (m : Traced.T call A) (catches : exn -> bool) handler :
  temits_only P m -> (forall e, temits_only P (handler e)) ->
  temits_only P (Traced.try_except m catches handler).
Proof.
  intros Hm Hh t. specialize (Hm t). unfold Traced.try_except.
  destruct (m t) as [evs1 [a|e]]; simpl in *; auto.
  destruct (catches e); simpl; auto.
  specialize (Hh e (t ++ evs1)%list). destruct (handler e (t ++ evs1)%list); simpl in *.
  rewrite forallb_app, Hm, Hh. reflexivity.
Qed.

Ltac temits :=
  repeat (intros;
          first
            [ solve [auto]
            | apply temits_only_ret
            | apply temits_only_raise
            | apply temits_only_ask; reflexivity
            | apply temits_only_emit; reflexivity
            | apply temits_only_bind
            | apply temits_only_try_except
            | progress cbv zeta
            | match goal with
              | |- temits_only _ (if ?b then _ else _) => destruct b
              | |- temits_only _ (match ?x with _ => _ end) => destruct x
              end ]).

Lemma label_by_keeps_fields env lookup :
  temits_only keeps_fields lookup ->
  temits_only keeps_fields (Analysis.label_by env lookup).
Proof. intros H. unfold Analysis.label_by, Analysis.text. temits. Qed.

Lemma get_field_info_keeps_fields env driver field :
  temits_only keeps_fields (Analysis.get_field_info env driver field).
Proof.
  pose proof (label_by_keeps_fields env) as Hlabel.
  unfold Analysis.get_field_info, Analysis.read_required, Analysis.find_label_text,
    Analysis.log.
  assert (Hfind : forall by_ sel,
             temits_only keeps_fields (Analysis.find_element env by_ sel))
    by (intros; unfold Analysis.find_element; temits).
  assert (Hefind : forall e by_ sel,
             temits_only keeps_fields (Analysis.element_find_element env e by_ sel))
    by (intros; unfold Analysis.element_find_element; temits).
  unfold Analysis.get_attribute. temits.
Qed.

Lemma appended_app a b :
  Analysis.appended (a ++ b)%list = (Analysis.appended a ++ Analysis.appended b)%list.
Proof.
  induction a as [|c a IH]; [reflexivity|].
  destruct c; cbn [app Analysis.appended]; rewrite ?IH; reflexivity.
Qed.

Lemma appended_none evs : forallb keeps_fields evs = true -> Analysis.appended evs = [].
Proof.
  induction evs as [|c evs IH]; [reflexivity|]. cbn [forallb]. intros H.
  apply andb_prop in H. destruct H as [Hc Hevs].
  destruct c; try discriminate Hc; cbn [Analysis.appended]; apply IH; exact Hevs.
Qed.

Lemma fields_loop_post env input_elements t :
  tpost (Analysis.fields_loop env input_elements) t
        (fun evs r => r = Ok tt /\ Forall describable (Analysis.appended evs)).
Proof.
  revert t. induction input_elements as [|field rest IH]; intros t;
    [split; [reflexivity|constructor]|].
  cbn [Analysis.fields_loop]. unfold Analysis.log.
  pose proof (get_field_info_post env true field t) as Hinfo.
  pose proof (get_field_info_keeps_fields env true field t) as Hkeeps.
  apply appended_none in Hkeeps.
  tstep. unfold tpost at 1. unfold tpost in Hinfo.
  destruct (Analysis.get_field_info env true field t) as [evs1 [[info|]|e]];
    cbn [fst snd] in *; [| |contradiction].
  - tstep. tstep. tstep. tstep. eapply tpost_conseq; [apply IH|].
    intros evs2 r [-> Hall]. split; [reflexivity|].
    rewrite !appended_app, Hkeeps. cbn [Analysis.appended app].
    constructor; assumption.
  - tstep. tstep. eapply tpost_conseq; [apply IH|].
    intros evs2 r [-> Hall]. split; [reflexivity|].
    rewrite !appended_app, Hkeeps. exact Hall.
Qed.

Lemma last_call_snoc {call} (l : list call) (c : call) : last_call (l ++ [c])%list = Some c.
Proof. unfold last_call. rewrite rev_app_distr. reflexivity. Qed.

(** X21.  Whatever the browser answers: every field that an analysis appends to
    [form_fields] has a label, a type and a header that are not empty; when
    the browser starts, the last call of the analysis is [quit]; and the only
    exception that can leave the analysis is one raised by that [quit]. *)
Theorem analyze_form_outcome (env : Analysis.Browser) (url : string) (driver : bool)
        (form_fields : list Analyzer.FormField) (t : list Analysis.call) :
  let evs := fst (Analysis.analyze_form env url driver form_fields t) in
  Forall describable (Analysis.appended evs) /\
  (Analysis.ask_unit env t Analysis.StartBrowser = Ok tt ->
   last_call evs = Some Analysis.Quit) /\
  (forall e,
      snd (Analysis.analyze_form env url driver form_fields t) = Raise e ->
      exists pre,
        evs = (pre ++ [Analysis.Quit])%list /\
        Analysis.ask_unit env (t ++ pre)%list Analysis.Quit = Raise e).
Proof.
  cbv zeta.
  set (Q := fun (evs : list Analysis.call) (r : result unit) =>
              Forall describable (Analysis.appended evs) /\
              (Analysis.ask_unit env t Analysis.StartBrowser = Ok tt ->
               last_call evs = Some Analysis.Quit) /\
              (forall e,
                  r = Raise e ->
                  exists pre,
                    evs = (pre ++ [Analysis.Quit])%list /\
                    Analysis.ask_unit env (t ++ pre)%list Analysis.Quit = Raise e)).
  change (Q (fst (Analysis.analyze_form env url driver form_fields t))
            (snd (Analysis.analyze_form env url driver form_fields t))).
  unfold Analysis.analyze_form.
  match goal with |- Q (fst (?m t)) (snd (?m t)) => change (tpost m t Q) end.
  unfold Analysis.setup_driver_outcome, Analysis.start_browser, Analysis.log.
  tstep. tstep. tstep. tstep.
  destruct (Analysis.ask_unit env t Analysis.StartBrowser) as [[]|e0] eqn:Hstart.
  - tstep. tstep. tstep. tstep.
    eapply (tpost_conseq _ _ (fun evs1 r1 =>
                                r1 = Ok tt /\ Forall describable (Analysis.appended evs1))).
    + unfold Analysis.driver_get, Analysis.wait_all_present.
      tstep. tstep. tstep.
      destruct (Analysis.ask_unit env _ (Analysis.Get url)) as [[]|e];
        [|cbn [any_exception]; tstep; split; [reflexivity|constructor]].
      tstep. tstep.
      destruct (Analysis.ask_elements env _ _) as [input_elements|e];
        [|cbn [any_exception]; tstep; split; [reflexivity|constructor]].
      tstep. eapply tpost_conseq; [apply fields_loop_post|].
      intros evs r [-> Hall]. unfold tpost, Analysis.log_found, Analysis.log, Traced.emit.
      cbn [fst snd]. split; [reflexivity|].
      rewrite !appended_app. cbn [Analysis.appended app]. rewrite app_nil_r. exact Hall.
    + intros evs1 r1 [-> Hall]. unfold Analysis.driver_quit. tstep.
      destruct (Analysis.ask_unit env _ Analysis.Quit) as [[]|e] eqn:Hquit; unfold Q.
      * split; [rewrite !appended_app; cbn [Analysis.appended app]; rewrite app_nil_r;
                exact Hall|].
        split; [intros _; rewrite !app_assoc; apply last_call_snoc|discriminate].
      * split; [rewrite !appended_app; cbn [Analysis.appended app]; rewrite app_nil_r;
                exact Hall|].
        split; [intros _; rewrite !app_assoc; apply last_call_snoc|].
        intros e' Heq. injection Heq as <-.
        eexists. split; [rewrite !app_assoc; reflexivity|].
        rewrite <- Hquit. f_equal. cbn [app]. rewrite <- !app_assoc. reflexivity.
  - cbn [any_exception]. tstep. tstep.
    assert (Hnone : forall evs r,
               Analysis.appended evs = [] ->
               (forall e,
                   r = Raise e ->
                   exists pre,
                     evs = (pre ++ [Analysis.Quit])%list /\
                     Analysis.ask_unit env (t ++ pre)%list Analysis.Quit = Raise e) ->
               Q evs r).
    { intros evs r Happ Hraise. unfold Q. rewrite Happ.
      split; [constructor|]. split; [discriminate|exact Hraise]. }
    destruct driver.
    + unfold Analysis.driver_quit. tstep. tstep. tstep.
      destruct (Analysis.ask_unit env _ Analysis.Quit) as [[]|e2] eqn:Hquit1.
      * tstep. tstep. tstep. tstep. apply Hnone; [reflexivity|discriminate].
      * cbn [any_exception]. tstep. tstep. tstep. tstep.
        match goal with
        | |- match ?x with _ => _ end => destruct x as [[]|e3] eqn:Hquit2
        end; apply Hnone; try reflexivity; try discriminate.
        intros e' Heq. injection Heq as <-.
        eexists. split; [rewrite !app_assoc; reflexivity|].
        rewrite <- Hquit2. f_equal. cbn [app]. rewrite <- !app_assoc. reflexivity.
    + tstep. tstep. tstep. tstep. apply Hnone; [reflexivity|discriminate].
Qed.

Lemma skipn_length_app {X} (a b : list X) : skipn (List.length a) (a ++ b)%list = b.
Proof. induction a as [|x a IH]; [reflexivity|exact IH]. Qed.

Lemma fields_loop_document d input_elements t :
  tpost (Analysis.fields_loop (Analysis.document_env d) input_elements) t
        (fun evs r => r = Ok tt /\ Analysis.appended evs = document_fields d input_elements).
Proof.
  revert t. induction input_elements as [|field rest IH]; intros t; [split; reflexivity|].
  cbn [Analysis.fields_loop document_fields]. unfold Analysis.log.
  pose proof (get_field_info_document d field t) as Hinfo.
  pose proof (get_field_info_keeps_fields (Analysis.document_env d) true field t) as Hkeeps.
  apply appended_none in Hkeeps.
  tstep. unfold tpost at 1.
  destruct (Analysis.get_field_info (Analysis.document_env d) true field t) as [evs1 r1];
    cbn [fst snd] in *. subst r1.
  destruct (document_field d field) as [info|].
  - tstep. tstep. tstep. tstep. eapply tpost_conseq; [apply IH|].
    intros evs2 r [-> Hall]. split; [reflexivity|].
    rewrite !appended_app, Hkeeps, Hall. reflexivity.
  - tstep. tstep. eapply tpost_conseq; [apply IH|].
    intros evs2 r [-> Hall]. split; [reflexivity|].
    rewrite !appended_app, Hkeeps, Hall. reflexivity.
Qed.

(** X22.  On a document, an analysis returns; it appends to [form_fields] the
    descriptions of the elements that can be described, in document order;
    it then logs the number of fields, those it started with and those it
    appended, and quits the browser. *)
Theorem analyze_form_on_document (d : Analysis.Document) (url : string) (driver : bool)
        (form_fields : list Analyzer.FormField) (t : list Analysis.call) :
  let evs := fst (Analysis.analyze_form (Analysis.document_env d) url driver form_fields t) in
  snd (Analysis.analyze_form (Analysis.document_env d) url driver form_fields t) = Ok tt /\
  Analysis.appended evs = document_fields d (Analysis.elements d) /\
  exists pre,
    evs = (pre ++ [Analysis.Log INFO
                     (Analysis.FoundFields
                        (List.length form_fields
                         + List.length (document_fields d (Analysis.elements d))));
                   Analysis.Quit])%list.
Proof.
  cbv zeta.
  set (Q := fun (evs : list Analysis.call) (r : result unit) =>
              r = Ok tt /\
              Analysis.appended evs = document_fields d (Analysis.elements d) /\
              exists pre,
                evs = (pre ++ [Analysis.Log INFO
                                 (Analysis.FoundFields
                                    (List.length form_fields
                                     + List.length (document_fields d (Analysis.elements d))));
                               Analysis.Quit])%list).
  change (Q (fst (Analysis.analyze_form (Analysis.document_env d) url driver form_fields t))
            (snd (Analysis.analyze_form (Analysis.document_env d) url driver form_fields t))).
  unfold Analysis.analyze_form.
  match goal with |- Q (fst (?m t)) (snd (?m t)) => change (tpost m t Q) end.
  unfold Analysis.setup_driver_outcome, Analysis.start_browser, Analysis.log.
  tstep. tstep. tstep. tstep. cbn [Analysis.document_env Analysis.ask_unit].
  tstep. tstep. tstep. tstep.
  unfold Analysis.driver_get, Analysis.wait_all_present.
  tstep. tstep. tstep. cbn [Analysis.document_env Analysis.ask_unit].
  tstep. tstep. cbn [Analysis.document_env Analysis.ask_elements].
  tstep. eapply tpost_conseq; [apply fields_loop_document|].
  intros evs r [-> Hall].
  unfold tpost at 1. unfold Analysis.log_found, Analysis.log, Traced.emit. cbn [fst snd].
  unfold Analysis.driver_quit. tstep. cbn [Analysis.document_env Analysis.ask_unit].
  unfold Q. split; [reflexivity|]. split.
  - rewrite !appended_app. cbn [Analysis.appended app]. rewrite ?app_nil_r. exact Hall.
  - match goal with
    | |- context [skipn (List.length t) ?h] =>
        replace (skipn (List.length t) h)
          with ([Analysis.StartBrowser; Analysis.Log INFO Analysis.BrowserSetupCompleted;
                 Analysis.Get url;
                 Analysis.WaitAllPresent XPATH
                   "//input[not(@type='hidden')] | //select | //textarea"] ++ evs)%list
    end.
    + rewrite appended_app. cbn [Analysis.appended app]. rewrite Hall.
      exists ([Analysis.StartBrowser; Analysis.Log INFO Analysis.BrowserSetupCompleted;
               Analysis.Get url;
               Analysis.WaitAllPresent XPATH
                 "//input[not(@type='hidden')] | //select | //textarea"] ++ evs)%list.
      cbn [app]. rewrite ?app_nil_r, <- !app_assoc. reflexivity.
    + symmetry. cbn [app]. rewrite <- !app_assoc. cbn [app]. apply skipn_length_app.
Qed.

(** The analysis of [signup_document] and the headers of its template: the
    email input takes the stripped text of its label and is required, the
    second input takes its placeholder, and the third control is left out. *)
Example signup_template :
  Analyzer.create_excel_template_headers
    (Analysis.appended
       (fst (Analysis.analyze_form (Analysis.document_env signup_document)
               "https://example.test/signup" false [] [])))
  = ["Email address *"; "Your name"].
Proof. vm_compute. reflexivity. Qed.

(** * The methods of the BDO form filler *)

(** ** Filling and confirming the form *)

Lemma click_next_post env t :
  tpost (Chrome.click_next env) t
        (fun _ r => match r with Ok (Some b) => b = false | _ => True end).
Proof.
  unfold Chrome.click_next, Chrome.find_element, Chrome.execute_script, Chrome.log.
  tstep. tstep. tstep.
  destruct (Chrome.ask_element env t _) as [next_button|e].
  - tstep. tstep. destruct (Chrome.ask_bool env _ _) as [b|e]; [tstep; exact I|].
    cbn [any_exception]. tstep. tstep. tstep.
    destruct (Chrome.ask_element env _ _) as [next2|e2].
    + tstep. tstep. destruct (Chrome.ask_bool env _ _) as [b|e3]; [tstep; exact I|].
      cbn [any_exception]. tstep. tstep.
      destruct (Chrome.ask_bool env _ _) as [[]|e4]; cbn [negb]; try exact I.
      tstep. tstep. tstep. reflexivity.
    + cbn [any_exception]. tstep. tstep.
      destruct (Chrome.ask_bool env _ _) as [[]|e4]; cbn [negb]; try exact I.
      tstep. tstep. tstep. reflexivity.
  - cbn [any_exception]. tstep. tstep. tstep.
    destruct (Chrome.ask_element env _ _) as [next2|e2].
    + tstep. tstep. destruct (Chrome.ask_bool env _ _) as [b|e3]; [tstep; exact I|].
      cbn [any_exception]. tstep. tstep.
      destruct (Chrome.ask_bool env _ _) as [[]|e4]; cbn [negb]; try exact I.
      tstep. tstep. tstep. reflexivity.
    + cbn [any_exception]. tstep. tstep.
      destruct (Chrome.ask_bool env _ _) as [[]|e4]; cbn [negb]; try exact I.
      tstep. tstep. tstep. reflexivity.
Qed.

Lemma confirm_popup_post env t :
  tpost (Chrome.confirm_popup env) t
        (fun evs r =>
           r = Ok true ->
           exists popup_btn clicked,
             evs = [popup_wait; popup_click popup_btn] /\
             Chrome.ask_element env t popup_wait = Ok popup_btn /\
             Chrome.ask_bool env (t ++ [popup_wait])%list (popup_click popup_btn) = Ok clicked).
Proof.
  unfold Chrome.confirm_popup, Chrome.wait_clickable, Chrome.execute_script, Chrome.log.
  fold popup_wait.
  tstep. tstep. tstep.
  destruct (Chrome.ask_element env t popup_wait) as [popup_btn|e] eqn:Hwait.
  - tstep. tstep. fold (popup_click popup_btn).
    destruct (Chrome.ask_bool env _ (popup_click popup_btn)) as [clicked|e] eqn:Hclick.
    + tstep. intros _. exists popup_btn, clicked. repeat split. exact Hclick.
    + destruct (Chrome.is_timeout e); [tstep; tstep; tstep|]; discriminate.
  - destruct (Chrome.is_timeout e); [tstep; tstep; tstep|]; discriminate.
Qed.

Lemma fill_form_post env phone_number t :
  tpost (Chrome.fill_form env true phone_number) t
        (fun evs r =>
           (exists rest, evs = fill_call phone_number :: rest) /\
           match r with
           | Ok true => popup_confirmed env t evs
           | Ok false => True
           | Raise _ => False
           end /\
           (Chrome.ask_bool env t (fill_call phone_number) = Ok false ->
            r = Ok false /\
            evs = [fill_call phone_number;
                   Chrome.Log ERROR Chrome.FailedToFillFormFields])).
Proof.
  unfold Chrome.fill_form. cbn [negb]. unfold Chrome.execute_script at 1, Chrome.log.
  fold (fill_call phone_number).
  tstep. tstep. tstep.
  destruct (Chrome.ask_bool env t (fill_call phone_number)) as [[]|e] eqn:Hfill; cbn [negb].
  - tstep. eapply tpost_conseq; [apply click_next_post|].
    intros evs1 [[b|]|e] H.
    + subst b. tstep. split; [eexists; reflexivity|]. split; [exact I|discriminate].
    + eapply tpost_conseq; [apply confirm_popup_post|].
      intros evs2 [[]|e] H2.
      * split; [eexists; reflexivity|]. split; [|discriminate].
        destruct (H2 eq_refl) as [popup_btn [clicked [-> [Hwait Hclick]]]].
        exists ([fill_call phone_number] ++ evs1)%list, popup_btn, clicked.
        split; [rewrite <- !app_assoc; reflexivity|].
        split; [rewrite <- Hwait; f_equal; rewrite <- !app_assoc; reflexivity|].
        rewrite <- Hclick. f_equal. rewrite <- !app_assoc. reflexivity.
      * split; [eexists; reflexivity|]. split; [exact I|discriminate].
      * cbn [any_exception]. tstep. tstep. tstep.
        split; [eexists; reflexivity|]. split; [exact I|discriminate].
    + cbn [any_exception]. tstep. tstep. tstep.
      split; [eexists; reflexivity|]. split; [exact I|discriminate].
  - tstep. tstep. tstep. split; [eexists; reflexivity|]. split; [exact I|].
    intros _. split; reflexivity.
  - cbn [any_exception]. tstep. tstep. tstep.
    split; [eexists; reflexivity|]. split; [exact I|discriminate].
Qed.

(** X23.  Whatever the browser answers, [fill_form] returns and never raises.
    With a driver, its first call runs the fill script on the data derived
    from the number; when that script returns a false value nothing is
    clicked and the result is false; and the result is true only when the
    last two calls are the wait for the popup button and the click on it,
    both accepted by the browser. *)
Theorem bdo_fill_form_outcome (env : Chrome.Browser) (driver : bool)
        (phone_number : string) (t : list Chrome.call) :
  exists evs success,
    Chrome.fill_form env driver phone_number t = (evs, Ok success) /\
    (if driver then exists rest, evs = fill_call phone_number :: rest else evs = []) /\
    (success = true -> popup_confirmed env t evs) /\
    (driver = true ->
     Chrome.ask_bool env t (fill_call phone_number) = Ok false ->
     success = false /\
     evs = [fill_call phone_number; Chrome.Log ERROR Chrome.FailedToFillFormFields]).
Proof.
  destruct driver.
  - pose proof (fill_form_post env phone_number t) as H. unfold tpost in H.
    destruct (Chrome.fill_form env true phone_number t) as [evs [success|e]];
      cbn [fst snd] in H; destruct H as [Hfirst [Hlast Hfalse]]; [|contradiction].
    exists evs, success. split; [reflexivity|]. split; [exact Hfirst|]. split.
    + intros ->. exact Hlast.
    + intros _ Hfill. destruct (Hfalse Hfill) as [Heq ->]. injection Heq as ->.
      split; reflexivity.
  - exists [], false. split; [reflexivity|]. split; [reflexivity|].
    split; discriminate.
Qed.

(** ** One number, from the start of the browser to its end *)

Lemma kill_chrome_post env t :
  tpost (Chrome.kill_chrome env) t
        (fun evs r => r = Ok tt /\ existsb Chrome.is_set_driver evs = false).
Proof.
  unfold Chrome.kill_chrome, Chrome.log. tstep. tstep.
  destruct (Chrome.ask_unit env t Chrome.KillChrome) as [[]|e]; [split; reflexivity|].
  cbn [any_exception]. tstep. split; reflexivity.
Qed.

Lemma setup_driver_post env driver t :
  tpost (Chrome.setup_driver env driver) t
        (fun evs r =>
           exists ready,
             r = Ok ready /\ (ready = true -> existsb Chrome.is_set_driver evs = true)).
Proof.
  set (Q := fun (evs : list Chrome.call) (r : result bool) =>
              exists ready,
                r = Ok ready /\ (ready = true -> existsb Chrome.is_set_driver evs = true)).
  unfold Chrome.setup_driver, tpost. cbv beta.
  match goal with |- Q (fst (?m t)) (snd (?m t)) => change (tpost m t Q) end.
  subst Q.
  unfold Chrome.start_chrome, Chrome.driver_get, Chrome.log, Chrome.attempt,
    Chrome.driver_quit.
  assert (Hhandler : forall e pre t',
             tpost (Traced.bind (Traced.emit (Chrome.Log ERROR (Chrome.ErrorSettingUpWebDriver e)))
                      (fun _ =>
                         Traced.bind
                           (fun t'0 =>
                              (if Chrome.driver_now driver (List.length t) t'0
                               then Traced.try_except
                                      (Traced.ask (Chrome.ask_unit env) Chrome.Quit)
                                      any_exception (fun _ => Traced.ret tt)
                               else Traced.ret tt) t'0)
                           (fun _ => Traced.ret false))) t'
                   (fun evs2 r =>
                      exists ready,
                        r = Ok ready /\
                        (ready = true ->
                         existsb Chrome.is_set_driver (pre ++ evs2)%list = true))).
  { intros e pre t'. tstep. tstep. tstep. unfold tpost at 1.
    match goal with
    | |- context [Chrome.driver_now driver ?n ?h] => destruct (Chrome.driver_now driver n h)
    end.
    - unfold Traced.try_except, Traced.ask.
      match goal with
      | |- context [Chrome.ask_unit env ?h Chrome.Quit] =>
          destruct (Chrome.ask_unit env h Chrome.Quit) as [[]|e2]
      end; cbn [any_exception fst snd Traced.ret]; tstep;
        exists false; split; [reflexivity|discriminate|reflexivity|discriminate].
    - cbn [fst snd Traced.ret]. tstep. exists false. split; [reflexivity|discriminate]. }
  tstep. tstep. eapply tpost_conseq; [apply kill_chrome_post|].
  intros evs0 r0 [-> Hkill]. tstep. tstep.
  destruct (Chrome.ask_unit env _ Chrome.StartChrome) as [[]|e];
    [|cbn [any_exception]; apply Hhandler].
  tstep. tstep. tstep. tstep.
  destruct (Chrome.ask_unit env _ (Chrome.Get Chrome.url)) as [[]|e];
    [|cbn [any_exception]; apply Hhandler].
  tstep. exists true. split; [reflexivity|]. intros _.
  rewrite !existsb_app. cbn. rewrite !orb_true_r. reflexivity.
Qed.

Lemma popup_confirmed_shift env t pre evs :
  popup_confirmed env (t ++ pre)%list evs -> popup_confirmed env t (pre ++ evs)%list.
Proof.
  intros [pre' [popup_btn [clicked [-> [Hwait Hclick]]]]].
  exists (pre ++ pre')%list, popup_btn, clicked.
  split; [rewrite app_assoc; reflexivity|].
  split; [rewrite app_assoc; exact Hwait|].
  rewrite <- Hclick. f_equal. rewrite <- !app_assoc. reflexivity.
Qed.

Lemma is_set_driver_In evs :
  existsb Chrome.is_set_driver evs = true <-> In Chrome.SetDriver evs.
Proof.
  rewrite existsb_exists. split.
  - intros [c [Hin Hc]]. destruct c; try discriminate Hc. exact Hin.
  - intros Hin. exists Chrome.SetDriver. split; [exact Hin|reflexivity].
Qed.

(** X24.  Whatever the browser answers, [process_single_number] returns and never
    raises.  When the object has a driver, because it had one or because the
    browser was started, the last call quits it.  The result is true only
    when the form was confirmed just before that: the popup button became
    clickable and the click on it was accepted. *)
Theorem process_single_number_outcome (env : Chrome.Browser) (driver : bool)
        (phone_number : string) (t : list Chrome.call) :
  exists evs success,
    Chrome.process_single_number env driver phone_number t = (evs, Ok success) /\
    (driver = true \/ In Chrome.SetDriver evs -> last_call evs = Some Chrome.Quit) /\
    (success = true ->
     exists body, evs = (body ++ [Chrome.Quit])%list /\ popup_confirmed env t body).
Proof.
  set (Q := fun (evs : list Chrome.call) (r : result bool) =>
              exists success,
                r = Ok success /\
                (driver = true \/ In Chrome.SetDriver evs -> last_call evs = Some Chrome.Quit) /\
                (success = true ->
                 exists body, evs = (body ++ [Chrome.Quit])%list /\ popup_confirmed env t body)).
  assert (HQ : Q (fst (Chrome.process_single_number env driver phone_number t))
                 (snd (Chrome.process_single_number env driver phone_number t))).
  { unfold Chrome.process_single_number.
    match goal with |- Q (fst (?m t)) (snd (?m t)) => change (tpost m t Q) end.
    tstep.
    eapply (tpost_conseq _ _
              (fun evs1 r1 =>
                 exists success,
                   r1 = Ok success /\
                   (success = true ->
                    popup_confirmed env t evs1 /\
                    existsb Chrome.is_set_driver evs1 = true))).
    - unfold Chrome.log. tstep. tstep.
      eapply tpost_conseq; [apply setup_driver_post|].
      intros evs0 r0 [ready [-> Hready]]. destruct ready.
      + specialize (Hready eq_refl). unfold tpost at 1.
        assert (Hnow : Chrome.driver_now driver (List.length t) (t ++ evs0)%list = true).
        { unfold Chrome.driver_now. rewrite skipn_length_app, Hready. apply orb_true_r. }
        rewrite Hnow.
        pose proof (fill_form_post env phone_number (t ++ evs0)%list) as Hfill.
        unfold tpost in Hfill.
        destruct (Chrome.fill_form env true phone_number (t ++ evs0)%list)
          as [evs1 [success|e]]; cbn [fst snd] in *;
          destruct Hfill as [_ [Hlast _]]; [|contradiction].
        exists success. split; [reflexivity|]. intros ->. split.
        * apply popup_confirmed_shift. exact Hlast.
        * rewrite existsb_app, Hready. reflexivity.
      + tstep. exists false. split; [reflexivity|discriminate].
    - intros evs1 r1 [success [-> Hsuccess]]. unfold tpost at 1.
      destruct (Chrome.driver_now driver (List.length t) (t ++ evs1)%list) eqn:Hnow.
      + unfold Chrome.attempt, Chrome.driver_quit, Traced.try_except, Traced.ask.
        destruct (Chrome.ask_unit env (t ++ evs1)%list Chrome.Quit) as [[]|e];
          cbn [any_exception Traced.ret fst snd]; rewrite ?app_nil_r;
          exists success; (split; [reflexivity|]);
          (split; [intros _; apply last_call_snoc|]);
          intros Hs; exists evs1; (split; [reflexivity|]); exact (proj1 (Hsuccess Hs)).
      + cbn [Traced.ret fst snd]. rewrite app_nil_r.
        unfold Chrome.driver_now in Hnow. rewrite skipn_length_app in Hnow.
        apply orb_false_elim in Hnow. destruct Hnow as [Hd Hset].
        exists success. split; [reflexivity|]. split.
        * intros [Hdriver|Hin]; [congruence|].
          apply is_set_driver_In in Hin. congruence.
        * intros Hs. destruct (Hsuccess Hs) as [_ Hset']. congruence. }
  destruct (Chrome.process_single_number env driver phone_number t) as [evs r].
  cbn [fst snd] in HQ. destruct HQ as [success [-> [Hquit Hconfirmed]]].
  exists evs, success. split; [reflexivity|]. split; assumption.
Qed.

(** ** Waiting for an element *)

Lemma strategies_loop_post env strategies t :
  tpost (Chrome.strategies_loop env strategies) t
        (fun evs r =>
           match r with
           | Ok (Some element) => found_first env strategies t evs element
           | Ok None => all_missed env t strategies evs
           | Raise _ => False
           end).
Proof.
  revert t. induction strategies as [|[by_ selector] rest IH]; intros t; [reflexivity|].
  cbn [Chrome.strategies_loop]. unfold Chrome.wait_present, Chrome.is_displayed.
  assert (Hrest : forall pre,
             strategy_missed env t (by_, selector) pre ->
             tpost (Chrome.strategies_loop env rest) (t ++ pre)%list
                   (fun evs2 r =>
                      match r with
                      | Ok (Some element) =>
                          found_first env ((by_, selector) :: rest) t
                                      (pre ++ evs2)%list element
                      | Ok None => all_missed env t ((by_, selector) :: rest) (pre ++ evs2)%list
                      | Raise _ => False
                      end)).
  { intros pre Hpre. eapply tpost_conseq; [apply IH|].
    intros evs2 [[element|]|e] H; [| |exact H].
    - destruct H as [before [s [after [pre' [Hs [Hmiss [-> [Hwait Hshown]]]]]]]].
      exists ((by_, selector) :: before), s, after, (pre ++ pre')%list.
      split; [rewrite Hs; reflexivity|].
      split; [exists pre, pre'; auto|].
      split; [rewrite app_assoc; reflexivity|].
      split; [rewrite app_assoc; exact Hwait|].
      rewrite <- Hshown. f_equal. rewrite <- !app_assoc. reflexivity.
    - exists pre, evs2. auto. }
  tstep. tstep. tstep. tstep.
  destruct (Chrome.ask_element env t _) as [element|e] eqn:Hwait.
  - tstep. tstep.
    destruct (Chrome.ask_bool env _ (Chrome.IsDisplayed element)) as [[]|e] eqn:Hshown.
    + tstep. tstep.
      exists [], (by_, selector), rest, [].
      split; [reflexivity|]. split; [reflexivity|]. split; [reflexivity|].
      rewrite app_nil_r. split; [exact Hwait|exact Hshown].
    + tstep. apply (Hrest [wait_call (by_, selector); Chrome.IsDisplayed element]).
      right. exists element. split; [exact Hwait|]. split; [|reflexivity].
      unfold wait_call. cbn [fst snd]. rewrite Hshown. discriminate.
    + cbn [any_exception]. tstep.
      apply (Hrest [wait_call (by_, selector); Chrome.IsDisplayed element]).
      right. exists element. split; [exact Hwait|]. split; [|reflexivity].
      unfold wait_call. cbn [fst snd]. rewrite Hshown. discriminate.
  - cbn [any_exception]. tstep. apply (Hrest [wait_call (by_, selector)]).
    left. exists e. split; [exact Hwait|reflexivity].
Qed.

(** X25.  Whatever the browser answers, [wait_for_element] returns and never
    raises.  It waits for the strategies of the locator in their order; it
    returns the first element that a wait returns and that is displayed:
    every strategy before the one that found it was waited for and gave no
    displayed element (the wait raised, or the element it returned was not
    displayed or could not be asked), and no strategy after it is waited
    for.  It returns [None] only after every strategy was waited for and
    gave no displayed element (or at once, without a driver or a wait). *)
Theorem wait_for_element_outcome (env : Chrome.Browser) (driver wait : bool)
        (locator : Chrome.ElementLocator) (t : list Chrome.call) :
  exists evs found,
    Chrome.wait_for_element env driver wait locator t = (evs, Ok found) /\
    match found with
    | Some element => found_first env (Chrome.strategies locator) t evs element
    | None =>
        if driver && wait
        then all_missed env t (Chrome.strategies locator) evs
        else evs = []
    end.
Proof.
  unfold Chrome.wait_for_element.
  destruct driver, wait; cbn [negb orb andb];
    try (exists [], None; split; reflexivity).
  pose proof (strategies_loop_post env (Chrome.strategies locator) t) as H.
  unfold tpost in H. unfold Traced.try_except.
  destruct (Chrome.strategies_loop env (Chrome.strategies locator) t) as [evs [found|e]];
    cbn [fst snd] in H; [|contradiction].
  exists evs, found. split; [reflexivity|]. destruct found; exact H.
Qed.

(** ** Clicking a button *)

Lemma filter_none_of {X} (P : X -> bool) (l : list X) :
  forallb (fun x => negb (P x)) l = true -> filter P l = [].
Proof.
  induction l as [|x l IH]; [reflexivity|]. cbn [forallb filter]. intros H.
  apply andb_prop in H. destruct H as [Hx Hl].
  apply negb_true_iff in Hx. rewrite Hx. exact (IH Hl).
Qed.

Lemma strategies_loop_no_click env strategies :
  temits_only not_click_call (Chrome.strategies_loop env strategies).
Proof.
  induction strategies as [|[by_ selector] rest IH]; cbn [Chrome.strategies_loop];
    unfold Chrome.wait_present, Chrome.is_displayed; temits.
Qed.

Lemma wait_for_element_no_click env driver wait locator :
  temits_only not_click_call (Chrome.wait_for_element env driver wait locator).
Proof.
  pose proof (strategies_loop_no_click env) as Hloop.
  unfold Chrome.wait_for_element, Chrome.log. temits.
Qed.

Lemma wait_for_element_post env driver wait locator t :
  tpost (Chrome.wait_for_element env driver wait locator) t
        (fun evs r =>
           exists found,
             r = Ok found /\ filter is_click_call evs = [] /\
             (found <> None -> driver = true) /\
             match found with
             | Some element => found_first env (Chrome.strategies locator) t evs element
             | None => True
             end).
Proof.
  pose proof (wait_for_element_no_click env driver wait locator t) as Hno.
  apply filter_none_of in Hno.
  unfold tpost. unfold Chrome.wait_for_element in *.
  destruct driver, wait; cbn [negb orb] in *;
    try (exists None; split; [reflexivity|]; split; [reflexivity|];
         split; [intros H; contradiction|exact I]).
  pose proof (strategies_loop_post env (Chrome.strategies locator) t) as H.
  unfold tpost in H. unfold Traced.try_except in *.
  destruct (Chrome.strategies_loop env (Chrome.strategies locator) t) as [evs [found|e]];
    cbn [fst snd] in *; [|contradiction].
  exists found. split; [reflexivity|]. split; [exact Hno|]. split; [reflexivity|].
  destruct found; [exact H|exact I].
Qed.

Lemma ensure_interactable_post env element t :
  tpost (Chrome.ensure_element_interactable env true element) t
        (fun evs r =>
           exists interactable,
             r = Ok interactable /\ filter is_click_call evs = [] /\
             (interactable = true ->
              evs = interactable_calls element /\ made_interactable env t element)).
Proof.
  unfold Chrome.ensure_element_interactable. cbn [negb].
  unfold Chrome.execute_script, Chrome.is_displayed, Chrome.is_enabled, Chrome.move_to,
    Chrome.log.
  assert (Hhandler : forall e pre t',
             filter is_click_call pre = [] ->
             tpost (Traced.bind
                      (Traced.emit (Chrome.Log ERROR (Chrome.ErrorEnsuringInteractability e)))
                      (fun _ => Traced.ret false)) t'
                   (fun evs2 r =>
                      exists interactable,
                        r = Ok interactable /\ filter is_click_call (pre ++ evs2)%list = [] /\
                        (interactable = true ->
                         (pre ++ evs2)%list = interactable_calls element /\
                         made_interactable env t element))).
  { intros e pre t' Hpre. tstep. tstep. tstep. exists false.
    split; [reflexivity|]. split; [|discriminate].
    rewrite filter_app, Hpre. reflexivity. }
  tstep. tstep. tstep.
  destruct (Chrome.ask_bool env t _) as [scrolled|e] eqn:Hscroll;
    [|cbn [any_exception]; apply Hhandler; reflexivity].
  tstep. tstep.
  destruct (Chrome.ask_bool env _ (Chrome.IsDisplayed element)) as [[]|e] eqn:Hshown;
    cbn [negb];
    [|tstep; exists false; split; [reflexivity|]; split; [reflexivity|discriminate]
     |cbn [any_exception]; apply Hhandler; reflexivity].
  tstep. tstep.
  destruct (Chrome.ask_bool env _ (Chrome.IsEnabled element)) as [[]|e] eqn:Henabled;
    cbn [negb];
    [|tstep; exists false; split; [reflexivity|]; split; [reflexivity|discriminate]
     |cbn [any_exception]; apply Hhandler; reflexivity].
  tstep. tstep.
  destruct (Chrome.ask_unit env _ (Chrome.MoveTo element)) as [[]|e] eqn:Hmove;
    [|cbn [any_exception]; apply Hhandler; reflexivity].
  tstep. exists true. split; [reflexivity|]. split; [reflexivity|].
  intros _. split; [reflexivity|].
  unfold made_interactable. cbn [interactable_calls firstn].
  split; [exists scrolled; exact Hscroll|]. split; [exact Hshown|].
  split; [rewrite <- Henabled|rewrite <- Hmove]; f_equal;
    rewrite <- ?app_assoc; reflexivity.
Qed.

Lemma click_methods_post env element t :
  tpost (Chrome.methods_loop (Chrome.click_methods env element)) t
        (fun evs r =>
           exists tried,
             all_rejected env t tried /\
             match r with
             | Ok true =>
                 exists c rest,
                   click_calls element = (tried ++ c :: rest)%list /\
                   evs = (tried ++ [c])%list /\
                   call_accepted env (t ++ tried)%list c
             | Ok false => tried = click_calls element /\ evs = tried
             | Raise _ => False
             end).
Proof.
  unfold Chrome.click_methods. cbn [Chrome.methods_loop].
  unfold Chrome.click, Chrome.execute_script, Chrome.actions_click, Chrome.send_keys.
  tstep. tstep. tstep. tstep.
  destruct (Chrome.ask_unit env t (Chrome.Click element)) as [[]|e1] eqn:H1.
  { tstep. tstep. exists []. split; [exact I|].
    eexists _, _. split; [reflexivity|]. split; [reflexivity|].
    cbn. rewrite app_nil_r. exact H1. }
  cbn [any_exception]. tstep. tstep. tstep. tstep. tstep. tstep.
  destruct (Chrome.ask_bool env _ (Chrome.ExecuteScript Chrome.ClickElement _))
    as [b|e2] eqn:H2.
  { tstep. tstep. tstep. exists [Chrome.Click element].
    split; [split; [exists e1; exact H1|exact I]|].
    eexists _, _. split; [reflexivity|]. split; [reflexivity|].
    cbn. exists b. rewrite <- H2. f_equal; rewrite <- ?app_assoc; reflexivity. }
  cbn [any_exception]. tstep. tstep. tstep. tstep. tstep.
  destruct (Chrome.ask_unit env _ (Chrome.ActionsClick element)) as [[]|e3] eqn:H3.
  { tstep. tstep. exists (firstn 2 (click_calls element)). split.
    - cbn. split; [exists e1; exact H1|]. split; [|exact I].
      exists e2. rewrite <- H2. f_equal; rewrite <- ?app_assoc; reflexivity.
    - eexists _, _. split; [reflexivity|]. split; [reflexivity|].
      cbn. rewrite <- H3. f_equal; rewrite <- ?app_assoc; reflexivity. }
  cbn [any_exception]. tstep. tstep. tstep. tstep. tstep.
  destruct (Chrome.ask_unit env _ (Chrome.SendKeys element Chrome.RETURN)) as [[]|e4] eqn:H4.
  { tstep. tstep. exists (firstn 3 (click_calls element)). split.
    - cbn. split; [exists e1; exact H1|].
      split; [exists e2; rewrite <- H2; f_equal; rewrite <- ?app_assoc; reflexivity|].
      split; [|exact I].
      exists e3. rewrite <- H3. f_equal; rewrite <- ?app_assoc; reflexivity.
    - eexists _, _. split; [reflexivity|]. split; [reflexivity|].
      cbn. rewrite <- H4. f_equal; rewrite <- ?app_assoc; reflexivity. }
  cbn [any_exception]. tstep. tstep. exists (click_calls element). split.
  - cbn. split; [exists e1; exact H1|].
    split; [exists e2; rewrite <- H2; f_equal; rewrite <- ?app_assoc; reflexivity|].
    split; [exists e3; rewrite <- H3; f_equal; rewrite <- ?app_assoc; reflexivity|].
    split; [|exact I].
    exists e4. rewrite <- H4. f_equal; rewrite <- ?app_assoc; reflexivity.
  - split; reflexivity.
Qed.

(** X26.  Whatever the browser answers, [click_button] returns and never raises.
    Either it attempts no click and returns false; or it has found the
    element as [wait_for_element] does, and then scrolled it into view,
    been told that it is displayed and that it is enabled, and moved the
    pointer onto it, all accepted by the browser, before the first click.
    The clicks are then the four ways of clicking that element, in their
    order, each attempted only after the browser raised on the one before
    it: the result is true when the browser accepted one, which is then the
    last call, and false when it raised on all four. *)
Theorem click_button_outcome (env : Chrome.Browser) (driver wait : bool)
        (locator : Chrome.ElementLocator) (t : list Chrome.call) :
  exists evs clicked,
    Chrome.click_button env driver wait locator t = (evs, Ok clicked) /\
    ((clicked = false /\ filter is_click_call evs = []) \/
     (exists pre element tried,
         found_first env (Chrome.strategies locator) t pre element /\
         made_interactable env (t ++ pre)%list element /\
         all_rejected env (t ++ pre ++ interactable_calls element)%list tried /\
         ((clicked = true /\
           exists c rest,
             click_calls element = (tried ++ c :: rest)%list /\
             evs = (pre ++ interactable_calls element ++ tried ++ [c])%list /\
             call_accepted env (t ++ pre ++ interactable_calls element ++ tried)%list c) \/
          (clicked = false /\
           tried = click_calls element /\
           evs = (pre ++ interactable_calls element ++ tried)%list)))).
Proof.
  set (Q := fun (evs : list Chrome.call) (r : result bool) =>
              exists clicked,
                r = Ok clicked /\
                ((clicked = false /\ filter is_click_call evs = []) \/
                 (exists pre element tried,
                     found_first env (Chrome.strategies locator) t pre element /\
                     made_interactable env (t ++ pre)%list element /\
                     all_rejected env (t ++ pre ++ interactable_calls element)%list tried /\
                     ((clicked = true /\
                       exists c rest,
                         click_calls element = (tried ++ c :: rest)%list /\
                         evs = (pre ++ interactable_calls element ++ tried ++ [c])%list /\
                         call_accepted
                           env (t ++ pre ++ interactable_calls element ++ tried)%list c) \/
                      (clicked = false /\
                       tried = click_calls element /\
                       evs = (pre ++ interactable_calls element ++ tried)%list))))).
  assert (HQ : tpost (Chrome.click_button env driver wait locator) t Q).
  { assert (Hquiet : forall evs,
               filter is_click_call evs = [] -> Q evs (Ok false)).
    { intros evs Hevs. exists false. split; [reflexivity|]. left. split; [reflexivity|exact Hevs]. }
    unfold Chrome.click_button, Chrome.log. tstep. tstep.
    eapply tpost_conseq; [apply wait_for_element_post|].
    intros evs0 r0 [found [-> [Hno0 [Hdriver Hfound]]]].
    destruct found as [element|]; [|tstep; apply Hquiet; rewrite app_nil_r; exact Hno0].
    rewrite (Hdriver ltac:(discriminate)). cbn [negb].
    tstep. tstep. tstep.
    eapply tpost_conseq; [apply ensure_interactable_post|].
    intros evs1 r1 [interactable [-> [Hno1 Hready]]].
    destruct interactable; cbn [negb];
      [|tstep; apply Hquiet; rewrite !filter_app, Hno0, Hno1; reflexivity].
    destruct (Hready eq_refl) as [-> Hmade].
    rewrite app_nil_r in Hmade.
    eapply tpost_conseq; [apply click_methods_post|].
    intros evs2 r2 [tried [Hrej Hr]].
    rewrite app_nil_r, <- app_assoc in Hrej.
    destruct r2 as [[]|e]; [| |contradiction].
    - destruct Hr as [c [rest [Hclicks [-> Hacc]]]].
      exists true. split; [reflexivity|]. right.
      exists evs0, element, tried.
      split; [exact Hfound|]. split; [exact Hmade|]. split; [exact Hrej|].
      left. split; [reflexivity|]. exists c, rest.
      split; [exact Hclicks|]. split; [reflexivity|].
      rewrite app_nil_r, <- !app_assoc in Hacc. exact Hacc.
    - destruct Hr as [-> ->].
      exists false. split; [reflexivity|]. right.
      exists evs0, element, (click_calls element).
      split; [exact Hfound|]. split; [exact Hmade|]. split; [exact Hrej|].
      right. repeat split; reflexivity. }
  unfold tpost in HQ.
  destruct (Chrome.click_button env driver wait locator t) as [evs r]. cbn [fst snd] in HQ.
  destruct HQ as [clicked [-> Hshape]].
  exists evs, clicked. split; [reflexivity|exact Hshape].
Qed.

(** ** Filling an input *)

Lemma type_chars_typed env element text t :
  tpost (Chrome.type_chars env element text) t
        (fun evs r =>
           match r with
           | Ok _ => evs = typed element text
           | Raise _ => True
           end).
Proof.
  revert t. induction text as [|c text IH]; intros t; [reflexivity|].
  cbn [Chrome.type_chars typed]. unfold Chrome.send_keys.
  tstep. tstep. destruct (Chrome.ask_unit env t _) as [[]|e]; [|exact I].
  eapply tpost_conseq; [apply IH|]. intros evs [[]|e] H; [|exact I].
  rewrite H. reflexivity.
Qed.

Lemma attr_differs_false actual text :
  Chrome.attr_differs actual text = false -> actual = Some text.
Proof.
  destruct actual as [v|]; cbn; [|discriminate]. intros H.
  apply negb_false_iff, String.eqb_eq in H. rewrite H. reflexivity.
Qed.

Lemma input_filled_shift env text t pre evs :
  input_filled env text (t ++ pre)%list evs -> input_filled env text t (pre ++ evs)%list.
Proof.
  intros [pre' [element [[-> Hread]|[actual [-> [Hread Hdiff]]]]]];
    exists (pre ++ pre')%list, element.
  - left. split; [rewrite <- !app_assoc; reflexivity|].
    rewrite <- Hread. f_equal. rewrite <- !app_assoc. reflexivity.
  - right. exists actual. split; [rewrite <- !app_assoc; reflexivity|].
    split; [|exact Hdiff]. rewrite <- Hread. f_equal. rewrite <- !app_assoc. reflexivity.
Qed.

(** The part of [fill_input] that follows the check of the element. *)
Lemma fill_input_body_post env element text t :
  tpost (Traced.bind
           (Traced.try_except (Chrome.clear env element) any_exception
              (fun _ => Traced.bind (Chrome.send_keys env element Chrome.CONTROL_a)
                          (fun _ => Chrome.send_keys env element Chrome.DELETE)))
           (fun _ =>
              Traced.bind (Chrome.type_chars env element text)
                (fun _ =>
                   Traced.bind (Chrome.get_attribute env element "value")
                     (fun actual_value =>
                        Traced.bind
                          (if Chrome.attr_differs actual_value text
                           then Traced.bind
                                  (Chrome.execute_script env Chrome.SetValue
                                     [Chrome.ArgElement element; Chrome.ArgString text])
                                  (fun _ => Traced.ret tt)
                           else Traced.ret tt)
                          (fun _ => Traced.ret true))))) t
        (fun evs r =>
           match r with
           | Ok true => input_filled env text t evs
           | _ => True
           end).
Proof.
  tstep.
  apply tpost_any. intros evs0 [[]|e0]; [|exact I].
  tstep. eapply tpost_conseq; [apply type_chars_typed|].
  intros evs1 [[]|e1] H1; [subst evs1|exact I].
  unfold Chrome.get_attribute, Chrome.execute_script. fold (value_read element).
  fold (value_assigned element text).
  tstep. tstep.
  destruct (Chrome.ask_attr env _ (value_read element)) as [actual|e2] eqn:Hread; [|exact I].
  tstep. destruct (Chrome.attr_differs actual text) eqn:Hdiff.
  - tstep. tstep.
    destruct (Chrome.ask_bool env _ (value_assigned element text)) as [b|e3]; [|exact I].
    tstep. tstep. exists evs0, element. right. exists actual.
    split; [rewrite ?app_nil_r, <- ?app_assoc; reflexivity|].
    split; [|exact Hdiff]. rewrite <- Hread. f_equal. rewrite <- !app_assoc. reflexivity.
  - tstep. tstep. exists evs0, element. left.
    split; [rewrite ?app_nil_r, <- ?app_assoc; reflexivity|].
    rewrite <- (attr_differs_false _ _ Hdiff), <- Hread. f_equal.
    rewrite <- !app_assoc. reflexivity.
Qed.

(** X27.  Whatever the browser answers, [fill_input] returns and never raises.
    A true result does not say that the input holds the text: the result is
    true when the value read back after typing is the text, and also when it
    is not and the text was then assigned by the script, without a second
    read-back. *)
Theorem fill_input_outcome (env : Chrome.Browser) (driver wait : bool)
        (locator : Chrome.ElementLocator) (text : string) (t : list Chrome.call) :
  exists evs filled,
    Chrome.fill_input env driver wait locator text t = (evs, Ok filled) /\
    (filled = true -> input_filled env text t evs).
Proof.
  set (Q := fun (evs : list Chrome.call) (r : result bool) =>
              exists filled, r = Ok filled /\ (filled = true -> input_filled env text t evs)).
  assert (HQ : tpost (Chrome.fill_input env driver wait locator text) t Q).
  { assert (Hfalse : forall evs, Q evs (Ok false)).
    { intros evs. exists false. split; [reflexivity|discriminate]. }
    unfold Chrome.fill_input, Chrome.log.
    destruct driver; cbn [negb]; [|tstep; tstep; tstep; apply Hfalse].
    tstep. eapply tpost_conseq; [apply wait_for_element_post|].
    intros evs0 r0 [found [-> _]].
    destruct found as [element|]; [|tstep; apply Hfalse].
    tstep. tstep.
    eapply tpost_conseq; [apply ensure_interactable_post|].
    intros evs1 r1 [interactable [-> _]].
    destruct interactable; cbn [negb]; [|tstep; apply Hfalse].
    eapply tpost_conseq; [apply fill_input_body_post|].
    intros evs2 [[]|e] H2.
    - exists true. split; [reflexivity|]. intros _.
      apply input_filled_shift. apply input_filled_shift. exact H2.
    - apply Hfalse.
    - cbn [any_exception]. tstep. tstep. tstep. apply Hfalse. }
  unfold tpost in HQ.
  destruct (Chrome.fill_input env driver wait locator text t) as [evs r]. cbn [fst snd] in HQ.
  destruct HQ as [filled [-> Hfilled]].
  exists evs, filled. split; [reflexivity|exact Hfilled].
Qed.

(** ** Selecting the country code *)

Lemma selection_verified_shift env code t pre evs :
  selection_verified env code (t ++ pre)%list evs ->
  selection_verified env code t (pre ++ evs)%list.
Proof.
  intros [pre' [element [value [-> [Hread Hin]]]]].
  exists (pre ++ pre')%list, element, value.
  split; [rewrite <- !app_assoc; reflexivity|].
  split; [|exact Hin]. rewrite <- Hread. f_equal. rewrite <- !app_assoc. reflexivity.
Qed.

Lemma selection_loop_post env element code methods t :
  tpost (Chrome.selection_loop env element code methods) t
        (fun evs r =>
           match r with
           | Ok true => selection_verified env code t evs
           | Ok false => True
           | Raise _ => False
           end).
Proof.
  revert t. induction methods as [|method rest IH]; intros t; [exact I|].
  cbn [Chrome.selection_loop]. unfold Chrome.get_attribute. fold (value_read element).
  assert (Hrest : forall pre,
             tpost (Chrome.selection_loop env element code rest) (t ++ pre)%list
                   (fun evs2 r =>
                      match r with
                      | Ok true => selection_verified env code t (pre ++ evs2)%list
                      | Ok false => True
                      | Raise _ => False
                      end)).
  { intros pre. eapply tpost_conseq; [apply IH|].
    intros evs2 [[]|e] H; try exact H. apply selection_verified_shift. exact H. }
  tstep. tstep. tstep.
  apply tpost_any. intros evs0 [[]|e0]; [|cbn [any_exception]; tstep; apply Hrest].
  tstep. tstep.
  destruct (Chrome.ask_attr env _ (value_read element)) as [value|e1] eqn:Hread;
    [|cbn [any_exception]; tstep; apply Hrest].
  tstep. destruct (Chrome.attr_contains value code) eqn:Hin; [|apply Hrest].
  tstep. exists evs0, element, value. split; [rewrite ?app_nil_r; reflexivity|].
  split; [exact Hread|exact Hin].
Qed.

(** X28.  Whatever the browser answers, [select_country_code] returns and never
    raises, and its result is true only when its last call is a read-back
    of the value of the dropdown that gives a non-empty value containing the
    code: unlike [fill_input], a selection is not reported without being
    verified. *)
Theorem select_country_code_outcome (env : Chrome.Browser) (driver wait : bool)
        (code : string) (t : list Chrome.call) :
  exists evs selected,
    Chrome.select_country_code env driver wait code t = (evs, Ok selected) /\
    (selected = true -> selection_verified env code t evs).
Proof.
  set (Q := fun (evs : list Chrome.call) (r : result bool) =>
              exists selected,
                r = Ok selected /\ (selected = true -> selection_verified env code t evs)).
  assert (HQ : tpost (Chrome.select_country_code env driver wait code) t Q).
  { assert (Hfalse : forall evs, Q evs (Ok false)).
    { intros evs. exists false. split; [reflexivity|discriminate]. }
    unfold Chrome.select_country_code, Chrome.log.
    destruct driver; cbn [negb]; [|tstep; tstep; tstep; apply Hfalse].
    tstep. eapply tpost_conseq; [apply wait_for_element_post|].
    intros evs0 r0 [found [-> _]].
    destruct found as [element|]; [|tstep; apply Hfalse].
    tstep. tstep.
    eapply tpost_conseq; [apply ensure_interactable_post|].
    intros evs1 r1 [interactable [-> _]].
    destruct interactable; cbn [negb]; [|tstep; apply Hfalse].
    eapply tpost_conseq; [apply selection_loop_post|].
    intros evs2 [[]|e] H2; [|apply Hfalse|contradiction].
    exists true. split; [reflexivity|]. intros _.
    apply selection_verified_shift. apply selection_verified_shift. exact H2. }
  unfold tpost in HQ.
  destruct (Chrome.select_country_code env driver wait code t) as [evs r].
  cbn [fst snd] in HQ. destruct HQ as [selected [-> Hselected]].
  exists evs, selected. split; [reflexivity|exact Hselected].
Qed.

(** ** The confirmation popup *)

(** X29.  Whatever the browser answers, [handle_popup] returns and never raises,
    and its result is true only when the wait returned the popup button,
    the browser answered that the button is displayed, and the last call is
    a click on that button that the browser accepted: the direct click, or,
    only after the browser raised on the direct click, the click by
    script. *)
Theorem handle_popup_outcome (env : Chrome.Browser) (driver wait : bool)
        (t : list Chrome.call) :
  exists evs handled,
    Chrome.handle_popup env driver wait t = (evs, Ok handled) /\
    (handled = true -> popup_handled env t evs).
Proof.
  set (Q := fun (evs : list Chrome.call) (r : result bool) =>
              exists handled,
                r = Ok handled /\ (handled = true -> popup_handled env t evs)).
  assert (HQ : tpost (Chrome.handle_popup env driver wait) t Q).
  { assert (Hfalse : forall evs, Q evs (Ok false)).
    { intros evs. exists false. split; [reflexivity|discriminate]. }
    unfold Chrome.handle_popup, Chrome.log, Chrome.wait_present, Chrome.is_displayed,
      Chrome.click, Chrome.execute_script.
    tstep. tstep.
    destruct wait; cbn [negb];
      [|tstep; cbn [any_exception]; tstep; tstep; tstep; apply Hfalse].
    tstep. tstep. tstep. fold popup_present.
    destruct (Chrome.ask_element env _ popup_present) as [ok_button|e] eqn:Hwait;
      [|cbn [any_exception]; tstep; tstep; tstep; apply Hfalse].
    tstep. tstep.
    destruct (Chrome.ask_bool env _ (Chrome.IsDisplayed ok_button)) as [[]|e] eqn:Hshown;
      [|tstep; apply Hfalse|cbn [any_exception]; tstep; tstep; tstep; apply Hfalse].
    rewrite app_nil_r in Hwait, Hshown.
    tstep. tstep. tstep.
    destruct (Chrome.ask_unit env _ (Chrome.Click ok_button)) as [[]|e] eqn:Hclick.
    - tstep. exists true. split; [reflexivity|]. intros _.
      exists ok_button. split; [exact Hwait|]. split; [exact Hshown|].
      left. split; [reflexivity|].
      cbn [call_accepted]. rewrite <- Hclick. f_equal. rewrite <- !app_assoc. reflexivity.
    - cbn [any_exception].
      destruct driver; cbn [negb];
        [|tstep; cbn [any_exception]; tstep; tstep; tstep; apply Hfalse].
      tstep. tstep. fold (popup_click ok_button).
      destruct (Chrome.ask_bool env _ (popup_click ok_button)) as [b|e2] eqn:Hscript;
        [|cbn [any_exception]; tstep; tstep; tstep; apply Hfalse].
      tstep. tstep. exists true. split; [reflexivity|]. intros _.
      exists ok_button. split; [exact Hwait|]. split; [exact Hshown|].
      right. split; [reflexivity|]. split.
      + cbn [call_rejected]. exists e. rewrite <- Hclick. f_equal.
        rewrite <- !app_assoc. reflexivity.
      + cbn [call_accepted popup_click]. exists b. fold (popup_click ok_button).
        rewrite <- Hscript. f_equal. rewrite <- !app_assoc. reflexivity. }
  unfold tpost in HQ.
  destruct (Chrome.handle_popup env driver wait t) as [evs r]. cbn [fst snd] in HQ.
  destruct HQ as [handled [-> Hhandled]].
  exists evs, handled. split; [reflexivity|exact Hhandled].
Qed.

(** ** Examples *)

(** With a browser that accepts every call, one number takes ten calls:
    the browser is started, the form filled, Next clicked by its name, the
    popup confirmed, and the browser quit. *)
Example one_number_confirmed :
  Chrome.process_single_number obliging_browser true "639171000000" []
  = ([Chrome.KillChrome; Chrome.StartChrome; Chrome.SetDriver; Chrome.Get Chrome.url;
      fill_call "639171000000";
      Chrome.FindElement Chrome.By_NAME Chrome.next_button_name;
      popup_click 1; popup_wait; popup_click 1; Chrome.Quit],
     Ok true).
Proof. vm_compute. reflexivity. Qed.

(** The locators of the form pass the check made when they are built; a
    locator by tag name does not. *)
Example locators_checked :
  Chrome.make_locator "Country Code" (Chrome.strategies Chrome.COUNTRY_CODE)
  = Ok Chrome.COUNTRY_CODE /\
  Chrome.make_locator "Next Button" (Chrome.strategies Chrome.NEXT_BUTTON)
  = Ok Chrome.NEXT_BUTTON /\
  Chrome.make_locator "Any input" [("tag name", "input")]
  = Raise (ValueError "Invalid locator strategy: tag name").
Proof. repeat split. Qed.

(** With the same browser, the Next button is found by the first strategy
    of its locator and clicked at once. *)
Example next_button_clicked :
  Chrome.click_button obliging_browser true true Chrome.NEXT_BUTTON []
  = ([wait_call (Chrome.By_CSS_SELECTOR, "button.btn.btn-primary.button.next.submit-btn");
      Chrome.IsDisplayed 1;
      Chrome.ExecuteScript Chrome.ScrollIntoView [Chrome.ArgElement 1];
      Chrome.IsDisplayed 1; Chrome.IsEnabled 1; Chrome.MoveTo 1; Chrome.Click 1],
     Ok true).
Proof. vm_compute. reflexivity. Qed.
